(** * bufu: a conversational ordering bot (src/bot.py)

    A shallow embedding of the parts of [bot.py] that carry the bot's
    conversation state machine, the aggregate updaters of a vendor record,
    the notification dispatcher and the restart recovery of scheduled
    notifications, followed by the properties established about them.

    Conventions of the embedding.
    - Values read from and written to the Realtime Database are JSON
      values ([json]); Python dictionaries are association lists in
      insertion order, as [dict.values()] and [dict.items()] expose them.
    - Python text is a [string]; the character classes used by
      [str.strip], [str.lower], [str.isdigit] and [float] are those of
      the ASCII range.
    - A Python [float] is an IEEE 754 binary64 number, a [spec_float]
      with [prec = 53] and [emax = 1024].
    - Handlers are computations in a state-and-exception monad over a
      [World]: the database tree, the scheduler's job store, and the log
      of outbound effects in program order.  Effects performed before an
      exception is raised stay performed.
    - What the program obtains from libraries that are not part of the
      source ([uuid4], [dateutil], [json.loads], [math], the chat
      transport's verdict on a send) is a field of [Env]; the clock's
      reading is a field of the [World]. *)

From Stdlib Require Import ZArith List String Ascii Bool Lia.
From Stdlib Require Import DecimalString SpecFloat Permutation Sorted.
Import ListNotations.
Open Scope string_scope.
Open Scope list_scope.
Open Scope Z_scope.

(** ** Python values *)

#[warnings="-register-all"]
Inductive json : Type :=
| JNull
| JBool (b : bool)
| JInt (z : Z)
| JFloat (f : spec_float)
| JStr (s : string)
| JList (l : list json)
| JDict (d : list (string * json)).

Inductive exn : Type :=
| KeyError | IndexError | TypeError | ValueError | NameError
| AttributeError | OverflowError | ApiError.

Inductive result (A : Type) : Type :=
| Ok (a : A)
| Raise (e : exn).
Arguments Ok {A} a.
Arguments Raise {A} e.

Module Py.

(** binary64 *)
Definition prec : Z := 53.
Definition emax : Z := 1024.
Definition float := spec_float.

Definition fmul : float -> float -> float := SFmul prec emax.
Definition fadd : float -> float -> float := SFadd prec emax.
Definition fsub : float -> float -> float := SFsub prec emax.
Definition fdiv : float -> float -> float := SFdiv prec emax.
Definition fle : float -> float -> bool := SFleb.
Definition flt : float -> float -> bool := SFltb.

(** [float(n)] for a Python [int]: round to nearest, ties to even;
    an integer too large for a double raises [OverflowError]. *)
Definition float_of_int (z : Z) : result float :=
  match binary_normalize prec emax z 0 false with
  | S754_infinity _ => Raise OverflowError
  | f => Ok f
  end.

(** The double nearest to [m * 10^e10], for a natural mantissa. *)
Definition float_of_decimal (neg : bool) (m : Z) (e10 : Z) : float :=
  match m with
  | Z0 => S754_zero neg
  | Zneg _ => S754_nan
  | Zpos p =>
      if 0 <=? e10
      then binary_round prec emax neg (p * Z.to_pos (10 ^ e10)) 0
      else
        let '(q, e', l) :=
          SFdiv_core_binary prec emax (Zpos p) 0 (10 ^ (- e10)) 0 in
        binary_round_aux prec emax neg q e' l
  end.

(** *** Text *)

Definition is_space (c : ascii) : bool :=
  let n := nat_of_ascii c in
  ((9 <=? n) && (n <=? 13) || (n =? 32) || (28 <=? n) && (n <=? 31))%nat.

Definition is_digit (c : ascii) : bool :=
  let n := nat_of_ascii c in ((48 <=? n) && (n <=? 57))%nat.

Definition digit_val (c : ascii) : Z := Z.of_nat (nat_of_ascii c) - 48.

Definition lower_char (c : ascii) : ascii :=
  let n := nat_of_ascii c in
  if ((65 <=? n) && (n <=? 90))%nat then ascii_of_nat (n + 32) else c.

Definition upper_char (c : ascii) : ascii :=
  let n := nat_of_ascii c in
  if ((97 <=? n) && (n <=? 122))%nat then ascii_of_nat (n - 32) else c.

Fixpoint map_string (f : ascii -> ascii) (s : string) : string :=
  match s with
  | EmptyString => EmptyString
  | String c s' => String (f c) (map_string f s')
  end.

(** [str.lower], [str.upper] *)
Definition lower : string -> string := map_string lower_char.
Definition upper : string -> string := map_string upper_char.

Fixpoint lstrip (s : string) : string :=
  match s with
  | String c s' => if is_space c then lstrip s' else s
  | EmptyString => EmptyString
  end.

Fixpoint rstrip (s : string) : string :=
  match s with
  | EmptyString => EmptyString
  | String c s' =>
      match rstrip s' with
      | EmptyString => if is_space c then EmptyString else String c EmptyString
      | r => String c r
      end
  end.

(** [str.strip] *)
Definition strip (s : string) : string := rstrip (lstrip s).

(** [str.isdigit]: non-empty and digits only *)
Fixpoint all_digits (s : string) : bool :=
  match s with
  | EmptyString => true
  | String c s' => is_digit c && all_digits s'
  end.

Definition isdigit (s : string) : bool :=
  match s with
  | EmptyString => false
  | _ => all_digits s
  end.

(** [s.replace(c, empty)] *)
Fixpoint remove_char (c : ascii) (s : string) : string :=
  match s with
  | EmptyString => EmptyString
  | String x s' =>
      if Ascii.eqb x c then remove_char c s' else String x (remove_char c s')
  end.

(** [s.replace(c, empty, 1)] *)
Fixpoint remove_first_char (c : ascii) (s : string) : string :=
  match s with
  | EmptyString => EmptyString
  | String x s' =>
      if Ascii.eqb x c then s' else String x (remove_first_char c s')
  end.

(** [sub in s] for two strings *)
Fixpoint contains (sub s : string) : bool :=
  prefix sub s ||
  match s with
  | EmptyString => false
  | String _ s' => contains sub s'
  end.

(** [s[:n]] *)
Fixpoint take (n : nat) (s : string) : string :=
  match n, s with
  | S n', String c s' => String c (take n' s')
  | _, _ => EmptyString
  end.

(** [str(n)] for a Python [int] *)
Definition str_of_Z (z : Z) : string := NilZero.string_of_int (Z.to_int z).

(** *** [float(text)]

    The grammar of the language reference: optional sign, then
    [inf], [infinity], [nan] in any case, or a decimal number with an
    optional exponent; digits may be grouped by single underscores;
    surrounding whitespace is ignored. *)

(** digitpart ::= digit (["_"] digit)*; returns the digits read, most
    significant first, and the remaining text. *)
Fixpoint digitpart_tail (s : string) : list ascii * string :=
  match s with
  | String c s' =>
      if is_digit c then
        let '(ds, r) := digitpart_tail s' in (c :: ds, r)
      else if Ascii.eqb c "_" then
        match s' with
        | String d s'' =>
            if is_digit d then
              let '(ds, r) := digitpart_tail s'' in (d :: ds, r)
            else ([], s)
        | EmptyString => ([], s)
        end
      else ([], s)
  | EmptyString => ([], s)
  end.

Definition digitpart (s : string) : option (list ascii * string) :=
  match s with
  | String c s' =>
      if is_digit c then
        let '(ds, r) := digitpart_tail s' in Some (c :: ds, r)
      else None
  | EmptyString => None
  end.

Definition digits_value (ds : list ascii) : Z :=
  fold_left (fun acc c => 10 * acc + digit_val c) ds 0.

Definition sign_of (s : string) : bool * string :=
  match s with
  | String "-" s' => (true, s')
  | String "+" s' => (false, s')
  | _ => (false, s)
  end.

(** exponent ::= ("e" | "E") [sign] digitpart, then the end of text *)
Definition exponent (s : string) : option Z :=
  match s with
  | EmptyString => Some 0
  | String c s' =>
      if Ascii.eqb (lower_char c) "e" then
        let '(neg, s1) := sign_of s' in
        match digitpart s1 with
        | Some (ds, EmptyString) =>
            Some (if neg then - digits_value ds else digits_value ds)
        | _ => None
        end
      else None
  end.

(** number ::= [digitpart] "." digitpart | digitpart ["."] *)
Definition number (s : string) : option (list ascii * list ascii * string) :=
  match digitpart s with
  | Some (ip, String "." r) =>
      match digitpart r with
      | Some (fp, r') => Some (ip, fp, r')
      | None => Some (ip, [], r)
      end
  | Some (ip, r) => Some (ip, [], r)
  | None =>
      match s with
      | String "." r =>
          match digitpart r with
          | Some (fp, r') => Some ([], fp, r')
          | None => None
          end
      | _ => None
      end
  end.

Definition float_of_str (text : string) : option float :=
  let '(neg, s) := sign_of (strip text) in
  let l := lower s in
  if String.eqb l "inf" || String.eqb l "infinity"
  then Some (S754_infinity neg)
  else if String.eqb l "nan" then Some S754_nan
  else
    match number s with
    | Some (ip, fp, r) =>
        match exponent r with
        | Some e =>
            Some (float_of_decimal neg (digits_value (ip ++ fp)%list)
                    (e - Z.of_nat (List.length fp)))
        | None => None
        end
    | None => None
    end.

(** *** Dictionaries, truth values, equality *)

Fixpoint assoc {A : Type} (k : string) (d : list (string * A)) : option A :=
  match d with
  | [] => None
  | (k', v) :: d' => if String.eqb k k' then Some v else assoc k d'
  end.

(** [d[k] = v] on a dictionary: an existing key keeps its position, a
    new key goes last. *)
Fixpoint assoc_set {A : Type} (k : string) (v : A) (d : list (string * A))
  : list (string * A) :=
  match d with
  | [] => [(k, v)]
  | (k', v') :: d' =>
      if String.eqb k k' then (k', v) :: d' else (k', v') :: assoc_set k v d'
  end.

Fixpoint assoc_del {A : Type} (k : string) (d : list (string * A))
  : list (string * A) :=
  match d with
  | [] => []
  | (k', v') :: d' =>
      if String.eqb k k' then d' else (k', v') :: assoc_del k d'
  end.

(** [d.update(e)] *)
Definition assoc_update {A : Type} (d e : list (string * A))
  : list (string * A) :=
  fold_left (fun acc kv => assoc_set (fst kv) (snd kv) acc) e d.

Definition is_zero (f : float) : bool :=
  match f with S754_zero _ => true | _ => false end.

(** [bool(v)] *)
Definition truthy (v : json) : bool :=
  match v with
  | JNull => false
  | JBool b => b
  | JInt z => negb (z =? 0)
  | JFloat f => negb (is_zero f)
  | JStr s => negb (String.eqb s EmptyString)
  | JList l => match l with [] => false | _ => true end
  | JDict d => match d with [] => false | _ => true end
  end.

(** [a or b] *)
Definition or_else (a b : json) : json := if truthy a then a else b.

(** An integer against a double, compared exactly. *)
Definition float_eq_int (f : float) (z : Z) : bool :=
  match f with
  | S754_zero _ => z =? 0
  | S754_finite s m e =>
      let v := if s then Zneg m else Zpos m in
      if 0 <=? e then z =? v * 2 ^ e else z * 2 ^ (- e) =? v
  | _ => false
  end.

Definition Z_of_bool (b : bool) : Z := if b then 1 else 0.

(** [a == b] *)
Fixpoint eq (a b : json) {struct a} : bool :=
  match a, b with
  | JNull, JNull => true
  | JBool x, JBool y => Bool.eqb x y
  | JBool x, JInt y => Z_of_bool x =? y
  | JBool x, JFloat y => float_eq_int y (Z_of_bool x)
  | JInt x, JBool y => x =? Z_of_bool y
  | JInt x, JInt y => x =? y
  | JInt x, JFloat y => float_eq_int y x
  | JFloat x, JBool y => float_eq_int x (Z_of_bool y)
  | JFloat x, JInt y => float_eq_int x y
  | JFloat x, JFloat y => SFeqb x y
  | JStr x, JStr y => String.eqb x y
  | JList l, JList m =>
      (fix go (l m : list json) {struct l} : bool :=
         match l, m with
         | [], [] => true
         | x :: l', y :: m' => eq x y && go l' m'
         | _, _ => false
         end) l m
  | JDict d, JDict e =>
      (List.length d =? List.length e)%nat &&
      (fix go (d : list (string * json)) {struct d} : bool :=
         match d with
         | [] => true
         | (k, v) :: d' =>
             match assoc k e with
             | Some w => eq v w
             | None => false
             end && go d'
         end) d
  | _, _ => false
  end.

(** [x in l] for a list *)
Definition mem (x : json) (l : list json) : bool := existsb (eq x) l.

(** [v.get(k, dflt)]; only dictionaries have the method. *)
Definition get_or (v : json) (k : string) (dflt : json) : result json :=
  match v with
  | JDict d => Ok (match assoc k d with Some x => x | None => dflt end)
  | _ => Raise AttributeError
  end.

(** [v.get(k)] *)
Definition get (v : json) (k : string) : result json := get_or v k JNull.

(** [v[k]] for a text key *)
Definition getitem (v : json) (k : string) : result json :=
  match v with
  | JDict d => match assoc k d with Some x => Ok x | None => Raise KeyError end
  | _ => Raise TypeError
  end.

(** [v[k] = x] for a text key *)
Definition setitem (v : json) (k : string) (x : json) : result json :=
  match v with
  | JDict d => Ok (JDict (assoc_set k x d))
  | _ => Raise TypeError
  end.

(** [v.items()] *)
Definition items (v : json) : result (list (string * json)) :=
  match v with
  | JDict d => Ok d
  | _ => Raise AttributeError
  end.

(** What a [for] loop iterates over. *)
Fixpoint chars (s : string) : list json :=
  match s with
  | EmptyString => []
  | String c s' => JStr (String c EmptyString) :: chars s'
  end.

Definition iter (v : json) : result (list json) :=
  match v with
  | JList l => Ok l
  | JDict d => Ok (map (fun kv => JStr (fst kv)) d)
  | JStr s => Ok (chars s)
  | _ => Raise TypeError
  end.

(** [v.lower()]; only text has the method. *)
Definition lower_of (v : json) : result string :=
  match v with
  | JStr s => Ok (lower s)
  | _ => Raise AttributeError
  end.

(** [float(v)] *)
Definition to_float (v : json) : result float :=
  match v with
  | JFloat f => Ok f
  | JInt z => float_of_int z
  | JBool b => float_of_int (Z_of_bool b)
  | JStr s =>
      match float_of_str s with
      | Some f => Ok f
      | None => Raise ValueError
      end
  | _ => Raise TypeError
  end.

(** [int(text)]: optional sign, then digits. *)
Definition int_of_str (text : string) : option Z :=
  let '(neg, s) := sign_of (strip text) in
  match digitpart s with
  | Some (ds, EmptyString) =>
      Some (if neg then - digits_value ds else digits_value ds)
  | _ => None
  end.

(** [int(f)] for a double: truncation towards zero. *)
Definition int_of_float (f : float) : result Z :=
  match f with
  | S754_zero _ => Ok 0
  | S754_finite s m e =>
      let a := if 0 <=? e then Zpos m * 2 ^ e else Zpos m / 2 ^ (- e) in
      Ok (if s then - a else a)
  | S754_infinity _ => Raise OverflowError
  | S754_nan => Raise ValueError
  end.

(** [int(v)] *)
Definition to_int (v : json) : result Z :=
  match v with
  | JInt z => Ok z
  | JBool b => Ok (Z_of_bool b)
  | JFloat f => int_of_float f
  | JStr s =>
      match int_of_str s with
      | Some z => Ok z
      | None => Raise ValueError
      end
  | _ => Raise TypeError
  end.

(** [v.values()] *)
Definition values (v : json) : result (list json) :=
  match v with
  | JDict d => Ok (map snd d)
  | _ => Raise AttributeError
  end.

(** [len(v)] *)
Definition len (v : json) : result Z :=
  match v with
  | JList l => Ok (Z.of_nat (List.length l))
  | JDict d => Ok (Z.of_nat (List.length d))
  | JStr s => Ok (Z.of_nat (String.length s))
  | _ => Raise TypeError
  end.

(** [s.split(c)] *)
Fixpoint split_on (c : ascii) (s : string) : list string :=
  match s with
  | EmptyString => [EmptyString]
  | String x s' =>
      if Ascii.eqb x c then EmptyString :: split_on c s'
      else
        match split_on c s' with
        | h :: t => String x h :: t
        | [] => [String x EmptyString]
        end
  end.

(** [l[start:end]] *)
Definition clamp_index (n i : Z) : Z :=
  let i := if i <? 0 then i + n else i in
  Z.max 0 (Z.min n i).

Definition slice {A : Type} (start stop : Z) (l : list A) : list A :=
  let n := Z.of_nat (List.length l) in
  let a := clamp_index n start in
  let b := clamp_index n stop in
  firstn (Z.to_nat (b - a)) (skipn (Z.to_nat a) l).

(** [l.sort(key=...)] on precomputed keys: a stable sort by [lt]. *)
Fixpoint insert_by {K A : Type} (lt : K -> K -> bool) (x : K * A)
  (l : list (K * A)) : list (K * A) :=
  match l with
  | [] => [x]
  | y :: l' => if lt (fst y) (fst x) then y :: insert_by lt x l' else x :: l
  end.

Definition sort_by {K A : Type} (lt : K -> K -> bool) (l : list (K * A))
  : list (K * A) :=
  fold_right (insert_by lt) [] l.

(** A value used as an integer (an index, a page number). *)
Definition index_of (v : json) : result Z :=
  match v with
  | JInt z => Ok z
  | JBool b => Ok (Z_of_bool b)
  | _ => Raise TypeError
  end.

Fixpoint repeat_string (n : nat) (s : string) : string :=
  match n with
  | O => EmptyString
  | S n' => (s ++ repeat_string n' s)%string
  end.

(** [v * n] for an integer [n] *)
Definition mul_int (v : json) (n : Z) : result json :=
  match v with
  | JInt z => Ok (JInt (z * n))
  | JBool b => Ok (JInt (Z_of_bool b * n))
  | JFloat f =>
      match float_of_int n with
      | Ok g => Ok (JFloat (fmul f g))
      | Raise e => Raise e
      end
  | JStr s => Ok (JStr (repeat_string (Z.to_nat n) s))
  | JList l => Ok (JList (List.concat (List.repeat l (Z.to_nat n))))
  | _ => Raise TypeError
  end.

(** [v + n] for an integer [n] *)
Definition add_int (v : json) (n : Z) : result json :=
  match v with
  | JInt z => Ok (JInt (z + n))
  | JBool b => Ok (JInt (Z_of_bool b + n))
  | JFloat f =>
      match float_of_int n with
      | Ok g => Ok (JFloat (fadd f g))
      | Raise e => Raise e
      end
  | _ => Raise TypeError
  end.

(** [l[i]] for a list *)
Definition list_item (l : list json) (i : Z) : result json :=
  let n := Z.of_nat (List.length l) in
  let i := if i <? 0 then i + n else i in
  if (i <? 0) || (n <=? i) then Raise IndexError
  else
    match nth_error l (Z.to_nat i) with
    | Some x => Ok x
    | None => Raise IndexError
    end.

(** A real argument of a [math] function. *)
Definition real_of (v : json) : result float :=
  match v with
  | JFloat f => Ok f
  | JInt z => float_of_int z
  | JBool b => float_of_int (Z_of_bool b)
  | _ => Raise TypeError
  end.

(** [math.sqrt] *)
Definition sqrt (x : float) : result float :=
  match x with
  | S754_finite true _ _ | S754_infinity true => Raise ValueError
  | _ => Ok (SFsqrt prec emax x)
  end.

(** [math.pi] and the factor of [math.radians] *)
Definition pi : float := float_of_decimal false 3141592653589793 (-15).
Definition deg_to_rad : float := fdiv pi (float_of_decimal false 180 0).
Definition radians (x : float) : float := fmul x deg_to_rad.

End Py.

(** ** The world a handler runs in *)

(** A [datetime]: the wall-clock reading in microseconds and, for an aware
    value, the offset of its zone from UTC. *)
Record datetime : Type := {
  wall : Z;
  tzinfo : option Z
}.

Definition utc : option Z := Some 0.

(** [dt.replace(tzinfo=tz)] *)
Definition replace_tzinfo (dt : datetime) (tz : option Z) : datetime :=
  {| wall := wall dt; tzinfo := tz |}.

(** The absolute instant of an aware datetime. *)
Definition instant (dt : datetime) : Z :=
  wall dt - match tzinfo dt with Some off => off | None => 0 end.

(** A piece of a formatted message: literal text, or a value or a
    datetime spliced in by an f-string. *)
Inductive frag : Type :=
| Lit (s : string)
| Val (v : json)
| Moment (dt : datetime)
| Fixed2 (f : spec_float)
| Err (e : exn).

Inductive button : Type :=
| InlineButton (label : list frag) (callback_data : json)
| KeyButton (label : string) (request : option string).

Inductive markup : Type :=
| NoMarkup
| InlineKeyboard (rows : list (list button))
| ReplyKeyboard (rows : list (list button)).

(** A job of the background scheduler: a one-shot date trigger that calls
    [send_restaurant_notification(chat, order)]. *)
Record job : Type := {
  job_id : string;
  run_date : datetime;
  job_chat : json;
  job_order : string
}.

Definition path := list string.

Inductive event : Type :=
| EvSend (chat : json) (text : list frag) (kb : markup)
| EvSendPhoto (chat : json) (photo : json) (caption : list frag) (kb : markup)
| EvEditText (text : list frag) (kb : markup)
| EvEditMarkup (kb : markup)
| EvAnswer (note : option string)
| EvSet (p : path) (v : json)
| EvUpdate (p : path) (v : json)
| EvCommit (p : path) (v : json)
| EvDelete (p : path)
| EvAddJob (j : job)
| EvFire (id : string).

Record World : Type := {
  db : json;           (* the Realtime Database *)
  jobs : list job;     (* the scheduler's job store *)
  log : list event;    (* effects so far, oldest first *)
  clock : Z;           (* what [datetime.utcnow()] reads *)
  drawn : nat          (* how many [uuid4()] were drawn *)
}.

(** *** The monad *)

Definition M (A : Type) : Type := World -> World * result A.

Definition ret {A : Type} (a : A) : M A := fun w => (w, Ok a).

Definition raise {A : Type} (e : exn) : M A := fun w => (w, Raise e).

Definition bind {A B : Type} (c : M A) (k : A -> M B) : M B :=
  fun w =>
    match c w with
    | (w', Ok a) => k a w'
    | (w', Raise e) => (w', Raise e)
    end.

Notation "x <- c ;; k" := (bind c (fun x => k))
  (at level 61, c at next level, right associativity).
Notation "c ;;; k" := (bind c (fun _ => k))
  (at level 61, right associativity).

(** A pure step that may raise. *)
Definition lift {A : Type} (r : result A) : M A := fun w => (w, r).

(** Sequencing of pure steps that may raise. *)
Definition rbind {A B : Type} (r : result A) (k : A -> result B) : result B :=
  match r with
  | Ok a => k a
  | Raise e => Raise e
  end.

(** [try: c  except: h] with a handler for every exception *)
Definition try_except {A : Type} (c : M A) (h : M A) : M A :=
  fun w =>
    match c w with
    | (w', Ok a) => (w', Ok a)
    | (w', Raise _) => h w'
    end.

Definition emit (e : event) : M unit :=
  fun w => ({| db := db w; jobs := jobs w; log := log w ++ [e];
               clock := clock w; drawn := drawn w |}, Ok tt).

Definition read_db : M json := fun w => (w, Ok (db w)).

Definition write_db (j : json) : M unit :=
  fun w => ({| db := j; jobs := jobs w; log := log w;
               clock := clock w; drawn := drawn w |}, Ok tt).

Definition read_jobs : M (list job) := fun w => (w, Ok (jobs w)).

Definition write_jobs (js : list job) : M unit :=
  fun w => ({| db := db w; jobs := js; log := log w;
               clock := clock w; drawn := drawn w |}, Ok tt).

(** [for x in xs: body] *)
Fixpoint for_each {A : Type} (xs : list A) (body : A -> M unit) : M unit :=
  match xs with
  | [] => ret tt
  | x :: xs' => body x ;;; for_each xs' body
  end.

(** The final world and the outcome of a run. *)
Definition exec {A : Type} (c : M A) (w : World) : World := fst (c w).
Definition outcome {A : Type} (c : M A) (w : World) : result A := snd (c w).

(** What the program takes from its libraries and its configuration:
    - [uuid4_hex n]: the hexadecimal text of the [n]-th [uuid4()] drawn;
    - [dateparser_parse]: [dateutil.parser.parse], [None] when it raises;
    - [isoformat]: [datetime.isoformat];
    - [json_loads]: [json.loads], [None] when it raises;
    - [accepts chat]: whether the transport delivers a message to [chat];
    - [str_other]: [str] of floats and containers;
    - [m_sin], [m_cos], [m_asin], [m_pow]: [math.sin], [math.cos],
      [math.asin] and the power operator on floats;
    - [ADMINS]: the configured administrators;
    - [menu_listing]: the four read-only listings at the end of the text
      handler (top rated, least ordered, closest, my orders), which query
      the store through the client's ordering interface. *)
Record Env : Type := {
  uuid4_hex : nat -> string;
  dateparser_parse : string -> option datetime;
  isoformat : datetime -> string;
  json_loads : string -> option json;
  accepts : json -> bool;
  str_other : json -> string;
  m_sin : Py.float -> result Py.float;
  m_cos : Py.float -> result Py.float;
  m_asin : Py.float -> result Py.float;
  m_pow : Py.float -> Py.float -> Py.float;
  ADMINS : list Z;
  menu_listing : string -> Z -> M unit
}.

(** ** The store client

    The Realtime Database is a JSON tree addressed by key paths.  A list
    is the same node as a mapping keyed by its indices. *)

Module Store.

Fixpoint enumerate (i : nat) (l : list json) : list (string * json) :=
  match l with
  | [] => []
  | x :: l' => (Py.str_of_Z (Z.of_nat i), x) :: enumerate (S i) l'
  end.

Definition children (j : json) : list (string * json) :=
  match j with
  | JDict d => d
  | JList l => enumerate 0 l
  | _ => []
  end.

Definition child (k : string) (j : json) : json :=
  match Py.assoc k (children j) with
  | Some v => v
  | None => JNull
  end.

Fixpoint json_at (p : path) (j : json) : json :=
  match p with
  | [] => j
  | k :: p' => json_at p' (child k j)
  end.

Fixpoint json_set (p : path) (v : json) (j : json) : json :=
  match p with
  | [] => v
  | k :: p' =>
      JDict (Py.assoc_set k (json_set p' v (child k j)) (children j))
  end.

Fixpoint json_delete (p : path) (j : json) : json :=
  match p with
  | [] => JNull
  | [k] => JDict (Py.assoc_del k (children j))
  | k :: p' =>
      match Py.assoc k (children j) with
      | Some c => JDict (Py.assoc_set k (json_delete p' c) (children j))
      | None => j
      end
  end.

(** [ref.get()]: an absent node reads as [None]. *)
Definition ref_get (p : path) : M json :=
  j <- read_db ;; ret (json_at p j).

(** [ref.set(v)]; the client refuses [None]. *)
Definition ref_set (p : path) (v : json) : M unit :=
  match v with
  | JNull => raise ValueError
  | _ =>
      j <- read_db ;;
      write_db (json_set p v j) ;;;
      emit (EvSet p v)
  end.

(** [ref.update(v)]: a shallow merge of the fields of [v]; the client
    refuses anything but a non-empty dictionary. *)
Definition ref_update (p : path) (v : json) : M unit :=
  match v with
  | JDict ((_ :: _) as d) =>
      j <- read_db ;;
      write_db (fold_left
                  (fun acc kv => json_set (p ++ [fst kv]) (snd kv) acc) d j) ;;;
      emit (EvUpdate p v)
  | _ => raise ValueError
  end.

(** [ref.delete()] *)
Definition ref_delete (p : path) : M unit :=
  j <- read_db ;;
  write_db (json_delete p j) ;;;
  emit (EvDelete p).

(** [ref.transaction(f)]: one committed read-modify-write.  The store
    hands [f] the current value and stores what [f] returns; an
    exception of [f] leaves the node as it was and is raised to the
    caller. *)
Definition ref_transaction (p : path) (f : json -> result json) : M unit :=
  j <- read_db ;;
  match f (json_at p j) with
  | Ok v => write_db (json_set p v j) ;;; emit (EvCommit p v)
  | Raise e => raise e
  end.

End Store.
Import Store.

(** ** The bot *)

Definition nl : string := String (ascii_of_nat 10) EmptyString.

Record Message : Type := {
  from_id : Z;               (* message.from_user.id *)
  full_name : string;        (* message.from_user.full_name *)
  text_of : option string;   (* message.text *)
  location_of : option (Py.float * Py.float)
                             (* message.location: latitude, longitude *)
}.

Record Call : Type := {
  call_from_id : Z;          (* call.from_user.id *)
  call_full_name : string;   (* call.from_user.full_name *)
  call_data : string         (* call.data *)
}.

Section Bot.

Context (E : Env).

Definition ROOT_KEY := "foodbot".
Definition USERS_KEY := "users".
Definition RESTAURANTS_KEY := "restaurants".
Definition ORDERS_KEY := "orders".
Definition FOODS_KEY := "foods".
Definition PAGE_SIZE : Z := 10.

Definition RTDB_TIMESTAMP : json := JDict [(".sv", JStr "timestamp")].

(** [str(v)] *)
Definition py_str (v : json) : string :=
  match v with
  | JStr s => s
  | JInt z => Py.str_of_Z z
  | JBool true => "True"
  | JBool false => "False"
  | JNull => "None"
  | _ => str_other E v
  end.

(** [uuid.uuid4().hex] *)
Definition uuid4 : M string :=
  fun w => ({| db := db w; jobs := jobs w; log := log w;
               clock := clock w; drawn := S (drawn w) |},
            Ok (uuid4_hex E (drawn w))).

Definition generate_id : M string := uuid4.

Definition make_order_id : M string :=
  h <- uuid4 ;; ret (Py.upper (Py.take 12 h)).

Definition make_rest_id : M string :=
  h <- uuid4 ;; ret (Py.take 12 h).

(** [datetime.utcnow()] *)
Definition utcnow : M datetime :=
  fun w => (w, Ok {| wall := clock w; tzinfo := None |}).

Definition users_ref : path := [ROOT_KEY; USERS_KEY].
Definition restaurants_ref : path := [ROOT_KEY; RESTAURANTS_KEY].
Definition orders_ref : path := [ROOT_KEY; ORDERS_KEY].
Definition get_user_ref (user_id : Z) : path :=
  users_ref ++ [Py.str_of_Z user_id].
Definition get_restaurant_ref (restaurant_id : json) : path :=
  restaurants_ref ++ [py_str restaurant_id].
Definition get_order_ref (order_id : string) : path :=
  orders_ref ++ [order_id].
Definition get_foods_ref : path := [FOODS_KEY].

(** [bot.send_message(chat, text, reply_markup=kb)]: the message goes
    out, or the transport raises. *)
Definition bot_send_message (chat : json) (text : list frag) (kb : markup)
  : M unit :=
  fun w => if accepts E chat then emit (EvSend chat text kb) w
           else (w, Raise ApiError).

Definition bot_answer_callback_query (note : option string) : M unit :=
  emit (EvAnswer note).

(** *** Aggregate updaters *)

Definition add_order_txn (order_id : string) (current : json) : result json :=
  match current with
  | JNull => Ok (JList [JStr order_id])
  | JDict d =>
      let current := map snd d in
      Ok (JList (if Py.mem (JStr order_id) current then current
                 else current ++ [JStr order_id]))
  | JList current =>
      Ok (JList (if Py.mem (JStr order_id) current then current
                 else current ++ [JStr order_id]))
  | JStr s =>
      if Py.contains order_id s then Ok current else Raise AttributeError
  | _ => Raise TypeError
  end.

Definition add_order_to_restaurant (rest_id : json) (order_id : string)
  : M unit :=
  try_except
    (ref_transaction (get_restaurant_ref rest_id ++ ["orders"])
       (add_order_txn order_id))
    (ret tt).

Definition remove_order_txn (order_id : string) (current : json) : result json :=
  if negb (Py.truthy current) then Ok JNull
  else
    match current with
    | JDict d =>
        Ok (JList (filter (fun o => negb (Py.eq o (JStr order_id))) (map snd d)))
    | JList l =>
        Ok (JList (filter (fun o => negb (Py.eq o (JStr order_id))) l))
    | JStr s =>
        Ok (JList (filter (fun o => negb (Py.eq o (JStr order_id))) (Py.chars s)))
    | _ => Raise TypeError
    end.

Definition remove_order_from_restaurant (rest_id : json) (order_id : string)
  : M unit :=
  try_except
    (ref_transaction (get_restaurant_ref rest_id ++ ["orders"])
       (remove_order_txn order_id))
    (ret tt).

Definition increment_txn (delta : Z) (current : json) : result json :=
  match current with
  | JNull => Ok (JInt (0 + delta))
  | _ =>
      match Py.to_int current with
      | Ok n => Ok (JInt (n + delta))
      | Raise e => Raise e
      end
  end.

Definition increment_rest_orders_count (rest_id : json) (delta : Z) : M unit :=
  try_except
    (ref_transaction (get_restaurant_ref rest_id ++ ["orders_count"])
       (increment_txn delta))
    (ret tt).

(** *** Notification *)

Fixpoint render_items (items : list json) : result (list frag) :=
  match items with
  | [] => Ok []
  | item :: rest =>
      match Py.getitem item "name", Py.getitem item "qty",
            Py.getitem item "price", render_items rest with
      | Ok n, Ok q, Ok p, Ok more =>
          Ok ([Lit "- "; Val n; Lit " x"; Val q; Lit " — "; Val p; Lit nl]
                ++ more)%list
      | Raise e, _, _, _ => Raise e
      | _, Raise e, _, _ => Raise e
      | _, _, Raise e, _ => Raise e
      | _, _, _, Raise e => Raise e
      end
  end.

(** The summary of an order, as the notification words it. *)
Definition order_text (order_id : string) (order : json)
  : result (list frag) :=
  rbind (Py.get_or order "items" (JList [])) (fun items =>
  rbind (Py.iter items) (fun items =>
  rbind (render_items items) (fun lines =>
  rbind (Py.getitem order "total_price") (fun total =>
  rbind (Py.getitem order "user_name") (fun user_name =>
  rbind (Py.getitem order "phone") (fun phone =>
  Ok ([Lit "New order:"; Lit nl; Lit "Order ID: "; Val (JStr order_id);
       Lit nl; Lit "Items:"; Lit nl] ++ lines ++
      [Lit nl; Lit "Total: "; Val total; Lit nl; Lit "User: ";
       Val user_name; Lit " — "; Val phone]))))))).

Definition mark_served_keyboard (order_id : string) : markup :=
  InlineKeyboard
    [[InlineButton [Lit "Mark as served ✅"]
        (JDict [("action", JStr "mark_served");
                ("order_id", JStr order_id)])]].

Definition send_restaurant_notification (restaurant_chat_id : json)
  (order_id : string) : M unit :=
  try_except
    (order <- ref_get (get_order_ref order_id) ;;
     if negb (Py.truthy order) then ret tt
     else
       status <- lift (Py.get order "status") ;;
       if Py.eq status (JStr "served") then ret tt
       else
         let keyboard := mark_served_keyboard order_id in
         text <- lift (order_text order_id order) ;;
         bot_send_message restaurant_chat_id text keyboard)
    (ret tt).

(** [scheduler.add_job(..., id=..., replace_existing=True)] *)
Definition add_job (j : job) : M unit :=
  js <- read_jobs ;;
  write_jobs
    (filter (fun j' => negb (String.eqb (job_id j') (job_id j))) js ++ [j]) ;;;
  emit (EvAddJob j).

(** [if dt.tzinfo is None: dt = dt.replace(tzinfo=timezone.utc)] *)
Definition aware (dt : datetime) : datetime :=
  match tzinfo dt with
  | None => replace_tzinfo dt utc
  | Some _ => dt
  end.

Definition schedule_order_notification (order_id : string)
  (run_at_dt : datetime) (restaurant_chat_id : json) : M unit :=
  let run_at_dt := aware run_at_dt in
  add_job {| job_id := ("order_" ++ order_id)%string;
             run_date := run_at_dt;
             job_chat := restaurant_chat_id;
             job_order := order_id |}.


(** [rest.get("chat_id") or rest.get("manager_chat_id")] *)
Definition chat_of (rest : json) : result json :=
  match Py.get rest "chat_id" with
  | Raise e => Raise e
  | Ok c => if Py.truthy c then Ok c else Py.get rest "manager_chat_id"
  end.






(** *** Conversation state *)

Definition state_ref (user_id : Z) : path := get_user_ref user_id ++ ["state"].

Definition set_user_state (user_id : Z) (state_dict : json) : M unit :=
  try_except
    (ref_update (state_ref user_id) state_dict)
    (ref_set (state_ref user_id) state_dict).

Definition get_user_state (user_id : Z) : M json :=
  s <- ref_get (state_ref user_id) ;;
  ret (Py.or_else s (JDict [])).

Definition clear_user_state (user_id : Z) : M unit :=
  try_except (ref_set (state_ref user_id) (JDict [])) (ret tt).

Definition send (user_id : Z) (text : string) : M unit :=
  bot_send_message (JInt user_id) [Lit text] NoMarkup.

(** [not user_data or not user_data.get("phone")] *)
Definition lacks_phone (user_data : json) : result bool :=
  if negb (Py.truthy user_data) then Ok true
  else
    match Py.get user_data "phone" with
    | Ok ph => Ok (negb (Py.truthy ph))
    | Raise e => Raise e
    end.

Definition handle_start (message : Message) : M unit :=
  let user_id := from_id message in
  user_data <- ref_get (get_user_ref user_id) ;;
  unregistered <- lift (lacks_phone user_data) ;;
  if unregistered then
    bot_send_message (JInt user_id)
      [Lit "Welcome! Please share your contact to continue."]
      (ReplyKeyboard [[KeyButton "Share contact 📱" (Some "contact")]]) ;;;
    set_user_state user_id (JDict [("awaiting_contact", JBool true)])
  else
    send user_id "Welcome back! Use /menu to continue." ;;;
    set_user_state user_id (JDict []).

Definition cmd_add (message : Message) : M unit :=
  bot_send_message (JInt (from_id message))
    [Lit "What do you want to add?"]
    (ReplyKeyboard [[KeyButton "🍽 Restaurant" None; KeyButton "🍔 Food" None]]) ;;;
  set_user_state (from_id message) (JDict [("add_flow", JBool true)]).

Definition add_food_cmd (message : Message) : M unit :=
  let user_id := from_id message in
  set_user_state user_id (JDict [("awaiting_food_data", JBool true)]) ;;;
  bot_send_message (JInt user_id)
    [Lit "🍔 Send food as:"; Lit nl; Lit "Name | People | Description";
     Lit nl; Lit nl; Lit "Example:"; Lit nl;
     Lit "Burger | 1 | Beef burger with cheese"]
    NoMarkup.

(** [parse_price(text)]; [None] is [Ok None]. *)
Definition parse_price (text : option string) : result (option Py.float) :=
  match text with
  | None => Raise AttributeError
  | Some text =>
      let text := Py.strip text in
      let text := Py.remove_char "," text in
      if negb (Py.isdigit (Py.remove_first_char "." text)) then Ok None
      else
        match Py.float_of_str text with
        | Some f => Ok (Some f)
        | None => Raise ValueError
        end
  end.

Definition fzero : Py.float := S754_zero false.

(** *** Search helpers *)

Definition select_rest_button (label : list frag) (rid : string) : button :=
  InlineButton label
    (JDict [("action", JStr "select_rest"); ("rid", JStr rid)]).

(** The restaurants whose name contains the query, in store order. *)
Fixpoint restaurants_matching (query : string) (docs : list (string * json))
  : result (list (string * json)) :=
  match docs with
  | [] => Ok []
  | (rid, r) :: docs' =>
      match Py.get_or r "name" (JStr EmptyString) with
      | Raise e => Raise e
      | Ok n =>
          match Py.lower_of n with
          | Raise e => Raise e
          | Ok l =>
              match restaurants_matching query docs' with
              | Raise e => Raise e
              | Ok more =>
                  Ok (if Py.contains query l then (rid, r) :: more else more)
              end
          end
      end
  end.

Fixpoint restaurant_result_rows (results : list (string * json))
  : result (list (list button)) :=
  match results with
  | [] => Ok []
  | (rid, r) :: results' =>
      match Py.getitem r "name", Py.get_or r "address" (JStr EmptyString),
            restaurant_result_rows results' with
      | Ok n, Ok a, Ok more =>
          Ok ([select_rest_button [Val n; Lit " — "; Val a] rid] :: more)
      | Raise e, _, _ => Raise e
      | _, Raise e, _ => Raise e
      | _, _, Raise e => Raise e
      end
  end.

Definition handle_search_restaurant_query (user_id : Z) (query : string)
  : M unit :=
  let query := Py.lower query in
  docs <- ref_get restaurants_ref ;;
  docs <- lift (Py.items (Py.or_else docs (JDict []))) ;;
  results <- lift (restaurants_matching query docs) ;;
  match results with
  | [] => send user_id "No restaurants found."
  | _ =>
      rows <- lift (restaurant_result_rows (firstn 10 results)) ;;
      bot_send_message (JInt user_id) [Lit "Results:"] (InlineKeyboard rows)
  end.

(** The first food of a menu whose name contains the query. *)
Fixpoint first_food_matching (query : string) (foods : list json)
  : result (option json) :=
  match foods with
  | [] => Ok None
  | f :: foods' =>
      match Py.get_or f "name" (JStr EmptyString) with
      | Raise e => Raise e
      | Ok n =>
          match Py.lower_of n with
          | Raise e => Raise e
          | Ok l =>
              if Py.contains query l then Ok (Some f)
              else first_food_matching query foods'
          end
      end
  end.

Fixpoint foods_matching (query : string) (docs : list (string * json))
  : result (list (string * json * json)) :=
  match docs with
  | [] => Ok []
  | (rid, r) :: docs' =>
      match Py.get_or r "foods" (JList []) with
      | Raise e => Raise e
      | Ok fs =>
          match Py.iter fs with
          | Raise e => Raise e
          | Ok fs =>
              match first_food_matching query fs with
              | Raise e => Raise e
              | Ok hit =>
                  match foods_matching query docs' with
                  | Raise e => Raise e
                  | Ok more =>
                      Ok (match hit with
                          | Some f => (rid, r, f) :: more
                          | None => more
                          end)
                  end
              end
          end
      end
  end.

Fixpoint food_result_rows (results : list (string * json * json))
  : result (list (list button)) :=
  match results with
  | [] => Ok []
  | (rid, r, f) :: results' =>
      match Py.getitem r "name", Py.getitem f "name",
            food_result_rows results' with
      | Ok rn, Ok fn, Ok more =>
          Ok ([InlineButton [Val rn; Lit " — has "; Val fn]
                 (JDict [("action", JStr "select_rest_food");
                         ("rid", JStr rid); ("food_name", fn)])] :: more)
      | Raise e, _, _ => Raise e
      | _, Raise e, _ => Raise e
      | _, _, Raise e => Raise e
      end
  end.

Definition handle_search_food_query (user_id : Z) (query : string) : M unit :=
  let query := Py.lower query in
  docs <- ref_get restaurants_ref ;;
  docs <- lift (Py.items (Py.or_else docs (JDict []))) ;;
  results <- lift (foods_matching query docs) ;;
  match results with
  | [] => send user_id "No matches."
  | _ =>
      rows <- lift (food_result_rows (firstn 10 results)) ;;
      bot_send_message (JInt user_id) [Lit "Results:"] (InlineKeyboard rows)
  end.

(** *** Restaurant pages *)

Fixpoint filter_by_name (search : string) (rests : list (string * json))
  : result (list (string * json)) :=
  match rests with
  | [] => Ok []
  | (rid, r) :: rests' =>
      match Py.getitem r "name" with
      | Raise e => Raise e
      | Ok n =>
          match Py.lower_of n with
          | Raise e => Raise e
          | Ok l =>
              match filter_by_name search rests' with
              | Raise e => Raise e
              | Ok more =>
                  Ok (if Py.contains search l then (rid, r) :: more else more)
              end
          end
      end
  end.

Fixpoint name_keys (rests : list (string * json))
  : result (list (string * (string * json))) :=
  match rests with
  | [] => Ok []
  | (rid, r) :: rests' =>
      match Py.getitem r "name" with
      | Raise e => Raise e
      | Ok n =>
          match Py.lower_of n with
          | Raise e => Raise e
          | Ok l =>
              match name_keys rests' with
              | Raise e => Raise e
              | Ok more => Ok ((l, (rid, r)) :: more)
              end
          end
      end
  end.

Fixpoint edit_rest_rows (rests : list (string * json))
  : result (list (list button)) :=
  match rests with
  | [] => Ok []
  | (rid, r) :: rests' =>
      match Py.getitem r "name", edit_rest_rows rests' with
      | Ok n, Ok more =>
          Ok ([InlineButton [Val n]
                 (JDict [("action", JStr "edit_rest"); ("rid", JStr rid)])]
                :: more)
      | Raise e, _ => Raise e
      | _, Raise e => Raise e
      end
  end.

Definition build_restaurant_page (page : json) (search : json)
  : M (markup * Z) :=
  all <- ref_get restaurants_ref ;;
  rests <- lift (Py.items (Py.or_else all (JDict []))) ;;
  rests <-
    (if Py.truthy search then
       s <- lift (Py.lower_of search) ;; lift (filter_by_name s rests)
     else ret rests) ;;
  keyed <- lift (name_keys rests) ;;
  let rests := map snd (Py.sort_by String.ltb keyed) in
  let total_pages :=
    Z.max 1 ((Z.of_nat (List.length rests) + PAGE_SIZE - 1) / PAGE_SIZE) in
  page <- lift (Py.index_of page) ;;
  let start := page * PAGE_SIZE in
  let stop := start + PAGE_SIZE in
  rows <- lift (edit_rest_rows (Py.slice start stop rests)) ;;
  let prev :=
    if 0 <? page then
      [InlineButton [Lit "⬅ Prev"]
         (JDict [("action", JStr "edit_page"); ("page", JInt (page - 1));
                 ("search", search)])]
    else [] in
  let next :=
    if page <? total_pages - 1 then
      [InlineButton [Lit "Next ➡"]
         (JDict [("action", JStr "edit_page"); ("page", JInt (page + 1));
                 ("search", search)])]
    else [] in
  let nav := prev ++ next in
  let nav_rows := match nav with [] => [] | _ => [nav] end in
  ret (InlineKeyboard
         (rows ++ nav_rows ++
          [[InlineButton [Lit "🔍 Search"]
              (JDict [("action", JStr "edit_search")])]]),
       total_pages).

(** *** The text handler

    A chain of guarded blocks, tried in order.  A block answers [true]
    when it consumed the message (the source returns) and [false] when
    control falls through to the next block. *)

Definition and_then (b : M bool) (k : M unit) : M unit :=
  done <- b ;; if done then ret tt else k.

Definition flag (state : json) (k : string) : M bool :=
  v <- lift (Py.get state k) ;; ret (Py.truthy v).

Definition is_text (v : json) (s : string) : bool := Py.eq v (JStr s).

Definition food_name (text : string) : json := JDict [("name", JStr text)].

Definition block_add_food_mode (message : Message) (text : string)
  (state : json) : M bool :=
  let user_id := from_id message in
  on <- flag state "add_food_mode" ;;
  if negb on then ret false
  else
    rid <- lift (Py.getitem state "rid") ;;
    step <- lift (Py.getitem state "step") ;;
    if is_text step "name" then
      state <- lift (Py.setitem state "food" (food_name text)) ;;
      state <- lift (Py.setitem state "step" (JStr "price")) ;;
      set_user_state user_id state ;;;
      send user_id "💰 Send food price:" ;;;
      ret true
    else if is_text step "price" then
      price <- lift (parse_price (text_of message)) ;;
      match price with
      | None =>
          send user_id "❌ Invalid price. Send a number like 5 or 5.50" ;;;
          ret true
      | Some price =>
          if Py.fle price fzero then
            send user_id "❌ Invalid price. Send a number like 5 or 5.50" ;;;
            ret true
          else
            rid <- lift (Py.getitem state "rid") ;;
            food <- lift (Py.getitem state "food") ;;
            food <- lift (Py.setitem food "price" (JFloat price)) ;;
            h <- uuid4 ;;
            let food_id := Py.take 8 h in
            ref_set (get_restaurant_ref rid ++ ["foods"; food_id]) food ;;;
            clear_user_state user_id ;;;
            name <- lift (Py.getitem food "name") ;;
            bot_send_message (JInt user_id)
              [Lit "✅ "; Val name; Lit " added to restaurant."] NoMarkup ;;;
            ret true
      end
    else ret false.

Definition block_awaiting_search (message : Message) (text : string)
  (state : json) : M bool :=
  let user_id := from_id message in
  on <- flag state "awaiting_search" ;;
  if negb on then ret false
  else
    search_type <- lift (Py.get state "awaiting_search_type") ;;
    set_user_state user_id (JDict []) ;;;
    if is_text search_type "restaurant" then
      handle_search_restaurant_query user_id text ;;; ret true
    else if is_text search_type "food" then
      handle_search_food_query user_id text ;;; ret true
    else ret false.

Definition editing (rid : json) (step : option string) : json :=
  JDict ([("editing_rest", JBool true); ("rid", rid)] ++
         match step with
         | Some s => [("edit_step", JStr s)]
         | None => []
         end).

Definition block_editing_rest (message : Message) (text : string)
  (state : json) : M bool :=
  let user_id := from_id message in
  on <- flag state "editing_rest" ;;
  if negb on then ret false
  else
    rid <- lift (Py.getitem state "rid") ;;
    if String.eqb text "✏️ Name" then
      set_user_state user_id (editing rid (Some "name")) ;;;
      send user_id "✏️ Send new restaurant name:" ;;;
      ret true
    else if String.eqb text "📍 Location" then
      set_user_state user_id (editing rid (Some "location")) ;;;
      bot_send_message (JInt user_id) [Lit "📍 Share new location:"]
        (ReplyKeyboard [[KeyButton "📍 Share location" (Some "location")]]) ;;;
      ret true
    else if String.eqb text "🖼 Image" then
      set_user_state user_id (editing rid (Some "image")) ;;;
      send user_id "🖼 Send new restaurant photo:" ;;;
      ret true
    else if String.eqb text "➕ Add Food" then
      set_user_state user_id (editing rid None) ;;;
      bot_send_message (JInt user_id) [Lit "🍔 How do you want to add food?"]
        (InlineKeyboard
           [[InlineButton [Lit "➕ New Food"]
               (JDict [("action", JStr "add_food_new"); ("rid", rid)])]]) ;;;
      ret true
    else if String.eqb text "❌ Cancel" then
      clear_user_state user_id ;;;
      send user_id "❌ Edit cancelled." ;;;
      ret true
    else ret false.

Definition block_edit_name (message : Message) (text : string)
  (state : json) : M bool :=
  let user_id := from_id message in
  on <- flag state "editing_rest" ;;
  step <- (if on then lift (Py.get state "edit_step") else ret JNull) ;;
  if negb (on && is_text step "name") then ret false
  else
    rid <- lift (Py.getitem state "rid") ;;
    ref_set (get_restaurant_ref rid ++ ["name"]) (JStr text) ;;;
    clear_user_state user_id ;;;
    send user_id "✅ Restaurant name updated." ;;;
    ret true.

Definition block_awaiting_edit_search (message : Message) (text : string)
  (state : json) : M bool :=
  let user_id := from_id message in
  on <- flag state "awaiting_edit_search" ;;
  if negb on then ret false
  else
    clear_user_state user_id ;;;
    page <- build_restaurant_page (JInt 0) (JStr text) ;;
    bot_send_message (JInt user_id)
      [Lit "🔍 Search results for '"; Val (JStr text); Lit "':"] (fst page) ;;;
    ret true.

Definition block_awaiting_food_data (message : Message) (text : string)
  (state : json) : M bool :=
  let user_id := from_id message in
  on <- flag state "awaiting_food_data" ;;
  if negb on then ret false
  else
    match text_of message with
    | None => raise AttributeError
    | Some raw =>
        match map Py.strip (Py.split_on "|" raw) with
        | [name; people; desc] =>
            fid <- generate_id ;;
            people <-
              lift (match Py.int_of_str people with
                    | Some n => Ok n
                    | None => Raise ValueError
                    end) ;;
            ref_set (get_foods_ref ++ [fid])
              (JDict [("name", JStr name); ("people", JInt people);
                      ("description", JStr desc)]) ;;;
            clear_user_state user_id ;;;
            bot_send_message (JInt user_id)
              [Lit "✅ Food '"; Val (JStr name); Lit "' added successfully"]
              NoMarkup ;;;
            ret true
        | _ =>
            bot_send_message (JInt user_id)
              [Lit "❌ Invalid format."; Lit nl; Lit "Use:"; Lit nl;
               Lit "Name | People | Description"] NoMarkup ;;;
            ret true
        end
    end.

(** Whether some restaurant bears the name, compared in lower case. *)
Fixpoint name_taken (name : string) (rests : list json) : result bool :=
  match rests with
  | [] => Ok false
  | r :: rests' =>
      match Py.get_or r "name" (JStr EmptyString) with
      | Raise e => Raise e
      | Ok n =>
          match Py.lower_of n with
          | Raise e => Raise e
          | Ok l => if String.eqb l name then Ok true else name_taken name rests'
          end
      end
  end.

Definition reg_rest (step : string) (data : json) : json :=
  JDict [("reg_rest_step", JStr step); ("new_rest", data)].

(** [data.setdefault("foods", []).append(food)] *)
Definition append_food (data food : json) : result json :=
  match data with
  | JDict d =>
      match Py.assoc "foods" d with
      | None => Ok (JDict (Py.assoc_set "foods" (JList [food]) d))
      | Some (JList l) => Ok (JDict (Py.assoc_set "foods" (JList (l ++ [food])) d))
      | Some _ => Raise AttributeError
      end
  | _ => Raise AttributeError
  end.

Definition block_reg_rest_step (message : Message) (text : string)
  (state : json) : M bool :=
  let user_id := from_id message in
  on <- flag state "reg_rest_step" ;;
  if negb on then ret false
  else
    step <- lift (Py.getitem state "reg_rest_step") ;;
    data <- lift (Py.getitem state "new_rest") ;;
    if is_text step "name" then
      let name := Py.strip text in
      all_rest <- ref_get restaurants_ref ;;
      rests <- lift (Py.values (Py.or_else all_rest (JDict []))) ;;
      taken <- lift (name_taken (Py.lower name) rests) ;;
      if taken then
        send user_id
          "❌ A restaurant with this name already exists. Send a different name." ;;;
        ret true
      else
        data <- lift (Py.setitem data "name" (JStr name)) ;;
        set_user_state user_id (reg_rest "foods" data) ;;;
        bot_send_message (JInt user_id) [Lit "Now choose foods:"]
          (InlineKeyboard
             [[InlineButton [Lit "Add preset food"]
                 (JDict [("action", JStr "mgr_add_preset")])];
              [InlineButton [Lit "Add custom food"]
                 (JDict [("action", JStr "mgr_add_custom")])];
              [InlineButton [Lit "Done"]
                 (JDict [("action", JStr "mgr_food_done")])]]) ;;;
        ret true
    else if is_text step "custom_food" then
      match map Py.strip (Py.split_on "|" text) with
      | [name; ingredients; price; qty] =>
          data <- lift (append_food data
                          (JDict [("name", JStr name);
                                  ("ingredients", JStr ingredients);
                                  ("price", JStr price);
                                  ("quantity", JStr qty)])) ;;
          set_user_state user_id (reg_rest "foods" data) ;;;
          bot_send_message (JInt user_id)
            [Lit "Added custom food: "; Val (JStr name)] NoMarkup ;;;
          ret true
      | _ =>
          bot_send_message (JInt user_id)
            [Lit "❌ Invalid format. Use:"; Lit nl;
             Lit "Name | Ingredients | Price | Quantity"] NoMarkup ;;;
          ret true
      end
    else if is_text step "description" then
      data <- lift (Py.setitem data "description" (JStr text)) ;;
      data <- lift (Py.setitem data "manager_id" (JInt user_id)) ;;
      set_user_state user_id (JDict []) ;;;
      let kb :=
        InlineKeyboard
          [[InlineButton [Lit "Approve ✅"]
              (JDict [("action", JStr "approve_rest"); ("data", data)]);
            InlineButton [Lit "Reject ❌"]
              (JDict [("action", JStr "reject_rest")])]] in
      name <- lift (Py.getitem data "name") ;;
      foods <- lift (Py.get_or data "foods" (JList [])) ;;
      count <- lift (Py.len foods) ;;
      description <- lift (Py.getitem data "description") ;;
      let summary :=
        [Lit "New Restaurant Request:"; Lit nl; Lit nl;
         Lit "Name: "; Val name; Lit nl;
         Lit "Manager: "; Val (JInt user_id); Lit nl;
         Lit "Foods: "; Val (JInt count); Lit nl;
         Lit "Description: "; Val description; Lit nl] in
      for_each (ADMINS E)
        (fun admin => bot_send_message (JInt admin) summary kb) ;;;
      send user_id "📝 Your restaurant was sent for admin approval." ;;;
      ret true
    else ret false.

Definition add_step (kind : string) (step : string) (data : json)
  (leaving_menu : bool) : json :=
  JDict ([(kind, JBool true); ("step", JStr step); ("data", data)] ++
         if leaving_menu then [("add_flow", JBool false)] else []).

Definition block_add_flow (message : Message) (text : string)
  (state : json) : M bool :=
  let user_id := from_id message in
  on <- flag state "add_flow" ;;
  if negb on then ret false
  else if String.eqb text "🍽 Restaurant" then
    set_user_state user_id (add_step "add_rest" "name" (JDict []) true) ;;;
    send user_id "Send restaurant name:" ;;;
    ret true
  else if String.eqb text "🍔 Food" then
    set_user_state user_id (add_step "add_food" "name" (JDict []) true) ;;;
    send user_id "Send food name:" ;;;
    ret true
  else ret false.

(** The users whose phone or name contains the query, in store order. *)
Fixpoint users_matching (query : string) (users : list (string * json))
  : result (list (string * json)) :=
  match users with
  | [] => Ok []
  | (uid, u) :: users' =>
      match Py.get_or u "phone" (JStr EmptyString) with
      | Raise e => Raise e
      | Ok ph =>
          if Py.contains query (Py.lower (py_str ph)) then
            match users_matching query users' with
            | Raise e => Raise e
            | Ok more => Ok ((uid, u) :: more)
            end
          else
            match Py.get_or u "name" (JStr EmptyString) with
            | Raise e => Raise e
            | Ok n =>
                match users_matching query users' with
                | Raise e => Raise e
                | Ok more =>
                    Ok (if Py.contains query (Py.lower (py_str n))
                        then (uid, u) :: more else more)
                end
            end
      end
  end.

Fixpoint manager_rows (matches : list (string * json))
  : result (list (list button)) :=
  match matches with
  | [] => Ok []
  | (uid, u) :: matches' =>
      match Py.get u "name", Py.get u "phone", manager_rows matches' with
      | Ok n, Ok ph, Ok more =>
          Ok ([InlineButton [Val n; Lit " ("; Val ph; Lit ")"]
                 (JDict [("action", JStr "add_rest_select_manager");
                         ("uid", JStr uid)])] :: more)
      | Raise e, _, _ => Raise e
      | _, Raise e, _ => Raise e
      | _, _, Raise e => Raise e
      end
  end.

Definition block_add_rest (message : Message) (text : string)
  (state : json) : M bool :=
  let user_id := from_id message in
  on <- flag state "add_rest" ;;
  step <- (if on then lift (Py.get state "step") else ret JNull) ;;
  if negb (on && Py.truthy step) then ret false
  else
    data <- lift (Py.get_or state "data" (JDict [])) ;;
    step <- lift (Py.getitem state "step") ;;
    if is_text step "name" then
      data <- lift (Py.setitem data "name" (JStr text)) ;;
      set_user_state user_id (add_step "add_rest" "phone" data false) ;;;
      send user_id "Send restaurant phone number:" ;;;
      ret true
    else if is_text step "phone" then
      data <- lift (Py.setitem data "phone" (JStr text)) ;;
      set_user_state user_id (add_step "add_rest" "location" data false) ;;;
      bot_send_message (JInt user_id) [Lit "Share restaurant location:"]
        (ReplyKeyboard [[KeyButton "📍 Share location" (Some "location")]]) ;;;
      ret true
    else if is_text step "manager" then
      let query := Py.lower text in
      users <- ref_get users_ref ;;
      users <- lift (Py.items (Py.or_else users (JDict []))) ;;
      matches <- lift (users_matching query users) ;;
      match matches with
      | [] =>
          send user_id "❌ No user found. Send phone number or username again." ;;;
          ret true
      | _ =>
          rows <- lift (manager_rows (firstn 5 matches)) ;;
          bot_send_message (JInt user_id) [Lit "Select restaurant manager:"]
            (InlineKeyboard rows) ;;;
          ret true
      end
    else ret false.

Definition block_add_food (message : Message) (text : string)
  (state : json) : M bool :=
  let user_id := from_id message in
  on <- flag state "add_food" ;;
  if negb on then ret false
  else
    data <- lift (Py.getitem state "data") ;;
    step <- lift (Py.getitem state "step") ;;
    if is_text step "name" then
      data <- lift (Py.setitem data "name" (JStr text)) ;;
      set_user_state user_id (add_step "add_food" "ingredients" data false) ;;;
      send user_id "Send ingredients:" ;;;
      ret true
    else if is_text step "ingredients" then
      data <- lift (Py.setitem data "ingredients" (JStr text)) ;;
      set_user_state user_id (add_step "add_food" "people" data false) ;;;
      send user_id "How many people does this food serve?" ;;;
      ret true
    else if is_text step "people" then
      people <-
        lift (match Py.int_of_str text with
              | Some n => Ok n
              | None => Raise ValueError
              end) ;;
      data <- lift (Py.setitem data "people" (JInt people)) ;;
      h <- uuid4 ;;
      let food_id := Py.take 8 h in
      ref_set [ROOT_KEY; "foods"; food_id] data ;;;
      clear_user_state user_id ;;;
      send user_id "✅ Food added to global food list!" ;;;
      ret true
    else ret false.

(** [any(f["name"] == food["name"] for f in current)] *)
Fixpoint has_food_named (food : json) (current : list json) : result bool :=
  match current with
  | [] => Ok false
  | f :: current' =>
      match Py.getitem f "name" with
      | Raise e => Raise e
      | Ok n =>
          match Py.getitem food "name" with
          | Raise e => Raise e
          | Ok m => if Py.eq n m then Ok true else has_food_named food current'
          end
      end
  end.

Definition add_food_txn (food : json) (current : json) : result json :=
  let current := match current with JNull => JList [] | _ => current end in
  match Py.iter current with
  | Raise e => Raise e
  | Ok fs =>
      match has_food_named food fs with
      | Raise e => Raise e
      | Ok true => Ok current
      | Ok false =>
          match current with
          | JList l => Ok (JList (l ++ [food]))
          | _ => Raise AttributeError
          end
      end
  end.

(** [float(message.text)] *)
Definition float_of_text (text : option string) : result Py.float :=
  match text with
  | Some t => Py.to_float (JStr t)
  | None => Raise TypeError
  end.

Definition block_awaiting_food_price (message : Message) (text : string)
  (state : json) : M bool :=
  let user_id := from_id message in
  on <- flag state "awaiting_food_price" ;;
  if negb on then ret false
  else
    match float_of_text (text_of message) with
    | Raise _ => send user_id "❌ Invalid price." ;;; ret true
    | Ok price =>
        rid <- lift (Py.getitem state "rid") ;;
        food <- lift (Py.getitem state "food_data") ;;
        food <- lift (Py.setitem food "price" (JFloat price)) ;;
        ref_transaction (get_restaurant_ref rid ++ ["foods"])
          (add_food_txn food) ;;;
        clear_user_state user_id ;;;
        name <- lift (Py.getitem food "name") ;;
        bot_send_message (JInt user_id)
          [Lit "✅ *"; Val name; Lit "* added to restaurant."] NoMarkup ;;;
        ret true
    end.

(** [pending.update(fields)] *)
Definition dict_update (v : json) (fields : list (string * json)) : result json :=
  match v with
  | JDict d => Ok (JDict (Py.assoc_update d fields))
  | _ => Raise AttributeError
  end.

Definition block_awaiting_schedule (message : Message) (text : string)
  (state : json) : M bool :=
  let user_id := from_id message in
  on <- flag state "awaiting_schedule" ;;
  po <- (if on then flag state "pending_order" else ret false) ;;
  if negb (on && po) then ret false
  else
    pending <- lift (Py.getitem state "pending_order") ;;
    run_at <-
      (if String.eqb (Py.lower text) "asap" || String.eqb (Py.lower text) "now"
       then now <- utcnow ;; ret (Some (replace_tzinfo now utc))
       else ret (option_map aware (dateparser_parse E text))) ;;
    match run_at with
    | None =>
        send user_id "Invalid time. Use 'ASAP' or YYYY-MM-DD HH:MM." ;;;
        ret true
    | Some run_at =>
        order_id <- make_order_id ;;
        pending <- lift (dict_update pending
                           [("order_id", JStr order_id);
                            ("scheduled_for", JStr (isoformat E run_at));
                            ("status", JStr "scheduled");
                            ("created_at", RTDB_TIMESTAMP)]) ;;
        ref_set (get_order_ref order_id) pending ;;;
        rest_id <- lift (Py.getitem pending "restaurant_id") ;;
        add_order_to_restaurant rest_id order_id ;;;
        increment_rest_orders_count rest_id 1 ;;;
        rest_data <- ref_get (get_restaurant_ref rest_id) ;;
        rest_chat_id <- lift (chat_of (Py.or_else rest_data (JDict []))) ;;
        schedule_order_notification order_id run_at rest_chat_id ;;;
        bot_send_message (JInt user_id)
          [Lit "Order placed! ID: "; Val (JStr order_id); Lit nl;
           Lit "Scheduled for "; Moment run_at] NoMarkup ;;;
        set_user_state user_id (JDict []) ;;;
        ret true
    end.

Definition awaiting_search_state (kind : string) : json :=
  JDict [("awaiting_search", JBool true); ("awaiting_search_type", JStr kind)].

Definition menu_options (message : Message) (text : string) : M unit :=
  let user_id := from_id message in
  if String.eqb text "Search by restaurant" then
    send user_id "Send restaurant name:" ;;;
    set_user_state user_id (awaiting_search_state "restaurant")
  else if String.eqb text "Search by food" then
    send user_id "Send food name:" ;;;
    set_user_state user_id (awaiting_search_state "food")
  else if String.eqb text "Search by location" then
    bot_send_message (JInt user_id)
      [Lit "Please share your location to find restaurants nearby."]
      (ReplyKeyboard [[KeyButton "Share location 📍" (Some "location")]]) ;;;
    set_user_state user_id (JDict [("awaiting_search_by_location", JBool true)])
  else if String.eqb text "Top-rated"
          || String.eqb text "Least-ordered (fastest)"
          || String.eqb text "Closest restaurants"
          || String.eqb text "My orders" then
    menu_listing E text user_id
  else send user_id "Unknown command. Use /menu.".

Definition general_text_handler (message : Message) : M unit :=
  let text :=
    match text_of message with
    | Some t => Py.strip t
    | None => EmptyString
    end in
  state <- get_user_state (from_id message) ;;
  and_then (block_add_food_mode message text state)
 (and_then (block_awaiting_search message text state)
 (and_then (block_editing_rest message text state)
 (and_then (block_edit_name message text state)
 (and_then (block_awaiting_edit_search message text state)
 (and_then (block_awaiting_food_data message text state)
 (and_then (block_reg_rest_step message text state)
 (and_then (block_add_flow message text state)
 (and_then (block_add_rest message text state)
 (and_then (block_add_food message text state)
 (and_then (block_awaiting_food_price message text state)
 (and_then (block_awaiting_schedule message text state)
           (menu_options message text)))))))))))).

(** *** Distance search *)

Definition two : Py.float := Py.float_of_decimal false 2 0.
Definition earth_radius_km : Py.float := Py.float_of_decimal false 6371 0.

Definition haversine (lon1 lat1 lon2 lat2 : json) : result Py.float :=
  rbind (Py.real_of lon1) (fun lon1 =>
  rbind (Py.real_of lat1) (fun lat1 =>
  rbind (Py.real_of lon2) (fun lon2 =>
  rbind (Py.real_of lat2) (fun lat2 =>
  let lon1 := Py.radians lon1 in
  let lat1 := Py.radians lat1 in
  let lon2 := Py.radians lon2 in
  let lat2 := Py.radians lat2 in
  let dlon := Py.fsub lon2 lon1 in
  let dlat := Py.fsub lat2 lat1 in
  rbind (m_sin E (Py.fdiv dlat two)) (fun s1 =>
  rbind (m_cos E lat1) (fun c1 =>
  rbind (m_cos E lat2) (fun c2 =>
  rbind (m_sin E (Py.fdiv dlon two)) (fun s2 =>
  let a := Py.fadd (m_pow E s1 two)
             (Py.fmul (Py.fmul c1 c2) (m_pow E s2 two)) in
  rbind (Py.sqrt a) (fun r =>
  rbind (m_asin E r) (fun c =>
  Ok (Py.fmul earth_radius_km (Py.fmul two c)))))))))))).

(** The loop of [find_restaurants_near_user]: the vendors with a stored
    location within the radius, each with its distance, in store order. *)
Fixpoint within_radius (lat lon radius_km : Py.float)
  (docs : list (string * json)) : result (list (Py.float * (string * json))) :=
  match docs with
  | [] => Ok []
  | (rid, r) :: docs' =>
      rbind (Py.get r "location") (fun pos =>
      if negb (Py.truthy pos) then within_radius lat lon radius_km docs'
      else
        rbind (Py.get pos "lon") (fun plon =>
        rbind (Py.get pos "lat") (fun plat =>
        rbind (haversine (JFloat lon) (JFloat lat) plon plat) (fun dist =>
        rbind (within_radius lat lon radius_km docs') (fun more =>
        Ok (if Py.fle dist radius_km then (dist, (rid, r)) :: more
            else more))))))
  end.

Fixpoint nearby_lines (found : list (Py.float * (string * json)))
  : result (list frag * list (list button)) :=
  match found with
  | [] => Ok ([], [])
  | (dist, (rid, r)) :: found' =>
      rbind (Py.getitem r "name") (fun n =>
      rbind (nearby_lines found') (fun more =>
      Ok ([Lit "- "; Val n; Lit " — "; Fixed2 dist; Lit " km"; Lit nl]
            ++ fst more,
          [select_rest_button [Val n] rid] :: snd more)))
  end.

(** What the search lists: the fifteen nearest, nearest first. *)
Definition nearest (found : list (Py.float * (string * json)))
  : list (Py.float * (string * json)) :=
  firstn 15 (Py.sort_by Py.flt found).

Definition find_restaurants_near_user (user_id : Z) (lat lon : Py.float)
  (radius_km : Py.float) : M unit :=
  docs <- ref_get restaurants_ref ;;
  docs <- lift (Py.items (Py.or_else docs (JDict []))) ;;
  distances <- lift (within_radius lat lon radius_km docs) ;;
  match Py.sort_by Py.flt distances with
  | [] =>
      bot_send_message (JInt user_id)
        [Lit "No restaurants found within "; Val (JFloat radius_km); Lit " km."]
        NoMarkup
  | _ =>
      listing <- lift (nearby_lines (nearest distances)) ;;
      bot_send_message (JInt user_id)
        ([Lit "Restaurants within "; Val (JFloat radius_km); Lit " km:"; Lit nl]
           ++ fst listing)
        (InlineKeyboard (snd listing))
  end.

(** The default radius, [10.0]. *)
Definition default_radius_km : Py.float := Py.float_of_decimal false 10 0.

(** *** Food pages *)

(** [rid] is read by [build_food_page], which neither takes it as a
    parameter nor assigns it, and the module binds no such name. *)
Definition name_rid : result json := Raise NameError.

(** [foods[start:end]] and [len(foods)] where [foods] is what
    [get_foods_ref()] returns: a database reference, which is neither
    subscriptable nor sized. *)
Definition reference_slice (ref : path) (start stop : json)
  : result (list json) := Raise TypeError.
Definition reference_len (ref : path) : result Z := Raise TypeError.

(** The loop over [enumerate(foods[start:end], start=start)]. *)
Fixpoint food_rows (idx : Z) (foods : list json) : result (list (list button)) :=
  match foods with
  | [] => Ok []
  | f :: foods' =>
      rbind (Py.getitem f "name") (fun n =>
      rbind name_rid (fun rid =>
      rbind (food_rows (idx + 1) foods') (fun more =>
      Ok ([InlineButton [Val n]
             (JDict [("action", JStr "add_existing_food"); ("rid", rid);
                     ("index", JInt idx)])] :: more))))
  end.

(** [page > 0] *)
Definition positive (page : json) : result bool :=
  match page with
  | JInt z => Ok (0 <? z)
  | JBool b => Ok b
  | JFloat f => Ok (Py.flt fzero f)
  | _ => Raise TypeError
  end.

Definition food_page_button (label : string) (page : json) : result button :=
  rbind name_rid (fun rid =>
  Ok (InlineButton [Lit label]
        (JDict [("action", JStr "food_page"); ("rid", rid); ("page", page)]))).

Definition build_food_page (page : json) : M markup :=
  let foods := get_foods_ref in
  start <- lift (Py.mul_int page PAGE_SIZE) ;;
  stop <- lift (Py.add_int start PAGE_SIZE) ;;
  shown <- lift (reference_slice foods start stop) ;;
  first <- lift (Py.index_of start) ;;
  rows <- lift (food_rows first shown) ;;
  back <- lift (positive page) ;;
  prev <-
    (if back then
       p <- lift (Py.add_int page (-1)) ;;
       b <- lift (food_page_button "⬅ Prev" p) ;; ret [b]
     else ret []) ;;
  total <- lift (reference_len foods) ;;
  last <- lift (Py.index_of stop) ;;
  next <-
    (if last <? total then
       p <- lift (Py.add_int page 1) ;;
       b <- lift (food_page_button "Next ➡" p) ;; ret [b]
     else ret []) ;;
  let nav := prev ++ next in
  ret (InlineKeyboard (rows ++ match nav with [] => [] | _ => [nav] end)).

(** *** Committing a restaurant *)

Definition save_restaurant_and_finish (user_id : Z) (data : json) : M unit :=
  rest_id <- make_rest_id ;;
  data <- lift (Py.setitem data "id" (JStr rest_id)) ;;
  foods <- lift (Py.get_or data "foods" (JList [])) ;;
  data <- lift (Py.setitem data "foods" foods) ;;
  data <- lift (Py.setitem data "created_at" RTDB_TIMESTAMP) ;;
  ref_set (restaurants_ref ++ [rest_id]) data ;;;
  clear_user_state user_id ;;;
  name <- lift (Py.getitem data "name") ;;
  bot_send_message (JInt user_id)
    [Lit "✅ Restaurant *"; Val name; Lit "* added successfully!"] NoMarkup.

Definition has_key (v : json) (k : string) : bool :=
  match v with
  | JDict d => match Py.assoc k d with Some _ => true | None => false end
  | _ => false
  end.

Definition optional_field (pending : json) (k : string)
  : result (list (string * json)) :=
  rbind (Py.get pending k) (fun v =>
  Ok (if Py.truthy v then [(k, v)] else [])).

(** Answers whether a restaurant was saved, with the text of the
    failure otherwise. *)
Definition try_finalize_pending_rest (admin_id : Z) : M (bool * list frag) :=
  state <- get_user_state admin_id ;;
  pending <- lift (Py.get_or state "pending_rest" (JDict [])) ;;
  name <- lift (Py.get pending "name") ;;
  if negb (Py.truthy name) then ret (false, [Lit "Name missing"])
  else if negb (has_key pending "manager_chat_id") then
    ret (false, [Lit "Manager missing"])
  else if negb (has_key pending "location") then
    ret (false, [Lit "Location missing"])
  else
    rest_id <- make_rest_id ;;
    foods <- lift (Py.get_or pending "foods" (JList [])) ;;
    manager <- lift (Py.get pending "manager_chat_id") ;;
    location <- lift (Py.get pending "location") ;;
    path_field <- lift (optional_field pending "image_storage_path") ;;
    file_field <- lift (optional_field pending "image_file_id") ;;
    let record :=
      JDict ([("id", JStr rest_id); ("name", name); ("foods", foods);
              ("manager_chat_id", manager); ("location", location);
              ("created_at", RTDB_TIMESTAMP)] ++ path_field ++ file_field) in
    fun w =>
      match (ref_set (restaurants_ref ++ [rest_id]) record ;;;
             clear_user_state admin_id ;;;
             bot_send_message (JInt admin_id)
               [Lit "Restaurant '"; Val name; Lit "' registered with id ";
                Val (JStr rest_id); Lit "."] NoMarkup) w with
      | (w', Ok _) => (w', Ok (true, [Val (JStr rest_id)]))
      | (w', Raise e) => (w', Ok (false, [Err e]))
      end.

Definition attempt_finish_after_state_change (user_id : Z) : M unit :=
  state <- get_user_state user_id ;;
  pending <- lift (Py.get_or state "pending_rest" (JDict [])) ;;
  ready <-
    lift (if negb (Py.truthy pending) then Ok false
          else
            rbind (Py.get pending "name") (fun n =>
            if negb (Py.truthy n) then Ok false
            else
              rbind (Py.get pending "manager_chat_id") (fun m =>
              if negb (Py.truthy m) then Ok false
              else
                rbind (Py.get pending "location") (fun l =>
                Ok (Py.truthy l))))) ;;
  if ready then
    outcome <- try_finalize_pending_rest user_id ;;
    if fst outcome then ret tt
    else
      bot_send_message (JInt user_id)
        (Lit "Error saving restaurant: " :: snd outcome) NoMarkup
  else ret tt.

(** *** The callback handler *)

Definition answer (note : string) : M unit :=
  bot_answer_callback_query (Some note).

Definition answer_plain : M unit := bot_answer_callback_query None.

(** [next((f for f in foods if f["name"] == fname), None)] *)
Fixpoint first_food_named (fname : json) (foods : list json) : result json :=
  match foods with
  | [] => Ok JNull
  | f :: foods' =>
      rbind (Py.getitem f "name") (fun n =>
      if Py.eq n fname then Ok f else first_food_named fname foods')
  end.

Definition on_pick_qty (call : Call) (data : json) : M unit :=
  let user_id := call_from_id call in
  rid <- lift (Py.getitem data "rid") ;;
  fname <- lift (Py.getitem data "food_name") ;;
  qty <- lift (rbind (Py.getitem data "qty") Py.to_int) ;;
  rest <- ref_get (get_restaurant_ref rid) ;;
  foods <- lift (rbind (Py.get_or rest "foods" (JList [])) Py.iter) ;;
  food <- lift (first_food_named fname foods) ;;
  if negb (Py.truthy food) then answer "Food not found"
  else
    unit_price <- lift (rbind (Py.get_or food "price" (JInt 0)) Py.to_float) ;;
    quantity <- lift (Py.float_of_int qty) ;;
    let price := JFloat (Py.fmul unit_price quantity) in
    rest_name <- lift (Py.get rest "name") ;;
    phone <- ref_get (get_user_ref user_id ++ ["phone"]) ;;
    let pending :=
      JDict [("restaurant_id", rid);
             ("restaurant_name", rest_name);
             ("items", JList [JDict [("name", fname); ("qty", JInt qty);
                                     ("price", price)]]);
             ("total_price", price);
             ("user_id", JStr (Py.str_of_Z user_id));
             ("user_name", JStr (call_full_name call));
             ("phone", phone)] in
    set_user_state user_id
      (JDict [("awaiting_schedule", JBool true); ("pending_order", pending)]) ;;;
    bot_send_message (JInt user_id)
      [Lit "⏰ When should we schedule?"; Lit nl;
       Lit "Send *ASAP* or `YYYY-MM-DD HH:MM`"] NoMarkup ;;;
    answer_plain.

Definition on_food_page (data : json) : M unit :=
  rid <- lift (Py.getitem data "rid") ;;
  page <- lift (Py.getitem data "page") ;;
  (* two positional arguments for a function of one parameter *)
  kb <- (raise TypeError : M markup) ;;
  emit (EvEditMarkup kb) ;;;
  answer_plain.

Definition on_add_food_existing (call : Call) (data : json) : M unit :=
  page <- lift (Py.get_or data "page" (JInt 0)) ;;
  kb <- build_food_page page ;;
  bot_send_message (JInt (call_from_id call))
    [Lit "📦 Select food to add:"] kb ;;;
  answer_plain.

Definition on_add_food_new (call : Call) (data : json) : M unit :=
  rid <- lift (Py.getitem data "rid") ;;
  set_user_state (call_from_id call)
    (JDict [("add_food_mode", JBool true); ("rid", rid);
            ("step", JStr "name")]) ;;;
  send (call_from_id call) "🍔 Send food name:" ;;;
  answer_plain.

Definition on_add_rest_select_manager (call : Call) (data : json) : M unit :=
  let user_id := call_from_id call in
  uid <- lift (Py.getitem data "uid") ;;
  state <- get_user_state user_id ;;
  p1 <- lift (Py.get state "pending_rest") ;;
  p2 <- (if Py.truthy p1 then ret JNull else lift (Py.get state "data")) ;;
  let pending :=
    if Py.truthy p1 then p1 else Py.or_else p2 (JDict []) in
  manager <- lift (Py.to_int uid) ;;
  pending <- lift (Py.setitem pending "manager_chat_id" (JInt manager)) ;;
  set_user_state user_id (JDict [("pending_rest", pending)]) ;;;
  answer "Manager selected ✅" ;;;
  bot_send_message (JInt user_id)
    [Lit "✅ Manager assigned (Telegram ID: "; Val uid; Lit ")"] NoMarkup ;;;
  attempt_finish_after_state_change user_id.

Definition on_edit_page (data : json) : M unit :=
  page <- lift (Py.getitem data "page") ;;
  search <- lift (Py.get data "search") ;;
  built <- build_restaurant_page page search ;;
  shown <- lift (Py.add_int page 1) ;;
  emit (EvEditText
          [Lit "✏️ Select restaurant to edit (Page "; Val shown; Lit "):"]
          (fst built)) ;;;
  answer_plain.

Definition on_edit_search (call : Call) : M unit :=
  set_user_state (call_from_id call)
    (JDict [("awaiting_edit_search", JBool true)]) ;;;
  answer_plain ;;;
  send (call_from_id call) "🔍 Send restaurant name:".

Definition on_edit_rest (call : Call) (data : json) : M unit :=
  let user_id := call_from_id call in
  rid <- lift (Py.getitem data "rid") ;;
  rest <- ref_get (get_restaurant_ref rid) ;;
  if negb (Py.truthy rest) then answer "Restaurant not found"
  else
    set_user_state user_id (editing rid None) ;;;
    name <- lift (Py.getitem rest "name") ;;
    bot_send_message (JInt user_id)
      [Lit "Editing *"; Val name; Lit "*."; Lit nl; Lit "Choose what to edit:"]
      (ReplyKeyboard
         [[KeyButton "✏️ Name" None; KeyButton "📍 Location" None];
          [KeyButton "🖼 Image" None; KeyButton "➕ Add Food" None];
          [KeyButton "❌ Cancel" None]]) ;;;
    answer_plain.

Definition on_cancel_add_rest_food (call : Call) : M unit :=
  clear_user_state (call_from_id call) ;;;
  answer "Cancelled" ;;;
  send (call_from_id call) "❌ Food adding cancelled.".

Definition on_confirm_delete_rest (call : Call) (data : json) : M unit :=
  rid <- lift (Py.getitem data "rid") ;;
  ref_delete (get_restaurant_ref rid) ;;;
  answer "Restaurant deleted" ;;;
  send (call_from_id call) "✅ Restaurant removed".

(** [index >= len(foods)], then [foods[index]] *)
Definition food_at (foods index : json) : result (option json) :=
  rbind (Py.len foods) (fun n =>
  match index with
  | JInt _ | JBool _ =>
      rbind (Py.index_of index) (fun i =>
      if n <=? i then Ok None
      else
        match foods with
        | JList l => rbind (Py.list_item l i) (fun f => Ok (Some f))
        | JDict _ => Raise KeyError
        | _ => Raise TypeError
        end)
  | JFloat f =>
      rbind (Py.float_of_int n) (fun m =>
      if Py.fle m f then Ok None else Raise TypeError)
  | _ => Raise TypeError
  end).

Definition on_add_existing_food (call : Call) (data : json) : M unit :=
  let user_id := call_from_id call in
  rid <- lift (Py.getitem data "rid") ;;
  index <- lift (Py.getitem data "index") ;;
  rest <- ref_get (get_restaurant_ref rid) ;;
  foods <- lift (Py.get (Py.or_else rest (JDict [])) "foods") ;;
  found <- lift (food_at (Py.or_else foods (JList [])) index) ;;
  match found with
  | None => answer "Food not found"
  | Some food =>
      set_user_state user_id
        (JDict [("awaiting_food_price", JBool true); ("rid", rid);
                ("food_data", food)]) ;;;
      name <- lift (Py.getitem food "name") ;;
      bot_send_message (JInt user_id)
        [Lit "💰 Send price for *"; Val name; Lit "*:"] NoMarkup ;;;
      answer_plain
  end.

Definition view_menu_button (label : string) (rid : json) : button :=
  InlineButton [Lit label] (JDict [("action", JStr "view_menu"); ("rid", rid)]).

Definition on_select_rest (call : Call) (data : json) : M unit :=
  let user_id := call_from_id call in
  rid <- lift (Py.getitem data "rid") ;;
  rest <- ref_get (get_restaurant_ref rid) ;;
  if negb (Py.truthy rest) then answer "Restaurant not found"
  else
    name <- lift (Py.get_or rest "name" (JStr "Unknown")) ;;
    rating <- lift (Py.get_or rest "rating" (JStr "N/A")) ;;
    description <- lift (Py.get_or rest "description" (JStr EmptyString)) ;;
    let caption :=
      [Lit "🍽 *"; Val name; Lit "*"; Lit nl; Lit "⭐ Rating: "; Val rating;
       Lit nl; Lit nl; Val description] in
    let kb :=
      InlineKeyboard
        [[view_menu_button "🛒 Order now" rid;
          view_menu_button "📋 Food list" rid]] in
    image <- lift (Py.get rest "image_file_id") ;;
    (if Py.truthy image then emit (EvSendPhoto (JInt user_id) image caption kb)
     else bot_send_message (JInt user_id) caption kb) ;;;
    answer_plain.

Fixpoint choose_food_rows (rid : json) (only : option json) (foods : list json)
  : result (list (list button)) :=
  match foods with
  | [] => Ok []
  | f :: foods' =>
      rbind (Py.getitem f "name") (fun n =>
      if match only with Some fname => Py.eq n fname | None => true end then
        rbind (Py.get_or f "price" (JStr "N/A")) (fun p =>
        rbind (choose_food_rows rid only foods') (fun more =>
        Ok ([InlineButton [Val n; Lit " — "; Val p]
               (JDict [("action", JStr "choose_food"); ("rid", rid);
                       ("food_name", n)])] :: more)))
      else choose_food_rows rid only foods')
  end.

Definition on_view_menu (call : Call) (data : json) : M unit :=
  let user_id := call_from_id call in
  rid <- lift (Py.getitem data "rid") ;;
  rest <- ref_get (get_restaurant_ref rid) ;;
  foods <- (if Py.truthy rest then lift (Py.get rest "foods") else ret JNull) ;;
  if negb (Py.truthy rest) || negb (Py.truthy foods) then
    answer "No foods available"
  else
    foods <- lift (Py.iter foods) ;;
    rows <- lift (choose_food_rows rid None foods) ;;
    name <- lift (Py.getitem rest "name") ;;
    bot_send_message (JInt user_id) [Lit "📋 *"; Val name; Lit " Menu*"]
      (InlineKeyboard rows) ;;;
    answer_plain.

Definition on_select_rest_food (call : Call) (data : json) : M unit :=
  let user_id := call_from_id call in
  rid <- lift (Py.getitem data "rid") ;;
  fname <- lift (Py.getitem data "food_name") ;;
  rest <- ref_get (get_restaurant_ref rid) ;;
  if negb (Py.truthy rest) then answer "Restaurant not found."
  else
    foods <- lift (rbind (Py.get_or rest "foods" (JList [])) Py.iter) ;;
    rows <- lift (choose_food_rows rid (Some fname) foods) ;;
    name <- lift (Py.getitem rest "name") ;;
    bot_send_message (JInt user_id) [Val name; Lit " menu:"]
      (InlineKeyboard rows) ;;;
    answer_plain.

Definition on_choose_food (call : Call) (data : json) : M unit :=
  rid <- lift (Py.getitem data "rid") ;;
  fname <- lift (Py.getitem data "food_name") ;;
  let row qty :=
    [InlineButton [Val (JInt qty)]
       (JDict [("action", JStr "pick_qty"); ("rid", rid);
               ("food_name", fname); ("qty", JInt qty)])] in
  bot_send_message (JInt (call_from_id call))
    [Lit "How many *"; Val fname; Lit "*?"]
    (InlineKeyboard (map row [1; 2; 3; 4; 5])) ;;;
  answer_plain.

Definition callback_handler (call : Call) : M unit :=
  let user_id := call_from_id call in
  if String.eqb (call_data call) "add_rest_send_image" then
    state <- get_user_state user_id ;;
    state <- lift (dict_update state [("awaiting_rest_image", JBool true)]) ;;
    set_user_state user_id state ;;;
    answer_plain ;;;
    send user_id "📷 Please send the restaurant photo."
  else if String.eqb (call_data call) "add_rest_skip_image" then
    state <- get_user_state user_id ;;
    data <- lift (Py.getitem state "data") ;;
    save_restaurant_and_finish user_id data ;;;
    answer_plain
  else
    match json_loads E (call_data call) with
    | None => answer "Invalid callback data"
    | Some data =>
        action <- lift (Py.get data "action") ;;
        if is_text action "edit_page" then on_edit_page data
        else if is_text action "food_page" then on_food_page data
        else if is_text action "add_food_new" then on_add_food_new call data
        else if is_text action "add_food_existing" then
          on_add_food_existing call data
        else if is_text action "edit_search" then on_edit_search call
        else if is_text action "edit_rest" then on_edit_rest call data
        else if is_text action "cancel_add_rest_food" then
          on_cancel_add_rest_food call
        else if is_text action "confirm_delete_rest" then
          on_confirm_delete_rest call data
        else if is_text action "add_existing_food" then
          on_add_existing_food call data
        else if is_text action "add_rest_select_manager" then
          on_add_rest_select_manager call data
        else if is_text action "select_rest" then on_select_rest call data
        else if is_text action "view_menu" then on_view_menu call data
        else if is_text action "select_rest_food" then
          on_select_rest_food call data
        else if is_text action "choose_food" then on_choose_food call data
        else if is_text action "pick_qty" then on_pick_qty call data
        else answer "Unknown action"
    end.

(** *** The location handler *)

Definition coordinates (lat lon : Py.float) : json :=
  JDict [("lat", JFloat lat); ("lon", JFloat lon)].

Definition handle_location (message : Message) : M unit :=
  let user_id := from_id message in
  match location_of message with
  | None => send user_id "Location missing."
  | Some (lat, lon) =>
      state <- get_user_state user_id ;;
      let state := Py.or_else state (JDict []) in
      reg_step <- lift (Py.get state "reg_rest_step") ;;
      if is_text reg_step "location" then
        data <- lift (Py.getitem state "new_rest") ;;
        data <- lift (Py.setitem data "location" (coordinates lat lon)) ;;
        set_user_state user_id (reg_rest "description" data) ;;;
        send user_id "Write restaurant description:"
      else
        awaiting <- flag state "awaiting_rest_location" ;;
        if awaiting then
          pending <- lift (Py.get state "pending_rest") ;;
          pending <- lift (Py.setitem (Py.or_else pending (JDict []))
                             "location" (coordinates lat lon)) ;;
          set_user_state user_id
            (JDict [("pending_rest", pending);
                    ("awaiting_rest_location", JBool false)]) ;;;
          send user_id "Restaurant location saved." ;;;
          send user_id
            "Send the manager's TELEGRAM ID (numeric). If manager uses a chat id, send that number." ;;;
          set_user_state user_id
            (JDict [("pending_rest", pending);
                    ("awaiting_rest_manager", JBool true)])
        else
          adding <- flag state "add_rest" ;;
          step <- (if adding then lift (Py.get state "step") else ret JNull) ;;
          if adding && is_text step "location" then
            data <- lift (Py.getitem state "data") ;;
            data <- lift (Py.setitem data "location" (coordinates lat lon)) ;;
            set_user_state user_id (add_step "add_rest" "manager" data false) ;;;
            send user_id "Send manager phone number or username:"
          else
            searching <- flag state "awaiting_search_by_location" ;;
            if searching then
              ref_set (get_user_ref user_id ++ ["last_location"])
                (coordinates lat lon) ;;;
              set_user_state user_id (JDict []) ;;;
              find_restaurants_near_user user_id lat lon default_radius_km
            else
              ref_set (get_user_ref user_id ++ ["last_location"])
                (coordinates lat lon) ;;;
              send user_id "Location saved!"
  end.

End Bot.

(** ** A concrete environment

    Used where a property is exercised on a concrete run: every send is
    delivered, text that reads as an integer parses as that naive
    wall-clock reading, and callback payloads are looked up in a small
    table. *)

Definition demo_parse (s : string) : option datetime :=
  match Py.int_of_str s with
  | Some z => Some {| wall := z; tzinfo := None |}
  | None => None
  end.

Definition demo_isoformat (dt : datetime) : string := Py.str_of_Z (instant dt).

Definition pick_two_burgers : json :=
  JDict [("action", JStr "pick_qty"); ("rid", JStr "r1");
         ("food_name", JStr "Burger"); ("qty", JInt 2)].

Definition demo_loads (s : string) : option json :=
  if String.eqb s "pick_qty r1 Burger 2" then Some pick_two_burgers
  else if String.eqb s "add_food_existing" then
    Some (JDict [("action", JStr "add_food_existing")])
  else if String.eqb s "food_page r1 1" then
    Some (JDict [("action", JStr "food_page"); ("rid", JStr "r1");
                 ("page", JInt 1)])
  else None.

Definition demo_env : Env := {|
  uuid4_hex := fun n => ("0a1b2c3d4e5f" ++ Py.str_of_Z (Z.of_nat n))%string;
  dateparser_parse := demo_parse;
  isoformat := demo_isoformat;
  json_loads := demo_loads;
  accepts := fun _ => true;
  str_other := fun _ => EmptyString;
  m_sin := fun x => Ok x;
  m_cos := fun x => Ok x;
  m_asin := fun x => Ok x;
  m_pow := fun x _ => Py.fmul x x;
  ADMINS := [1];
  menu_listing := fun _ _ => ret tt
|}.

Definition world_of (j : json) : World :=
  {| db := j; jobs := []; log := []; clock := 1000; drawn := 0 |}.

(** ** Sequences of aggregate updates *)

Inductive update : Type :=
| AppendIfAbsent (order_id : string)
| IncrementCounter (delta : Z).

Definition commit (E : Env) (rest_id : json) (u : update) : M unit :=
  match u with
  | AppendIfAbsent o => add_order_to_restaurant E rest_id o
  | IncrementCounter d => increment_rest_orders_count E rest_id d
  end.

Definition commits (E : Env) (rest_id : json) (us : list update) : M unit :=
  for_each us (commit E rest_id).

Definition orders_path (E : Env) (rest_id : json) : path :=
  get_restaurant_ref E rest_id ++ ["orders"].

Definition count_path (E : Env) (rest_id : json) : path :=
  get_restaurant_ref E rest_id ++ ["orders_count"].

(** The stored list as a plain sequence, whichever shape the store shows. *)
Definition orders_view (v : json) : list json :=
  match v with
  | JList l => l
  | JDict d => map snd d
  | _ => []
  end.

Definition count_view (v : json) : Z :=
  match v with
  | JInt n => n
  | _ => 0
  end.

Definition list_like (v : json) : bool :=
  match v with
  | JNull | JList _ | JDict _ => true
  | _ => false
  end.

Definition counter_like (v : json) : bool :=
  match v with
  | JNull | JInt _ => true
  | _ => false
  end.

Fixpoint appended (us : list update) : list string :=
  match us with
  | [] => []
  | AppendIfAbsent o :: us' => o :: appended us'
  | IncrementCounter _ :: us' => appended us'
  end.

Fixpoint total_delta (us : list update) : Z :=
  match us with
  | [] => 0
  | AppendIfAbsent _ :: us' => total_delta us'
  | IncrementCounter d :: us' => d + total_delta us'
  end.

(** Appending each identifier that is not yet there, in turn. *)
Definition add_all (ids : list string) (l : list json) : list json :=
  fold_left
    (fun acc o => if Py.mem (JStr o) acc then acc else acc ++ [JStr o]) ids l.

(** Two paths that part ways at some key. *)
Fixpoint diverges (p q : path) : bool :=
  match p, q with
  | k1 :: p', k2 :: q' => if String.eqb k1 k2 then diverges p' q' else true
  | _, _ => false
  end.

(** ** Definitions used by the properties *)

Definition with_db (j : json) (w : World) : World :=
  {| db := j; jobs := jobs w; log := log w; clock := clock w; drawn := drawn w |}.

Definition logged (e : event) (w : World) : World :=
  {| db := db w; jobs := jobs w; log := log w ++ [e];
     clock := clock w; drawn := drawn w |}.

Definition vendor_with_orders (orders : json) : json :=
  JDict [("foodbot",
          JDict [("restaurants",
                  JDict [("r1", JDict [("name", JStr "Pizza Place");
                                       ("orders", orders)])])])].

Definition served (order : json) : bool :=
  match Py.get order "status" with
  | Ok st => Py.eq st (JStr "served")
  | Raise _ => false
  end.

Definition complete_order : json :=
  JDict [("status", JStr "scheduled");
         ("items", JList [JDict [("name", JStr "Burger"); ("qty", JInt 2);
                                 ("price", JInt 10)]]);
         ("total_price", JInt 10); ("user_name", JStr "Ann");
         ("phone", JStr "555")].

Definition orders_db (order : json) : json :=
  JDict [("foodbot", JDict [("orders", JDict [("O1", order)])])].





Definition is_dict (v : json) : bool :=
  match v with JDict _ => true | _ => false end.




Definition flag_of (state : json) (k : string) : bool :=
  match Py.get state k with
  | Ok v => Py.truthy v
  | Raise _ => false
  end.

(** A conversation state on which the text handler reaches the
    schedule-time entry: none of the flows tried before it is active, and
    both [awaiting_schedule] and [pending_order] are set. *)
Definition at_schedule_step (state : json) : bool :=
  is_dict state &&
  negb (flag_of state "add_food_mode") &&
  negb (flag_of state "awaiting_search") &&
  negb (flag_of state "editing_rest") &&
  negb (flag_of state "awaiting_edit_search") &&
  negb (flag_of state "awaiting_food_data") &&
  negb (flag_of state "reg_rest_step") &&
  negb (flag_of state "add_flow") &&
  negb (flag_of state "add_rest" && flag_of state "step") &&
  negb (flag_of state "add_food") &&
  negb (flag_of state "awaiting_food_price") &&
  flag_of state "awaiting_schedule" &&
  flag_of state "pending_order".

(** The stripped text of a message, empty when it has none. *)
Definition stripped (message : Message) : string :=
  match text_of message with
  | Some t => Py.strip t
  | None => EmptyString
  end.

Definition is_asap (text : string) : bool :=
  String.eqb (Py.lower text) "asap" || String.eqb (Py.lower text) "now".

Definition invalid_time (user_id : Z) : event :=
  EvSend (JInt user_id)
    [Lit "Invalid time. Use 'ASAP' or YYYY-MM-DD HH:MM."] NoMarkup.








Definition idle (state : json) : bool :=
  match state with
  | JNull | JDict [] => true
  | _ => false
  end.

Definition burger : json :=
  JDict [("name", JStr "Burger"); ("price", JStr "5.00")].

Definition menu_db : json :=
  JDict [("foodbot",
          JDict [("restaurants",
                  JDict [("r1", JDict [("name", JStr "Pizza Place");
                                       ("foods", JList [burger]);
                                       ("manager_chat_id", JInt 77)])]);
                 ("users", JDict [("42", JDict [("phone", JStr "555")])])])].

Definition ann_picks : Call :=
  {| call_from_id := 42; call_full_name := "Ann";
     call_data := "pick_qty r1 Burger 2" |}.

Definition admin_db (state : json) : json :=
  JDict [("foodbot",
          JDict [("restaurants",
                  JDict [("r1", JDict [("name", JStr "Pizza Place")])]);
                 ("users",
                  JDict [("1", JDict [("phone", JStr "555");
                                      ("state", state)])])])].

Definition text_from_admin (t : string) : Message :=
  {| from_id := 1; full_name := "Root"; text_of := Some t; location_of := None |}.

Definition skip_image : Call :=
  {| call_from_id := 1; call_full_name := "Root";
     call_data := "add_rest_skip_image" |}.

(** The names of the stored restaurants, in store order. *)
Definition restaurant_names (dbv : json) : list (result json) :=
  map (fun kv => Py.get (snd kv) "name") (children (json_at restaurants_ref dbv)).

Definition admin_name_step : json :=
  JDict [("add_rest", JBool true); ("step", JStr "name"); ("data", JDict [])].

Definition manager_name_step : json :=
  JDict [("reg_rest_step", JStr "name"); ("new_rest", JDict [])].

Definition existing_food_price_step : json :=
  JDict [("awaiting_food_price", JBool true); ("rid", JStr "r1");
         ("food_data", JDict [("name", JStr "Burger")])].

Definition new_food_price_step : json :=
  JDict [("add_food_mode", JBool true); ("rid", JStr "r1");
         ("step", JStr "price"); ("food", JDict [("name", JStr "Burger")])].

Definition minus_five : Py.float := Py.float_of_decimal true 5 0.









Definition origin : json :=
  JDict [("lat", JFloat fzero); ("lon", JFloat fzero)].

Definition vendor_at_origin (i : nat) : string * json :=
  (("v" ++ Py.str_of_Z (Z.of_nat i))%string,
   JDict [("name", JStr ("Vendor " ++ Py.str_of_Z (Z.of_nat i))%string);
          ("location", origin)]).


Definition vendors_db (docs : list (string * json)) : json :=
  JDict [("foodbot", JDict [("restaurants", JDict docs)])].

Definition crowd : list (string * json) := map vendor_at_origin (seq 1 16).





Definition pending_burgers : json :=
  JDict [("restaurant_id", JStr "r1");
         ("restaurant_name", JStr "Pizza Place");
         ("items", JList [JDict [("name", JStr "Burger"); ("qty", JInt 2);
                                 ("price", JFloat (Py.float_of_decimal false 10 0))]]);
         ("total_price", JFloat (Py.float_of_decimal false 10 0));
         ("user_id", JStr "42"); ("user_name", JStr "Ann");
         ("phone", JStr "555")].

Definition schedule_db : json :=
  JDict [("foodbot",
          JDict [("restaurants",
                  JDict [("r1", JDict [("name", JStr "Pizza Place");
                                       ("foods",
                                        JList [JDict [("name", JStr "Burger");
                                                      ("price", JStr "5.00")]]);
                                       ("manager_chat_id", JInt 77)])]);
                 ("users",
                  JDict [("42",
                          JDict [("phone", JStr "555");
                                 ("state",
                                  JDict [("awaiting_schedule", JBool true);
                                         ("pending_order", pending_burgers)])])])])].

Definition text_from_ann (t : string) : Message :=
  {| from_id := 42; full_name := "Ann"; text_of := Some t; location_of := None |}.

Definition presses (data : string) : Call :=
  {| call_from_id := 1; call_full_name := "Root"; call_data := data |}.

(** ** Commands and listings beside the conversation flows *)

Section Commands.

Context (E : Env).

(** [is_manager(user_id)] *)
Definition is_manager (user_id : Z) : M bool :=
  u <- ref_get (get_user_ref user_id) ;;
  m <- lift (Py.get (Py.or_else u (JDict [])) "manager") ;;
  ret (Py.eq m (JBool true)).

(** [get_all_restaurants()] *)
Definition get_all_restaurants : M json :=
  r <- ref_get restaurants_ref ;; ret (Py.or_else r (JDict [])).

(** [get_all_foods()]: it reads [foods] below the root of the bot, not
    the top-level [foods] of [get_foods_ref]. *)
Definition get_all_foods : M json :=
  r <- ref_get [ROOT_KEY; "foods"] ;; ret (Py.or_else r (JDict [])).

(** [get_food_ref(fid)] *)
Definition get_food_ref (fid : string) : path := get_foods_ref ++ [fid].

(** [user_id in ADMINS] *)
Definition is_admin (user_id : Z) : bool := existsb (Z.eqb user_id) (ADMINS E).

(** The keyboard of [/menu]; administrators get one more row. *)
Definition menu_rows (admin : bool) : list (list button) :=
  [[KeyButton "Search by restaurant" None; KeyButton "Search by food" None];
   [KeyButton "Search by location" None];
   [KeyButton "Top-rated" None; KeyButton "Least-ordered (fastest)" None];
   [KeyButton "Closest restaurants" None; KeyButton "My orders" None]] ++
  if admin
  then [[KeyButton "/addrestaurant" None; KeyButton "/listrestaurants" None]]
  else [].

(** [handle_menu(message)], the command [/menu] *)
Definition handle_menu (message : Message) : M unit :=
  let user_id := from_id message in
  user_data <- ref_get (get_user_ref user_id) ;;
  unregistered <- lift (lacks_phone user_data) ;;
  if unregistered then send E user_id "Please register using /start"
  else
    bot_send_message E (JInt user_id) [Lit "Choose an option:"]
      (ReplyKeyboard (menu_rows (is_admin user_id))).

(** The record [handle_contact] stores for a user. *)
Definition user_doc (message : Message) (phone_number : string) : json :=
  JDict [("user_id", JInt (from_id message));
         ("name", JStr (full_name message));
         ("phone", JStr phone_number);
         ("registered_at", RTDB_TIMESTAMP)].

(** [handle_contact(message)]; [message.contact] travels beside the
    message: the phone number it carries, or [None]. *)
Definition handle_contact (message : Message) (contact : option string)
  : M unit :=
  let user_id := from_id message in
  match contact with
  | None => send E user_id "Contact not received."
  | Some phone_number =>
      try_except
        (ref_update (get_user_ref user_id) (user_doc message phone_number))
        (ref_set (get_user_ref user_id) (user_doc message phone_number)) ;;;
      send E user_id "Registered! Use /menu to continue." ;;;
      set_user_state user_id (JDict [])
  end.

(** [edit_restaurant_cmd(message)], the command [/edit] *)
Definition edit_restaurant_cmd (message : Message) : M unit :=
  built <- build_restaurant_page (JInt 0) JNull ;;
  bot_send_message E (JInt (from_id message))
    [Lit "✏️ Select restaurant to edit (Page 1):"] (fst built).

(** The button [/delete] shows for a restaurant. *)
Definition delete_button (rid : string) (name : json) : button :=
  InlineButton [Lit "🗑 "; Val name]
    (JDict [("action", JStr "confirm_delete_rest"); ("rid", JStr rid)]).

(** The loop of [delete_restaurant_cmd]: one row for each restaurant;
    [r["name"]] raises on a record without a name. *)
Fixpoint delete_rows (rests : list (string * json))
  : result (list (list button)) :=
  match rests with
  | [] => Ok []
  | (rid, r) :: rests' =>
      rbind (Py.getitem r "name") (fun n =>
      rbind (delete_rows rests') (fun more =>
      Ok ([delete_button rid n] :: more)))
  end.

(** [delete_restaurant_cmd(message)], the command [/delete] *)
Definition delete_restaurant_cmd (message : Message) : M unit :=
  let user_id := from_id message in
  all <- get_all_restaurants ;;
  rests <- lift (Py.items all) ;;
  rows <- lift (delete_rows rests) ;;
  bot_send_message E (JInt user_id) [Lit "⚠️ Select restaurant to delete:"]
    (InlineKeyboard rows).

(** The loop of [cmd_list_restaurants]: one line for each restaurant. *)
Fixpoint listing_lines (docs : list (string * json)) : result (list frag) :=
  match docs with
  | [] => Ok []
  | (rid, r) :: docs' =>
      rbind (Py.get r "name") (fun n =>
      rbind (listing_lines docs') (fun more =>
      Ok ([Lit "- "; Val n; Lit " (id: "; Val (JStr rid); Lit ")"; Lit nl]
            ++ more)))
  end.

(** [cmd_list_restaurants(message)], the command [/listrestaurants] *)
Definition cmd_list_restaurants (message : Message) : M unit :=
  let user_id := from_id message in
  if negb (is_admin user_id) then send E user_id "Not authorized."
  else
    docs <- ref_get restaurants_ref ;;
    let docs := Py.or_else docs (JDict []) in
    if negb (Py.truthy docs) then send E user_id "No restaurants yet."
    else
      items <- lift (Py.items docs) ;;
      lines <- lift (listing_lines items) ;;
      bot_send_message E (JInt user_id)
        ([Lit "Restaurants:"; Lit nl] ++ lines) NoMarkup.

End Commands.

(** ** Definitions used by the further properties *)

(** [o != order_id], the test of the removal's comprehension. *)
Definition other_than (order_id : string) (o : json) : bool :=
  negb (Py.eq o (JStr order_id)).









(** The actions of the callback payloads that the bot builds itself and
    for which [callback_handler] has no branch: the mark-served button
    of a notification, the three food buttons of the manager's
    registration, and the two approval buttons sent to the
    administrators. *)
Definition unanswered_actions : list string :=
  ["mark_served"; "mgr_add_preset"; "mgr_add_custom"; "mgr_food_done";
   "approve_rest"; "reject_rest"].

(** The payload of a button. *)
Definition callback_of (b : button) : json :=
  match b with
  | InlineButton _ cb => cb
  | KeyButton _ _ => JNull
  end.

(** The payloads of an inline keyboard; a reply keyboard has none. *)
Definition payloads (kb : markup) : list json :=
  match kb with
  | InlineKeyboard rows => map callback_of (List.concat rows)
  | _ => []
  end.

(** The concrete environment, with one more callback text understood:
    [text] travels for the payload [data]. *)
Definition env_with (text : string) (data : json) : Env := {|
  uuid4_hex := uuid4_hex demo_env;
  dateparser_parse := dateparser_parse demo_env;
  isoformat := isoformat demo_env;
  json_loads := fun s =>
    if String.eqb s text then Some data else json_loads demo_env s;
  accepts := accepts demo_env;
  str_other := str_other demo_env;
  m_sin := m_sin demo_env;
  m_cos := m_cos demo_env;
  m_asin := m_asin demo_env;
  m_pow := m_pow demo_env;
  ADMINS := ADMINS demo_env;
  menu_listing := menu_listing demo_env
|}.

(** The payload of the mark-served button of an order. *)
Definition served_payload (order_id : string) : json :=
  JDict [("action", JStr "mark_served"); ("order_id", JStr order_id)].

(** The payload of the button that confirms a deletion. *)
Definition delete_payload (rid : string) : json :=
  JDict [("action", JStr "confirm_delete_rest"); ("rid", JStr rid)].




(** A vendor record whose stored location lacks a coordinate. *)
Definition lacks_coordinate (r : json) : Prop :=
  exists pos,
    Py.get r "location" = Ok pos /\
    Py.truthy pos = true /\
    (Py.get pos "lon" = Ok JNull \/ Py.get pos "lat" = Ok JNull).

(** A vendor stored with a latitude only. *)
Definition vendor_without_longitude : string * json :=
  ("half",
   JDict [("name", JStr "Half");
          ("location", JDict [("lat", JFloat fzero)])]).

(** [pending.get(k)] on the dictionary of a pending restaurant. *)
Definition field (pd : list (string * json)) (k : string) : json :=
  match Py.assoc k pd with
  | Some v => v
  | None => JNull
  end.

(** An optional field of the record: present when its value is truthy. *)
Definition present (pd : list (string * json)) (k : string)
  : list (string * json) :=
  if Py.truthy (field pd k) then [(k, field pd k)] else [].

(** The record [try_finalize_pending_rest] builds from a pending
    restaurant. *)
Definition finalized_record (rest_id : string) (pd : list (string * json))
  : json :=
  JDict ([("id", JStr rest_id);
          ("name", field pd "name");
          ("foods", match Py.assoc "foods" pd with
                    | Some v => v
                    | None => JList []
                    end);
          ("manager_chat_id", field pd "manager_chat_id");
          ("location", field pd "location");
          ("created_at", RTDB_TIMESTAMP)] ++
         present pd "image_storage_path" ++ present pd "image_file_id").

(** A pending restaurant with everything the finalization asks for, and
    a phone number. *)
Definition pending_luigi : list (string * json) :=
  [("name", JStr "Luigi"); ("phone", JStr "555");
   ("manager_chat_id", JInt 7); ("location", origin)].




(** A record whose name is text. *)
Definition has_name (r : json) : bool :=
  match r with
  | JDict d =>
      match Py.assoc "name" d with
      | Some (JStr _) => true
      | _ => false
      end
  | _ => false
  end.


(** The id of a stored restaurant, as a button carries it. *)
Definition rid_of (kv : string * json) : json := JStr (fst kv).

(** Whether a payload names the action. *)
Definition action_is (name : string) (cb : json) : bool :=
  match Py.get cb "action" with
  | Ok a => is_text a name
  | Raise _ => false
  end.

(** The restaurants a page offers for editing. *)
Definition edit_targets (kb : markup) : list json :=
  flat_map
    (fun cb =>
       if action_is "edit_rest" cb then
         [match Py.get cb "rid" with Ok rid => rid | Raise _ => JNull end]
       else [])
    (payloads kb).

(** Whether a keyboard offers to turn to a page. *)
Definition offers_page (kb : markup) (page : Z) : bool :=
  existsb
    (fun cb =>
       action_is "edit_page" cb &&
       match Py.get cb "page" with
       | Ok p => Py.eq p (JInt page)
       | Raise _ => false
       end)
    (payloads kb).

(** The page count of [build_restaurant_page] for [n] restaurants. *)
Definition page_count (n : nat) : Z :=
  Z.max 1 ((Z.of_nat n + PAGE_SIZE - 1) / PAGE_SIZE).

(** A navigation button of [build_restaurant_page]. *)
Definition page_button (label : string) (page : Z) (search : json) : button :=
  InlineButton [Lit label]
    (JDict [("action", JStr "edit_page"); ("page", JInt page);
            ("search", search)]).

(** The navigation of page [p] out of [total]. *)
Definition nav_row (p total : Z) (search : json) : list button :=
  (if 0 <? p then [page_button "⬅ Prev" (p - 1) search] else []) ++
  (if p <? total - 1 then [page_button "Next ➡" (p + 1) search] else []).

(** The navigation is added as a row when it has a button. *)
Definition nav_rows (p total : Z) (search : json) : list (list button) :=
  match nav_row p total search with
  | [] => []
  | _ :: _ => [nav_row p total search]
  end.

(** The last row of every page. *)
Definition search_row : list button :=
  [InlineButton [Lit "🔍 Search"] (JDict [("action", JStr "edit_search")])].

(** What page number [p] of the unfiltered listing offers for editing. *)
Definition page_targets (w : World) (p : nat) : list json :=
  match build_restaurant_page (JInt (Z.of_nat p)) JNull w with
  | (_, Ok (kb, _)) => edit_targets kb
  | (_, Raise _) => []
  end.

(** The sort key of [build_restaurant_page]: the name in lower case. *)
Definition lower_name (r : json) : string :=
  match Py.get_or r "name" (JStr EmptyString) with
  | Ok (JStr n) => Py.lower n
  | _ => EmptyString
  end.

(** The row of a restaurant on a page. *)
Definition edit_row (kv : string * json) : list button :=
  [InlineButton
     [Val (match Py.get (snd kv) "name" with Ok n => n | Raise _ => JNull end)]
     (JDict [("action", JStr "edit_rest"); ("rid", JStr (fst kv))])].

(** The restaurants in the order of the pages: sorted by name in lower
    case, restaurants of equal names in store order. *)
Definition by_name (docs : list (string * json)) : list (string * json) :=
  map snd
    (Py.sort_by String.ltb (map (fun kv => (lower_name (snd kv), kv)) docs)).

(** The payload of a button that proposes the user [uid] as manager. *)
Definition manager_payload (uid : string) : json :=
  JDict [("action", JStr "add_rest_select_manager"); ("uid", JStr uid)].

(** What the administrator's flow has collected when it asks for the
    manager. *)
Definition collected_luigi : list (string * json) :=
  [("name", JStr "Luigi"); ("phone", JStr "555"); ("location", origin)].

(** The state in which that flow asks for the manager. *)
Definition asked_for_manager : json :=
  JDict [("add_rest", JBool true); ("step", JStr "manager");
         ("data", JDict collected_luigi)].

(** The texts that the buttons of a reply keyboard send. *)
Definition key_texts (rows : list (list button)) : list string :=
  flat_map
    (flat_map (fun b => match b with
                        | KeyButton label _ => [label]
                        | InlineButton _ _ => []
                        end)) rows.

(** The keys of the conversation state that [general_text_handler] tests
    before it compares the text with the options of the menu. *)
Definition flow_keys : list string :=
  ["add_food_mode"; "awaiting_search"; "editing_rest"; "awaiting_edit_search";
   "awaiting_food_data"; "reg_rest_step"; "add_flow"; "add_rest"; "add_food";
   "awaiting_food_price"; "awaiting_schedule"].

(** A conversation state in which none of these keys is set. *)
Definition in_no_flow (state : json) : bool :=
  is_dict state && forallb (fun k => negb (flag_of state k)) flow_keys.

(** The store after [set_user_state] has merged [d] into the state of
    [uid]. *)
Definition merged_into (uid : Z) (d : list (string * json)) (dbv : json)
  : json :=
  fold_left (fun acc kv => json_set (state_ref uid ++ [fst kv]) (snd kv) acc)
    d dbv.

(** A text message of the user [uid]. *)
Definition says (uid : Z) (who text : string) : Message :=
  {| from_id := uid; full_name := who; text_of := Some text;
     location_of := None |}.

(** A location shared by the user [uid]. *)
Definition shares (uid : Z) (who : string) (lat lon : Py.float) : Message :=
  {| from_id := uid; full_name := who; text_of := None;
     location_of := Some (lat, lon) |}.

(** The state of the flow that adds a restaurant at [step], with [data]
    collected. *)
Definition adding_rest (step : string) (data : list (string * json))
  : list (string * json) :=
  [("add_flow", JBool false); ("add_rest", JBool true); ("step", JStr step);
   ("data", JDict data)].

(** The foods of a restaurant record. *)
Definition menu_of (r : json) : list json :=
  match Py.get_or r "foods" (JList []) with
  | Ok (JList fs) => fs
  | _ => []
  end.

(** A restaurant record whose name is text and whose foods, if it has
    any, are a list of records whose names are text. *)
Definition has_menu (r : json) : bool :=
  has_name r &&
  match Py.get_or r "foods" (JList []) with
  | Ok (JList fs) => forallb has_name fs
  | _ => false
  end.




(** [r.get("name")] of a record, [None] for anything else. *)
Definition name_of (r : json) : json :=
  match Py.get r "name" with
  | Ok n => n
  | Raise _ => JNull
  end.

(** The payload of the button that the food search shows for a hit. *)
Definition food_choice (hit : string * json * json) : json :=
  JDict [("action", JStr "select_rest_food");
         ("rid", JStr (fst (fst hit)));
         ("food_name", name_of (snd hit))].

(** The payload of the button that offers the food [f] of the
    restaurant [rid] for ordering. *)
Definition order_choice (rid : json) (f : json) : json :=
  JDict [("action", JStr "choose_food"); ("rid", rid);
         ("food_name", name_of f)].

(** Whether the food [f'] bears the name of the food [f]. *)
Definition named_like (f f' : json) : bool := Py.eq (name_of f') (name_of f).

(** A second food, and a store with two menus that share it. *)
Definition pasta : json :=
  JDict [("name", JStr "Pasta"); ("price", JStr "6.50")].

Definition two_menus_db : json :=
  JDict [("foodbot",
          JDict [("restaurants",
                  JDict [("r1", JDict [("name", JStr "Pizza Place");
                                       ("foods", JList [burger; pasta])]);
                         ("r2", JDict [("name", JStr "Corner");
                                       ("foods", JList [pasta])])])])].

(** A computation that writes nothing outside the record of the user
    [uid]. *)
Definition keeps_outside (uid : Z) {A : Type} (c : M A) : Prop :=
  forall w q,
    diverges (get_user_ref uid) q = true ->
    json_at q (db (fst (c w))) = json_at q (db w).

(** The state of a user who edits the location of the restaurant
    [rid]. *)
Definition editing_location (rid : string) : list (string * json) :=
  [("editing_rest", JBool true); ("rid", JStr rid);
   ("edit_step", JStr "location")].

(** No flow that [handle_location] serves is waiting for a location. *)
Definition expects_no_location (state : json) : bool :=
  match Py.get state "reg_rest_step", Py.get state "step" with
  | Ok reg, Ok step =>
      negb (is_text reg "location") &&
      negb (flag_of state "awaiting_rest_location") &&
      negb (flag_of state "add_rest" && is_text step "location") &&
      negb (flag_of state "awaiting_search_by_location")
  | _, _ => false
  end.

(** * Properties *)

(** ** The store *)

Lemma assoc_set_same {A : Type} (k : string) (v : A) (d : list (string * A)) :
  Py.assoc k (Py.assoc_set k v d) = Some v.
Proof.
  induction d as [|[k' v'] d IH]; simpl.
  - now rewrite String.eqb_refl.
  - destruct (String.eqb k k') eqn:Hk; simpl; rewrite Hk; auto.
Qed.

Lemma assoc_set_other {A : Type} (k k' : string) (v : A)
  (d : list (string * A)) :
  String.eqb k' k = false ->
  Py.assoc k' (Py.assoc_set k v d) = Py.assoc k' d.
Proof.
  intros Hne.
  induction d as [|[k0 v0] d IH]; simpl.
  - now rewrite Hne.
  - destruct (String.eqb k k0) eqn:Hk; simpl.
    + apply String.eqb_eq in Hk; subst k0. now rewrite Hne.
    + now rewrite IH.
Qed.

Lemma json_at_app (p q : path) (j : json) :
  json_at (p ++ q) j = json_at q (json_at p j).
Proof.
  revert j; induction p as [|k p IH]; intros j; simpl; auto.
Qed.

Lemma child_set_same (k : string) (v : json) (d : list (string * json)) :
  child k (JDict (Py.assoc_set k v d)) = v.
Proof.
  unfold child; simpl. now rewrite assoc_set_same.
Qed.

Lemma child_set_other (k k' : string) (v : json) (j : json) :
  String.eqb k' k = false ->
  child k' (JDict (Py.assoc_set k v (children j))) = child k' j.
Proof.
  intros Hne. unfold child; simpl. now rewrite assoc_set_other.
Qed.

(** Reading back what was just written. *)
Lemma json_at_set_same (p : path) (v j : json) :
  json_at p (json_set p v j) = v.
Proof.
  revert j; induction p as [|k p IH]; intros j; simpl; auto.
  now rewrite child_set_same.
Qed.

(** A write leaves every path that parts ways with it untouched. *)
Lemma json_at_set_diverges (p q : path) (v j : json) :
  diverges p q = true ->
  json_at q (json_set p v j) = json_at q j.
Proof.
  revert q j; induction p as [|k p IH]; intros q j H; simpl in *.
  - discriminate.
  - destruct q as [|k' q]; [discriminate|]. simpl.
    destruct (String.eqb k k') eqn:Hk.
    + apply String.eqb_eq in Hk; subst k'.
      rewrite child_set_same. now apply IH.
    + rewrite child_set_other; auto.
      rewrite String.eqb_sym. exact Hk.
Qed.

(** A write below a node is seen from the node. *)
Lemma json_at_set_below (p q : path) (v j : json) :
  json_at p (json_set (p ++ q) v j) = json_set q v (json_at p j).
Proof.
  revert j; induction p as [|k p IH]; intros j; simpl; auto.
  now rewrite child_set_same.
Qed.

Lemma diverges_app (base : path) (k1 k2 : string) (p q : path) :
  String.eqb k1 k2 = false ->
  diverges (base ++ k1 :: p) (base ++ k2 :: q) = true.
Proof.
  intros H; induction base as [|k b IH]; simpl.
  - now rewrite H.
  - now rewrite String.eqb_refl.
Qed.

(** ** Python equality on text *)

Lemma eq_str_iff (s : string) (x : json) :
  Py.eq (JStr s) x = true <-> x = JStr s.
Proof.
  destruct x; simpl; split; intros H; try discriminate.
  - apply String.eqb_eq in H. now subst.
  - inversion H; subst. apply String.eqb_refl.
Qed.

Lemma mem_str_iff (s : string) (l : list json) :
  Py.mem (JStr s) l = true <-> In (JStr s) l.
Proof.
  unfold Py.mem. rewrite existsb_exists. split.
  - intros [x [Hin Heq]]. apply eq_str_iff in Heq. now subst.
  - intros Hin. exists (JStr s). split; auto. now apply eq_str_iff.
Qed.

Lemma add_all_app (ids : list string) (l : list json) :
  exists added,
    add_all ids l = l ++ added /\
    NoDup added /\
    (forall x, In x added <-> (exists o, x = JStr o /\ In o ids) /\ ~ In x l).
Proof.
  revert l; induction ids as [|o ids IH]; intros l.
  - exists []. unfold add_all; simpl. rewrite app_nil_r.
    split; [reflexivity|]. split; [constructor|].
    intros x; split; [intros []|]. intros [[o [_ []]] _].
  - unfold add_all in *; simpl.
    destruct (Py.mem (JStr o) l) eqn:Hm.
    + apply mem_str_iff in Hm.
      destruct (IH l) as [added [Heq [Hnd Hchar]]].
      exists added. split; [exact Heq|]. split; [exact Hnd|].
      intros x. rewrite Hchar. split.
      * intros [[o' [Hx Hin]] Hnl]. split; eauto.
      * intros [[o' [Hx [Ho|Hin]]] Hnl]; [subst; contradiction|]. split; eauto.
    + assert (Hnot : ~ In (JStr o) l).
      { intros Hin. apply mem_str_iff in Hin. congruence. }
      destruct (IH (l ++ [JStr o])) as [added [Heq [Hnd Hchar]]].
      exists (JStr o :: added). rewrite Heq, <- app_assoc. simpl.
      split; [reflexivity|]. split.
      * constructor; auto. intros Hin. apply Hchar in Hin.
        destruct Hin as [_ Hin]. apply Hin, in_or_app. right; now left.
      * intros x. split.
        -- intros [Hx|Hx]; [subst; split; eauto|].
           apply Hchar in Hx. destruct Hx as [[o' [Hx Hin]] Hnl]. split; eauto.
           intros Hl. apply Hnl, in_or_app. now left.
        -- intros [[o' [Hx [Ho|Hin]]] Hnl]; [left; congruence|].
           destruct (Py.eq (JStr o) x) eqn:Hox.
           ++ apply eq_str_iff in Hox. now left.
           ++ right. apply Hchar. split; eauto.
              intros Hin'. apply in_app_or in Hin'.
              destruct Hin' as [Hin'|[Hin'|[]]]; [contradiction|].
              subst x. assert (Py.eq (JStr o) (JStr o) = true) by now apply eq_str_iff.
              congruence.
Qed.

Arguments json_at : simpl never.
Arguments json_set : simpl never.

(** ** Steps of the monad *)

Lemma bind_ok {A B : Type} (c : M A) (k : A -> M B) (w w' : World) (a : A) :
  c w = (w', Ok a) -> bind c k w = k a w'.
Proof. unfold bind; intros ->; reflexivity. Qed.

Lemma bind_raise {A B : Type} (c : M A) (k : A -> M B) (w w' : World) (e : exn) :
  c w = (w', Raise e) -> bind c k w = (w', Raise e).
Proof. unfold bind; intros ->; reflexivity. Qed.

Lemma ref_get_eq (p : path) (w : World) :
  ref_get p w = (w, Ok (json_at p (db w))).
Proof. reflexivity. Qed.

Lemma ref_transaction_ok (p : path) (f : json -> result json) (w : World)
  (v : json) :
  f (json_at p (db w)) = Ok v ->
  ref_transaction p f w =
    (logged (EvCommit p v) (with_db (json_set p v (db w)) w), Ok tt).
Proof.
  intros H. unfold ref_transaction, bind, read_db. rewrite H. reflexivity.
Qed.


Lemma ref_set_eq (p : path) (v : json) (w : World) :
  v <> JNull ->
  ref_set p v w = (logged (EvSet p v) (with_db (json_set p v (db w)) w), Ok tt).
Proof.
  intros H. destruct v; try congruence; reflexivity.
Qed.

Lemma try_except_ok {A : Type} (c h : M A) (w w' : World) (a : A) :
  c w = (w', Ok a) -> try_except c h w = (w', Ok a).
Proof. unfold try_except; intros ->; reflexivity. Qed.


(** ** Aggregate updates: nothing is lost *)

Lemma add_order_txn_ok (o : string) (v : json) :
  list_like v = true ->
  add_order_txn o v = Ok (JList (add_all [o] (orders_view v))).
Proof.
  destruct v as [|b|z|f|s|l|d]; intros H; try discriminate; reflexivity.
Qed.

Lemma increment_txn_ok (d : Z) (v : json) :
  counter_like v = true ->
  increment_txn d v = Ok (JInt (count_view v + d)).
Proof.
  destruct v as [|b|z|f|s|l|d']; intros H; try discriminate; reflexivity.
Qed.

Lemma add_order_effect (E : Env) (rid : json) (o : string) (w : World) :
  list_like (json_at (orders_path E rid) (db w)) = true ->
  db (exec (add_order_to_restaurant E rid o) w) =
    json_set (orders_path E rid)
      (JList (add_all [o] (orders_view (json_at (orders_path E rid) (db w)))))
      (db w).
Proof.
  intros H. unfold add_order_to_restaurant, exec. fold (orders_path E rid).
  erewrite try_except_ok
    by (apply ref_transaction_ok, add_order_txn_ok, H).
  reflexivity.
Qed.

Lemma increment_effect (E : Env) (rid : json) (d : Z) (w : World) :
  counter_like (json_at (count_path E rid) (db w)) = true ->
  db (exec (increment_rest_orders_count E rid d) w) =
    json_set (count_path E rid)
      (JInt (count_view (json_at (count_path E rid) (db w)) + d)) (db w).
Proof.
  intros H. unfold increment_rest_orders_count, exec. fold (count_path E rid).
  erewrite try_except_ok
    by (apply ref_transaction_ok, increment_txn_ok, H).
  reflexivity.
Qed.

Lemma orders_count_diverge (E : Env) (rid : json) :
  diverges (orders_path E rid) (count_path E rid) = true /\
  diverges (count_path E rid) (orders_path E rid) = true.
Proof.
  unfold orders_path, count_path. split; now apply diverges_app.
Qed.

Lemma exec_for_each_cons {A : Type} (x : A) (xs : list A) (body : A -> M unit)
  (w : World) :
  outcome (body x) w = Ok tt ->
  exec (for_each (x :: xs) body) w = exec (for_each xs body) (exec (body x) w).
Proof.
  unfold exec, outcome; simpl. unfold bind.
  destruct (body x w) as [w' [[]|e]]; simpl; intros H; congruence.
Qed.

Lemma commit_returns (E : Env) (rid : json) (u : update) (w : World) :
  outcome (commit E rid u) w = Ok tt.
Proof.
  destruct u; simpl; unfold add_order_to_restaurant, increment_rest_orders_count,
    outcome, try_except.
  - destruct (ref_transaction _ _ w) as [w' [[]|e]]; reflexivity.
  - destruct (ref_transaction _ _ w) as [w' [[]|e]]; reflexivity.
Qed.

Lemma commits_state (E : Env) (rid : json) (us : list update) (w : World) :
  list_like (json_at (orders_path E rid) (db w)) = true ->
  counter_like (json_at (count_path E rid) (db w)) = true ->
  let w' := exec (commits E rid us) w in
  orders_view (json_at (orders_path E rid) (db w')) =
    add_all (appended us) (orders_view (json_at (orders_path E rid) (db w))) /\
  count_view (json_at (count_path E rid) (db w')) =
    count_view (json_at (count_path E rid) (db w)) + total_delta us.
Proof.
  revert w; induction us as [|u us IH]; intros w Ho Hc; simpl.
  - unfold commits, exec; simpl. split; [reflexivity | lia].
  - unfold commits in *. rewrite exec_for_each_cons by apply commit_returns.
    destruct (orders_count_diverge E rid) as [Hoc Hco].
    destruct u as [o|d]; simpl.
    + pose proof (add_order_effect E rid o w Ho) as Hdb.
      destruct (IH (exec (add_order_to_restaurant E rid o) w)) as [IHo IHc].
      * rewrite Hdb, json_at_set_same. reflexivity.
      * rewrite Hdb, json_at_set_diverges by exact Hoc. exact Hc.
      * rewrite IHo, IHc, Hdb, json_at_set_same,
          json_at_set_diverges by exact Hoc.
        split; reflexivity.
    + pose proof (increment_effect E rid d w Hc) as Hdb.
      destruct (IH (exec (increment_rest_orders_count E rid d) w)) as [IHo IHc].
      * rewrite Hdb, json_at_set_diverges by exact Hco. exact Ho.
      * rewrite Hdb, json_at_set_same. reflexivity.
      * rewrite IHo, IHc, Hdb, json_at_set_same,
          json_at_set_diverges by exact Hco.
        split; [reflexivity|]. simpl. lia.
Qed.

(** C1 (amended).  Any sequence of committed [appendIfAbsent] and
    [incrementCounter] transactions on one vendor, from an orders value
    that is absent, a list or a keyed mapping and a counter that is absent
    or an integer, ends with the orders list being the normalized initial
    list followed by the appended identifiers that were not yet present,
    each once, and with the counter being the initial count (0 if absent)
    plus the sum of the deltas: no append and no increment is lost. *)
Theorem C1_updates_not_lost (E : Env) (rid : json) (us : list update)
  (w : World) :
  list_like (json_at (orders_path E rid) (db w)) = true ->
  counter_like (json_at (count_path E rid) (db w)) = true ->
  let initial := orders_view (json_at (orders_path E rid) (db w)) in
  let w' := exec (commits E rid us) w in
  let final := orders_view (json_at (orders_path E rid) (db w')) in
  (exists added,
      final = initial ++ added /\
      NoDup added /\
      (forall x, In x added <->
                 (exists o, x = JStr o /\ In o (appended us)) /\
                 ~ In x initial)) /\
  (forall o, In o (appended us) -> In (JStr o) final) /\
  count_view (json_at (count_path E rid) (db w')) =
    count_view (json_at (count_path E rid) (db w)) + total_delta us.
Proof.
  intros Ho Hc initial w' final.
  destruct (commits_state E rid us w Ho Hc) as [Hfinal Hcount].
  fold w' in Hfinal, Hcount. fold final initial in Hfinal.
  destruct (add_all_app (appended us) initial) as [added [Heq [Hnd Hchar]]].
  split; [|split].
  - exists added. rewrite Hfinal. auto.
  - intros o Hin. rewrite Hfinal, Heq.
    destruct (Py.mem (JStr o) initial) eqn:Hm.
    + apply mem_str_iff in Hm. apply in_or_app. now left.
    + apply in_or_app. right. apply Hchar. split; eauto.
      intros Hin'. apply mem_str_iff in Hin'. congruence.
  - exact Hcount.
Qed.

Lemma C1_updates_not_lost_witness :
  list_like (json_at (orders_path demo_env (JStr "r1"))
               (db (world_of (vendor_with_orders (JList [JStr "A"]))))) = true /\
  counter_like (json_at (count_path demo_env (JStr "r1"))
                  (db (world_of (vendor_with_orders (JList [JStr "A"]))))) = true /\
  let us := [AppendIfAbsent "B"; IncrementCounter 1; AppendIfAbsent "B"] in
  let w := world_of (vendor_with_orders (JList [JStr "A"])) in
  let initial := orders_view (json_at (orders_path demo_env (JStr "r1")) (db w)) in
  let w' := exec (commits demo_env (JStr "r1") us) w in
  let final := orders_view (json_at (orders_path demo_env (JStr "r1")) (db w')) in
  (exists added,
      final = initial ++ added /\
      NoDup added /\
      (forall x, In x added <->
                 (exists o, x = JStr o /\ In o (appended us)) /\
                 ~ In x initial)) /\
  (forall o, In o (appended us) -> In (JStr o) final) /\
  count_view (json_at (count_path demo_env (JStr "r1")) (db w')) =
    count_view (json_at (count_path demo_env (JStr "r1")) (db w)) + total_delta us.
Proof.
  split; [reflexivity|]. split; [reflexivity|].
  apply (C1_updates_not_lost demo_env (JStr "r1")
           [AppendIfAbsent "B"; IncrementCounter 1; AppendIfAbsent "B"]
           (world_of (vendor_with_orders (JList [JStr "A"]))));
    reflexivity.
Defined.

(** C1 as stated fails when the vendor already lists an order: the final
    list holds that order too, not only the appended identifiers. *)
Lemma C1_initial_orders_remain :
  let us := [AppendIfAbsent "B"] in
  let w := world_of (vendor_with_orders (JList [JStr "A"])) in
  let w' := exec (commits demo_env (JStr "r1") us) w in
  let final := orders_view (json_at (orders_path demo_env (JStr "r1")) (db w')) in
  ~ (forall x, In x final <-> exists o, x = JStr o /\ In o (appended us)).
Proof.
  intros us w w' final H.
  assert (Hin : In (JStr "A") final) by (vm_compute; auto).
  apply H in Hin. destruct Hin as [o [Ho [Hb|[]]]]. subst o. discriminate.
Qed.

(** ** The dispatcher *)


(** C2 (amended).  Dispatching never raises and never changes a stored
    record or the job store.  If the order record is absent or its
    status is "served", nothing is sent.  Otherwise at most one message
    is sent, to the vendor's notification target with the mark-served
    action; it is sent when the record carries what the summary reads
    (the items with name, quantity and price, the total, the user's name
    and phone) and the transport delivers. *)
Theorem C2_dispatch (E : Env) (chat : json) (oid : string) (w : World) :
  let order := json_at (get_order_ref oid) (db w) in
  let w' := exec (send_restaurant_notification E chat oid) w in
  outcome (send_restaurant_notification E chat oid) w = Ok tt /\
  db w' = db w /\ jobs w' = jobs w /\
  (Py.truthy order = false \/ served order = true -> log w' = log w) /\
  (forall text,
      Py.truthy order = true -> served order = false ->
      order_text oid order = Ok text -> accepts E chat = true ->
      log w' = log w ++ [EvSend chat text (mark_served_keyboard oid)]) /\
  (log w' = log w \/
   exists text, log w' = log w ++ [EvSend chat text (mark_served_keyboard oid)]).
Proof.
  intros order w'. subst w'.
  unfold send_restaurant_notification, exec, outcome, served,
    try_except, bind, ref_get, read_db, lift, ret, bot_send_message, emit.
  simpl. fold order.
  destruct (Py.truthy order) eqn:Ht; simpl;
    [|repeat split; auto; intros; discriminate].
  destruct (Py.get order "status") as [st|e] eqn:Hs; simpl.
  2:{ repeat split; auto.
      intros text _ _ Hx _. exfalso. clear Ht.
      destruct order; try discriminate Hx. discriminate Hs. }
  destruct (Py.eq st (JStr "served")) eqn:Hq; simpl;
    [repeat split; auto; intros; discriminate|].
  destruct (order_text oid order) as [text|e] eqn:Hx; simpl;
    [|repeat split; auto; solve [intros; discriminate|intros [H|H]; discriminate]].
  destruct (accepts E chat) eqn:Ha; simpl.
  - repeat split; auto.
    + intros [H|H]; discriminate.
    + intros text' _ _ Heq _. now inversion Heq.
    + right. now exists text.
  - repeat split; auto; solve [intros; discriminate|intros [H|H]; discriminate].
Qed.

Lemma C2_dispatch_witness :
  let w := world_of (orders_db complete_order) in
  exists text,
    order_text "O1" complete_order = Ok text /\
    log (exec (send_restaurant_notification demo_env (JInt 77) "O1") w) =
      log w ++ [EvSend (JInt 77) text (mark_served_keyboard "O1")].
Proof.
  intros w.
  destruct (C2_dispatch demo_env (JInt 77) "O1" w)
    as [_ [_ [_ [_ [Hsend _]]]]].
  eexists. split; [reflexivity|].
  apply Hsend; reflexivity.
Defined.

(** C2 as stated fails on an order that is neither absent nor served but
    carries no phone: rendering the summary fails, the failure is
    swallowed, and no message goes out. *)
Lemma C2_unserved_order_without_phone :
  let order :=
    JDict [("status", JStr "scheduled"); ("items", JList []);
           ("total_price", JInt 10); ("user_name", JStr "Ann")] in
  let w := world_of (orders_db order) in
  let w' := exec (send_restaurant_notification demo_env (JInt 77) "O1") w in
  ~ ((Py.truthy (json_at (get_order_ref "O1") (db w)) = false \/
      served (json_at (get_order_ref "O1") (db w)) = true ->
      log w' = log w /\ db w' = db w) /\
     (~ (Py.truthy (json_at (get_order_ref "O1") (db w)) = false \/
         served (json_at (get_order_ref "O1") (db w)) = true) ->
      (exists text kb, log w' = log w ++ [EvSend (JInt 77) text kb]) /\
      db w' = db w)).
Proof.
  intros order w w' [_ H].
  assert (Hlive : ~ (Py.truthy (json_at (get_order_ref "O1") (db w)) = false \/
                     served (json_at (get_order_ref "O1") (db w)) = true)).
  { intros [Hf|Hs]; [vm_compute in Hf | vm_compute in Hs]; discriminate. }
  destruct (H Hlive) as [[text [kb Hlog]] _].
  vm_compute in Hlog. discriminate.
Qed.

(** ** Restart recovery *)

























(** ** The schedule step *)

Lemma flag_eq (state : json) (k : string) (w : World) :
  is_dict state = true ->
  flag state k w = (w, Ok (flag_of state k)).
Proof.
  destruct state; try discriminate. intros _. reflexivity.
Qed.

Lemma get_user_state_eq (uid : Z) (w : World) :
  get_user_state uid w =
    (w, Ok (Py.or_else (json_at (state_ref uid) (db w)) (JDict []))).
Proof. reflexivity. Qed.

Lemma send_eq (E : Env) (uid : Z) (text : string) (w : World) :
  send E uid text w =
    if accepts E (JInt uid)
    then (logged (EvSend (JInt uid) [Lit text] NoMarkup) w, Ok tt)
    else (w, Raise ApiError).
Proof.
  unfold send, bot_send_message, emit. destruct (accepts E (JInt uid)); reflexivity.
Qed.

Ltac skip_block H :=
  rewrite (bind_ok _ _ _ _ _ (flag_eq _ _ _ H)).

Section Chain.

Context (E : Env) (message : Message) (text : string) (state : json)
  (w : World).
Hypothesis Hdict : is_dict state = true.

Lemma block_add_food_mode_off :
  flag_of state "add_food_mode" = false ->
  block_add_food_mode E message text state w = (w, Ok false).
Proof.
  intros H. unfold block_add_food_mode.
  rewrite (bind_ok _ _ _ _ _ (flag_eq _ _ _ Hdict)), H. reflexivity.
Qed.

Lemma block_awaiting_search_off :
  flag_of state "awaiting_search" = false ->
  block_awaiting_search E message text state w = (w, Ok false).
Proof.
  intros H. unfold block_awaiting_search.
  rewrite (bind_ok _ _ _ _ _ (flag_eq _ _ _ Hdict)), H. reflexivity.
Qed.

Lemma block_editing_rest_off :
  flag_of state "editing_rest" = false ->
  block_editing_rest E message text state w = (w, Ok false).
Proof.
  intros H. unfold block_editing_rest.
  rewrite (bind_ok _ _ _ _ _ (flag_eq _ _ _ Hdict)), H. reflexivity.
Qed.

Lemma block_edit_name_off :
  flag_of state "editing_rest" = false ->
  block_edit_name E message text state w = (w, Ok false).
Proof.
  intros H. unfold block_edit_name.
  rewrite (bind_ok _ _ _ _ _ (flag_eq _ _ _ Hdict)), H. reflexivity.
Qed.

Lemma block_awaiting_edit_search_off :
  flag_of state "awaiting_edit_search" = false ->
  block_awaiting_edit_search E message text state w = (w, Ok false).
Proof.
  intros H. unfold block_awaiting_edit_search.
  rewrite (bind_ok _ _ _ _ _ (flag_eq _ _ _ Hdict)), H. reflexivity.
Qed.

Lemma block_awaiting_food_data_off :
  flag_of state "awaiting_food_data" = false ->
  block_awaiting_food_data E message text state w = (w, Ok false).
Proof.
  intros H. unfold block_awaiting_food_data.
  rewrite (bind_ok _ _ _ _ _ (flag_eq _ _ _ Hdict)), H. reflexivity.
Qed.

Lemma block_reg_rest_step_off :
  flag_of state "reg_rest_step" = false ->
  block_reg_rest_step E message text state w = (w, Ok false).
Proof.
  intros H. unfold block_reg_rest_step.
  rewrite (bind_ok _ _ _ _ _ (flag_eq _ _ _ Hdict)), H. reflexivity.
Qed.

Lemma block_add_flow_off :
  flag_of state "add_flow" = false ->
  block_add_flow E message text state w = (w, Ok false).
Proof.
  intros H. unfold block_add_flow.
  rewrite (bind_ok _ _ _ _ _ (flag_eq _ _ _ Hdict)), H. reflexivity.
Qed.

Lemma block_add_rest_off :
  flag_of state "add_rest" && flag_of state "step" = false ->
  block_add_rest E message text state w = (w, Ok false).
Proof.
  intros H. unfold block_add_rest.
  rewrite (bind_ok _ _ _ _ _ (flag_eq _ _ _ Hdict)).
  destruct state as [| | | | | |d]; try discriminate.
  unfold flag_of in *. simpl in *. unfold bind, lift, ret. simpl.
  destruct (Py.truthy _); simpl in *; [rewrite H|]; reflexivity.
Qed.

Lemma block_add_food_off :
  flag_of state "add_food" = false ->
  block_add_food E message text state w = (w, Ok false).
Proof.
  intros H. unfold block_add_food.
  rewrite (bind_ok _ _ _ _ _ (flag_eq _ _ _ Hdict)), H. reflexivity.
Qed.

Lemma block_awaiting_food_price_off :
  flag_of state "awaiting_food_price" = false ->
  block_awaiting_food_price E message text state w = (w, Ok false).
Proof.
  intros H. unfold block_awaiting_food_price.
  rewrite (bind_ok _ _ _ _ _ (flag_eq _ _ _ Hdict)), H. reflexivity.
Qed.

End Chain.

Lemma and_then_false (b : M bool) (k : M unit) (w w' : World) :
  b w = (w', Ok false) -> and_then b k w = k w'.
Proof. unfold and_then, bind. intros ->. reflexivity. Qed.

Lemma and_then_true (b : M bool) (k : M unit) (w w' : World) :
  b w = (w', Ok true) -> and_then b k w = (w', Ok tt).
Proof. unfold and_then, bind. intros ->. reflexivity. Qed.

Lemma and_then_raise (b : M bool) (k : M unit) (w w' : World) (e : exn) :
  b w = (w', Raise e) -> and_then b k w = (w', Raise e).
Proof. unfold and_then, bind. intros ->. reflexivity. Qed.

(** On a state at the schedule step the chain comes down to the schedule
    block. *)
Lemma handler_at_schedule_step (E : Env) (message : Message) (w : World) :
  let state := json_at (state_ref (from_id message)) (db w) in
  at_schedule_step state = true ->
  general_text_handler E message w =
    and_then (block_awaiting_schedule E message (stripped message) state)
      (menu_options E message (stripped message)) w.
Proof.
  intros state H. unfold at_schedule_step in H.
  repeat (apply andb_prop in H; destruct H as [H ?]).
  repeat match goal with
         | K : negb _ = true |- _ => apply negb_true_iff in K
         end.
  unfold general_text_handler. fold (stripped message).
  rewrite (bind_ok _ _ _ _ _ (get_user_state_eq _ _)). fold state.
  assert (Hs : Py.or_else state (JDict []) = state).
  { unfold Py.or_else. destruct state as [| | | | | |d]; try discriminate.
    unfold flag_of in *. destruct d; [discriminate|reflexivity]. }
  rewrite Hs.
  rewrite (and_then_false _ _ _ _ (block_add_food_mode_off E _ _ _ _ H ltac:(assumption))).
  rewrite (and_then_false _ _ _ _ (block_awaiting_search_off E _ _ _ _ H ltac:(assumption))).
  rewrite (and_then_false _ _ _ _ (block_editing_rest_off E _ _ _ _ H ltac:(assumption))).
  rewrite (and_then_false _ _ _ _ (block_edit_name_off E _ _ _ _ H ltac:(assumption))).
  rewrite (and_then_false _ _ _ _ (block_awaiting_edit_search_off E _ _ _ _ H ltac:(assumption))).
  rewrite (and_then_false _ _ _ _ (block_awaiting_food_data_off E _ _ _ _ H ltac:(assumption))).
  rewrite (and_then_false _ _ _ _ (block_reg_rest_step_off E _ _ _ _ H ltac:(assumption))).
  rewrite (and_then_false _ _ _ _ (block_add_flow_off E _ _ _ _ H ltac:(assumption))).
  rewrite (and_then_false _ _ _ _ (block_add_rest_off E _ _ _ _ H ltac:(assumption))).
  rewrite (and_then_false _ _ _ _ (block_add_food_off E _ _ _ _ H ltac:(assumption))).
  rewrite (and_then_false _ _ _ _ (block_awaiting_food_price_off E _ _ _ _ H ltac:(assumption))).
  reflexivity.
Qed.

Lemma schedule_block_rejects (E : Env) (message : Message) (text : string)
  (state : json) (w : World) :
  is_dict state = true ->
  flag_of state "awaiting_schedule" = true ->
  flag_of state "pending_order" = true ->
  is_asap text = false ->
  dateparser_parse E text = None ->
  block_awaiting_schedule E message text state w =
    if accepts E (JInt (from_id message))
    then (logged (invalid_time (from_id message)) w, Ok true)
    else (w, Raise ApiError).
Proof.
  intros Hd Ha Hp Hasap Hparse. unfold block_awaiting_schedule.
  rewrite (bind_ok _ _ _ _ _ (flag_eq _ _ _ Hd)), Ha.
  rewrite (bind_ok _ _ _ _ _ (flag_eq _ _ _ Hd)), Hp.
  cbn [andb negb].
  destruct state as [| | | | | |d]; try discriminate.
  unfold flag_of in Hp. simpl in Hp.
  unfold Py.getitem.
  destruct (Py.assoc "pending_order" d) as [pending|] eqn:Hpo;
    [|discriminate].
  unfold is_asap in Hasap. unfold bind at 1. unfold lift at 1.
  unfold bind at 1. rewrite Hasap, Hparse. unfold ret at 1.
  cbn [option_map]. unfold bind. rewrite send_eq.
  destruct (accepts E (JInt (from_id message))); reflexivity.
Qed.

(** C7.  At the schedule-time entry step, a text that is neither "ASAP"
    nor "now" (in any case) and that does not parse as a date-time is
    answered with the re-prompt alone: the store is left as it was (no
    order record, the pending order and the awaiting flag kept, no
    aggregate update), no job is scheduled and no order id is drawn. *)
Theorem C7_unparseable_time_reprompts (E : Env) (message : Message)
  (w : World) :
  let user_id := from_id message in
  let state := json_at (state_ref user_id) (db w) in
  at_schedule_step state = true ->
  is_asap (stripped message) = false ->
  dateparser_parse E (stripped message) = None ->
  let w' := exec (general_text_handler E message) w in
  db w' = db w /\
  json_at (state_ref user_id) (db w') = state /\
  jobs w' = jobs w /\
  drawn w' = drawn w /\
  (accepts E (JInt user_id) = true ->
   outcome (general_text_handler E message) w = Ok tt /\
   log w' = log w ++ [invalid_time user_id]) /\
  (log w' = log w \/ log w' = log w ++ [invalid_time user_id]).
Proof.
  intros user_id state Hstep Hasap Hparse w'.
  pose proof (handler_at_schedule_step E message w Hstep) as Hrun.
  fold user_id state in Hrun.
  unfold at_schedule_step in Hstep.
  repeat (apply andb_prop in Hstep; destruct Hstep as [Hstep ?]).
  pose proof (schedule_block_rejects E message (stripped message) state w
                ltac:(assumption) ltac:(assumption) ltac:(assumption)
                Hasap Hparse) as Hblock.
  fold user_id in Hblock.
  subst w'. unfold exec, outcome. rewrite Hrun.
  destruct (accepts E (JInt user_id)) eqn:Hacc.
  - rewrite (and_then_true _ _ _ _ Hblock). simpl. auto 10.
  - rewrite (and_then_raise _ _ _ _ _ Hblock). simpl.
    repeat split; auto; discriminate.
Qed.

Lemma C7_unparseable_time_reprompts_witness :
  let w := world_of schedule_db in
  let w' := exec (general_text_handler demo_env (text_from_ann "whenever")) w in
  db w' = db w /\ jobs w' = jobs w /\ log w' = log w ++ [invalid_time 42].
Proof.
  intros w w'.
  destruct (C7_unparseable_time_reprompts demo_env (text_from_ann "whenever") w)
    as [Hdb [_ [Hjobs [_ [Hlog _]]]]]; try reflexivity.
  destruct Hlog as [_ Hlog]; [reflexivity|].
  auto.
Defined.

(** ** Placing an order *)


Lemma set_user_state_clear (uid : Z) (w : World) :
  set_user_state uid (JDict []) w =
    (logged (EvSet (state_ref uid) (JDict []))
       (with_db (json_set (state_ref uid) (JDict []) (db w)) w), Ok tt).
Proof. reflexivity. Qed.

Lemma assoc_update_other {A : Type} (k : string) (d e : list (string * A)) :
  Py.assoc k e = None ->
  Py.assoc k (Py.assoc_update d e) = Py.assoc k d.
Proof.
  unfold Py.assoc_update. revert d.
  induction e as [|[k' v'] e IH]; intros d H; simpl in *; auto.
  destruct (String.eqb k k') eqn:Hk; [discriminate|].
  rewrite IH by exact H. now apply assoc_set_other.
Qed.






Lemma json_set_one (k : string) (v j : json) :
  json_set [k] v j = JDict (Py.assoc_set k v (children j)).
Proof. reflexivity. Qed.



Lemma set_user_state_update (uid : Z) (k : string) (v : json)
  (d : list (string * json)) (w : World) :
  set_user_state uid (JDict ((k, v) :: d)) w =
    (logged (EvUpdate (state_ref uid) (JDict ((k, v) :: d)))
       (with_db
          (fold_left
             (fun acc kv => json_set (state_ref uid ++ [fst kv]) (snd kv) acc)
             ((k, v) :: d) (db w)) w), Ok tt).
Proof. reflexivity. Qed.





(** ** Registration, prompts and prices on concrete runs *)

(** C4 (code at the failing input).  With a restaurant "Pizza Place"
    stored, the admin-driven flow takes "PIZZA PLACE" at its name step
    without any re-prompt and later commits it: the store then holds two
    restaurants whose names agree up to case.  The manager flow, on the
    same input at its name step, re-prompts and keeps the draft. *)
Theorem C4_admin_flow_commits_duplicate_name :
  let w0 := world_of (admin_db admin_name_step) in
  let w1 := exec (general_text_handler demo_env (text_from_admin "PIZZA PLACE")) w0 in
  let w2 := exec (callback_handler demo_env skip_image) w1 in
  log w1 =
    [EvUpdate (state_ref 1)
       (JDict [("add_rest", JBool true); ("step", JStr "phone");
               ("data", JDict [("name", JStr "PIZZA PLACE")])]);
     EvSend (JInt 1) [Lit "Send restaurant phone number:"] NoMarkup] /\
  restaurant_names (db w2) = [Ok (JStr "Pizza Place"); Ok (JStr "PIZZA PLACE")] /\
  let m0 := world_of (admin_db manager_name_step) in
  let m1 := exec (general_text_handler demo_env (text_from_admin "PIZZA PLACE")) m0 in
  log m1 =
    [EvSend (JInt 1)
       [Lit "❌ A restaurant with this name already exists. Send a different name."]
       NoMarkup] /\
  db m1 = db m0.
Proof.
  vm_compute. repeat split; reflexivity.
Qed.

(** C5 (code at the failing input).  On [/start] from a user without a
    stored phone, the contact prompt goes out first and the next state,
    [awaiting_contact], is persisted only afterwards. *)
Theorem C5_start_prompts_before_persisting :
  log (exec (handle_start demo_env (text_from_ann "/start"))
         (world_of (JDict []))) =
    [EvSend (JInt 42)
       [Lit "Welcome! Please share your contact to continue."]
       (ReplyKeyboard [[KeyButton "Share contact 📱" (Some "contact")]]);
     EvUpdate (state_ref 42) (JDict [("awaiting_contact", JBool true)])].
Proof. reflexivity. Qed.

(** C6 (code at the failing input).  At the price step of adding an
    existing food, "-5" is accepted: the food is written to the
    restaurant with price -5.0 and the conversation state is cleared.
    The price step of adding a new food rejects the same input, writes
    nothing and keeps the state. *)
Theorem C6_negative_price_committed :
  let w0 := world_of (admin_db existing_food_price_step) in
  let w1 := exec (general_text_handler demo_env (text_from_admin "-5")) w0 in
  json_at (get_restaurant_ref demo_env (JStr "r1") ++ ["foods"]) (db w1) =
    JList [JDict [("name", JStr "Burger"); ("price", JFloat minus_five)]] /\
  json_at (state_ref 1) (db w1) = JDict [] /\
  let n0 := world_of (admin_db new_food_price_step) in
  let n1 := exec (general_text_handler demo_env (text_from_admin "-5")) n0 in
  log n1 =
    [EvSend (JInt 1) [Lit "❌ Invalid price. Send a number like 5 or 5.50"]
       NoMarkup] /\
  db n1 = db n0.
Proof.
  vm_compute. repeat split; reflexivity.
Qed.

(** ** Food pages *)

Lemma build_food_page_raises (page : json) (w : World) :
  exists e, build_food_page page w = (w, Raise e).
Proof.
  unfold build_food_page, bind, lift, reference_slice.
  destruct (Py.mul_int page PAGE_SIZE) as [start|e]; [|eauto].
  destruct (Py.add_int start PAGE_SIZE) as [stop|e]; eauto.
Qed.

(** C10.  Rendering a food button or a navigation button of a food page
    raises, the name [rid] being unbound; in fact every call of
    [build_food_page] raises, already when it slices the database
    reference.  The "add_food_existing" and "food_page" callbacks hence
    end in an unhandled exception, having sent no keyboard and written
    nothing. *)
Theorem C10_food_page_never_built (E : Env) (call : Call) (data : json)
  (w : World) :
  String.eqb (call_data call) "add_rest_send_image" = false ->
  String.eqb (call_data call) "add_rest_skip_image" = false ->
  json_loads E (call_data call) = Some data ->
  Py.get data "action" = Ok (JStr "add_food_existing") \/
  Py.get data "action" = Ok (JStr "food_page") ->
  (forall idx f fs, exists e, food_rows idx (f :: fs) = Raise e) /\
  (forall label page, food_page_button label page = Raise NameError) /\
  (forall page w0, exists e, outcome (build_food_page page) w0 = Raise e) /\
  (exists e, outcome (callback_handler E call) w = Raise e) /\
  exec (callback_handler E call) w = w.
Proof.
  intros Hsend Hskip Hloads Haction.
  split; [|split; [|split]].
  - intros idx f fs. simpl. unfold rbind, name_rid.
    destruct (Py.getitem f "name"); eauto.
  - reflexivity.
  - intros page w0. destruct (build_food_page_raises page w0) as [e He].
    exists e. unfold outcome. now rewrite He.
  - assert (Hrun : exists e, callback_handler E call w = (w, Raise e)).
    { unfold callback_handler. rewrite Hsend, Hskip, Hloads.
      destruct Haction as [Ha|Ha].
      + unfold bind at 1. unfold lift at 1. rewrite Ha.
        cbn [is_text Py.eq String.eqb Ascii.eqb Bool.eqb].
        unfold on_add_food_existing.
        unfold bind at 1. unfold lift at 1.
        destruct (Py.get_or data "page" (JInt 0)) as [page|e]; [|eauto].
        destruct (build_food_page_raises page w) as [e He].
        unfold bind. rewrite He. eauto.
      + unfold bind at 1. unfold lift at 1. rewrite Ha.
        cbn [is_text Py.eq String.eqb Ascii.eqb Bool.eqb].
        unfold on_food_page, bind, lift, raise.
        destruct (Py.getitem data "rid"); [|eauto].
        destruct (Py.getitem data "page"); eauto. }
    destruct Hrun as [e He]. unfold outcome, exec. rewrite He.
    split; [exists e|]; reflexivity.
Qed.

Lemma C10_food_page_never_built_witness :
  (exists e, outcome (callback_handler demo_env (presses "add_food_existing"))
               (world_of menu_db) = Raise e) /\
  exec (callback_handler demo_env (presses "add_food_existing"))
    (world_of menu_db) = world_of menu_db.
Proof.
  destruct (C10_food_page_never_built demo_env (presses "add_food_existing")
              (JDict [("action", JStr "add_food_existing")])
              (world_of menu_db))
    as [_ [_ [_ H]]]; try reflexivity.
  - left. reflexivity.
  - exact H.
Defined.

(** ** Distance search *)







(** *** The sort *)

Section Sort.

Context {A : Type}.





End Sort.

(** *** The vendors found *)








(** * Further properties *)

(** ** Removing an order from a vendor's list *)

Lemma eq_str_right (s : string) (x : json) :
  Py.eq x (JStr s) = true <-> x = JStr s.
Proof.
  destruct x; simpl; split; intros H; try discriminate.
  - apply String.eqb_eq in H. now subst.
  - inversion H. apply String.eqb_refl.
Qed.

Lemma other_than_spec (o : string) (x : json) :
  other_than o x = true <-> x <> JStr o.
Proof.
  unfold other_than. destruct (Py.eq x (JStr o)) eqn:Hq; simpl.
  - apply eq_str_right in Hq. split; [discriminate | congruence].
  - split; auto. intros _ Hx. apply eq_str_right in Hx. congruence.
Qed.

Lemma remove_order_txn_ok (o : string) (v : json) :
  list_like v = true ->
  exists r,
    remove_order_txn o v = Ok r /\
    orders_view r = filter (other_than o) (orders_view v).
Proof.
  unfold remove_order_txn.
  destruct v as [|b|z|f|s|l|d]; intros H; try discriminate; simpl.
  - exists JNull. auto.
  - destruct l as [|x l]; simpl; eexists; split; reflexivity.
  - destruct d as [|kv d]; simpl; eexists; split; reflexivity.
Qed.

Lemma remove_order_effect (E : Env) (rid : json) (o : string) (w : World) :
  list_like (json_at (orders_path E rid) (db w)) = true ->
  exists r,
    remove_order_from_restaurant E rid o w =
      (logged (EvCommit (orders_path E rid) r)
         (with_db (json_set (orders_path E rid) r (db w)) w), Ok tt) /\
    orders_view r =
      filter (other_than o) (orders_view (json_at (orders_path E rid) (db w))).
Proof.
  intros H.
  destruct (remove_order_txn_ok o _ H) as [r [Hr Hv]].
  exists r. split; [|exact Hv].
  unfold remove_order_from_restaurant. fold (orders_path E rid).
  erewrite try_except_ok by (apply ref_transaction_ok, Hr).
  reflexivity.
Qed.

(** X1.  Removing an order from a vendor whose orders value is absent, a
    list or a keyed mapping never raises and leaves the stored list as
    the former one without any occurrence of the order: the order is no
    longer listed, every other entry stays, in the former order, and no
    other path of the store changes. *)
Theorem remove_order_unlists (E : Env) (rid : json) (o : string) (w : World) :
  list_like (json_at (orders_path E rid) (db w)) = true ->
  let initial := orders_view (json_at (orders_path E rid) (db w)) in
  let w' := exec (remove_order_from_restaurant E rid o) w in
  let final := orders_view (json_at (orders_path E rid) (db w')) in
  outcome (remove_order_from_restaurant E rid o) w = Ok tt /\
  final = filter (other_than o) initial /\
  ~ In (JStr o) final /\
  (forall x, In x initial -> x <> JStr o -> In x final) /\
  (forall q, diverges (orders_path E rid) q = true ->
             json_at q (db w') = json_at q (db w)).
Proof.
  intros H initial w' final.
  destruct (remove_order_effect E rid o w H) as [r [Hrun Hv]].
  assert (Hfinal : final = filter (other_than o) initial).
  { subst final w'. unfold exec. rewrite Hrun. simpl.
    now rewrite json_at_set_same. }
  split; [unfold outcome; now rewrite Hrun|].
  split; [exact Hfinal|]. split; [|split].
  - rewrite Hfinal. intros Hin. apply filter_In in Hin.
    destruct Hin as [_ Hin]. apply other_than_spec in Hin. congruence.
  - intros x Hin Hx. rewrite Hfinal. apply filter_In. split; auto.
    now apply other_than_spec.
  - intros q Hq. subst w'. unfold exec. rewrite Hrun. simpl.
    now apply json_at_set_diverges.
Qed.

Lemma remove_order_unlists_witness :
  let w := world_of (vendor_with_orders (JList [JStr "A"; JStr "B"; JStr "A"])) in
  let w' := exec (remove_order_from_restaurant demo_env (JStr "r1") "A") w in
  orders_view (json_at (orders_path demo_env (JStr "r1")) (db w')) = [JStr "B"] /\
  ~ In (JStr "A")
      (orders_view (json_at (orders_path demo_env (JStr "r1")) (db w'))).
Proof.
  intros w w'.
  destruct (remove_order_unlists demo_env (JStr "r1") "A" w)
    as [_ [Hfinal [Hout _]]]; [reflexivity|].
  split; [exact Hfinal | exact Hout].
Defined.

Lemma filter_other_than_absent (o : string) (l : list json) :
  ~ In (JStr o) l -> filter (other_than o) l = l.
Proof.
  induction l as [|x l IH]; simpl; intros H; auto.
  destruct (other_than o x) eqn:Hx.
  - f_equal. apply IH. tauto.
  - exfalso. apply H. left.
    unfold other_than in Hx. apply negb_false_iff in Hx.
    now apply eq_str_right in Hx.
Qed.

(** X2.  Listing an order that the vendor does not list yet and then
    removing it gives back the former list: on an orders value that is
    absent, a list or a keyed mapping, [add_order_to_restaurant]
    followed by [remove_order_from_restaurant] leaves the sequence of
    listed orders as it was. *)
Theorem add_then_remove_restores (E : Env) (rid : json) (o : string)
  (w : World) :
  list_like (json_at (orders_path E rid) (db w)) = true ->
  ~ In (JStr o) (orders_view (json_at (orders_path E rid) (db w))) ->
  let w1 := exec (add_order_to_restaurant E rid o) w in
  let w2 := exec (remove_order_from_restaurant E rid o) w1 in
  In (JStr o) (orders_view (json_at (orders_path E rid) (db w1))) /\
  orders_view (json_at (orders_path E rid) (db w2)) =
    orders_view (json_at (orders_path E rid) (db w)).
Proof.
  intros H Hnew w1 w2.
  assert (Hmem : Py.mem (JStr o)
                   (orders_view (json_at (orders_path E rid) (db w))) = false).
  { destruct (Py.mem _ _) eqn:Hm; auto. apply mem_str_iff in Hm. contradiction. }
  assert (H1 : json_at (orders_path E rid) (db w1) =
               JList (orders_view (json_at (orders_path E rid) (db w)) ++ [JStr o])).
  { subst w1. rewrite add_order_effect by exact H.
    rewrite json_at_set_same. unfold add_all. simpl. now rewrite Hmem. }
  split.
  - rewrite H1. simpl. apply in_or_app. right. now left.
  - destruct (remove_order_effect E rid o w1) as [r [Hrun Hv]].
    { rewrite H1. reflexivity. }
    subst w2. unfold exec at 1. rewrite Hrun. simpl.
    rewrite json_at_set_same, Hv, H1. simpl.
    rewrite filter_app. simpl.
    assert (Hself : other_than o (JStr o) = false).
    { unfold other_than. simpl. now rewrite String.eqb_refl. }
    rewrite Hself, app_nil_r.
    now apply filter_other_than_absent.
Qed.

Lemma add_then_remove_restores_witness :
  let w := world_of (vendor_with_orders (JList [JStr "A"])) in
  let w1 := exec (add_order_to_restaurant demo_env (JStr "r1") "B") w in
  let w2 := exec (remove_order_from_restaurant demo_env (JStr "r1") "B") w1 in
  In (JStr "B") (orders_view (json_at (orders_path demo_env (JStr "r1")) (db w1))) /\
  orders_view (json_at (orders_path demo_env (JStr "r1")) (db w2)) = [JStr "A"].
Proof.
  intros w w1 w2.
  apply (add_then_remove_restores demo_env (JStr "r1") "B" w).
  - reflexivity.
  - simpl. intros [H|[]]. discriminate H.
Defined.

(** ** Failures of the aggregate updaters *)




(** ** The conversation state *)

Lemma diverges_prefix (p q r : path) :
  diverges p q = true -> diverges (p ++ r) q = true.
Proof.
  revert q; induction p as [|k p IH]; intros q H; simpl in *; [discriminate|].
  destruct q as [|k' q]; [discriminate|].
  destruct (String.eqb k k'); auto.
Qed.

Lemma assoc_absent {A : Type} (k : string) (d : list (string * A)) :
  ~ In k (map fst d) -> Py.assoc k d = None.
Proof.
  induction d as [|[k' v] d IH]; simpl; intros H; auto.
  destruct (String.eqb k k') eqn:Hk.
  - apply String.eqb_eq in Hk. subst. tauto.
  - apply IH. tauto.
Qed.

Lemma assoc_update_in {A : Type} (k : string) (v : A) (d e : list (string * A)) :
  NoDup (map fst e) -> In (k, v) e ->
  Py.assoc k (Py.assoc_update d e) = Some v.
Proof.
  revert d; induction e as [|[k0 v0] e IH]; intros d Hnd Hin; [destruct Hin|].
  inversion Hnd as [|? ? Hfresh Hrest]; subst.
  unfold Py.assoc_update in *. simpl.
  destruct Hin as [Heq|Hin].
  - inversion Heq; subst.
    fold (Py.assoc_update (Py.assoc_set k v d) e).
    rewrite assoc_update_other by now apply assoc_absent.
    apply assoc_set_same.
  - now apply IH.
Qed.


(** The node of a shallow merge, seen from the merged path. *)
Lemma merge_at (p : path) (d : list (string * json)) (j : json) :
  d <> [] ->
  json_at p
    (fold_left (fun acc kv => json_set (p ++ [fst kv]) (snd kv) acc) d j) =
  JDict (Py.assoc_update (children (json_at p j)) d).
Proof.
  assert (Hstep : forall d' j',
    json_at p
      (fold_left (fun acc kv => json_set (p ++ [fst kv]) (snd kv) acc) d' j') =
    fold_left (fun s kv => JDict (Py.assoc_set (fst kv) (snd kv) (children s)))
      d' (json_at p j')).
  { induction d' as [|[k v] d' IH]; intros j'; simpl; auto.
    rewrite IH, json_at_set_below, json_set_one. reflexivity. }
  assert (Hdict : forall d' c,
    fold_left (fun s kv => JDict (Py.assoc_set (fst kv) (snd kv) (children s)))
      d' (JDict c) = JDict (Py.assoc_update c d')).
  { induction d' as [|[k v] d' IH]; intros c; simpl; auto. }
  intros Hd. rewrite Hstep.
  destruct d as [|[k v] d]; [congruence|]. simpl.
  rewrite Hdict. reflexivity.
Qed.

Lemma merge_frame (p q : path) (d : list (string * json)) (j : json) :
  diverges p q = true ->
  json_at q
    (fold_left (fun acc kv => json_set (p ++ [fst kv]) (snd kv) acc) d j) =
  json_at q j.
Proof.
  intros H. revert j; induction d as [|[k v] d IH]; intros j; simpl; auto.
  rewrite IH. apply json_at_set_diverges. now apply diverges_prefix.
Qed.




(** X5.  [set_user_state] with the empty dictionary resets the state:
    the merge is refused, the fallback stores the empty dictionary, and
    the outcome is the one of [clear_user_state].  Afterwards
    [get_user_state] returns the empty state whatever was stored before,
    and nothing outside the user's state node has changed. *)
Theorem empty_state_resets (uid : Z) (w : World) :
  let w1 := exec (set_user_state uid (JDict [])) w in
  let w2 := exec (clear_user_state uid) w in
  outcome (set_user_state uid (JDict [])) w = Ok tt /\
  outcome (clear_user_state uid) w = Ok tt /\
  w1 = w2 /\
  outcome (get_user_state uid) w1 = Ok (JDict []) /\
  (forall q, diverges (state_ref uid) q = true ->
             json_at q (db w1) = json_at q (db w)).
Proof.
  intros w1 w2. subst w1 w2. unfold outcome, exec.
  rewrite set_user_state_clear.
  unfold clear_user_state.
  erewrite try_except_ok by (apply ref_set_eq; discriminate).
  unfold logged, with_db. cbn [fst snd db].
  repeat split.
  - rewrite get_user_state_eq. cbn [snd db].
    now rewrite json_at_set_same.
  - intros q Hq. now apply json_at_set_diverges.
Qed.

(** ** Prices *)

































(** ** Buttons without a handler *)

(** X8.  The callback handler has no branch for the actions of six
    buttons that the bot itself sends, among them "Mark as served" of a
    vendor's notification: a press of such a button is answered with
    "Unknown action" and changes nothing, so pressing "Mark as served"
    leaves the order's status as it was.  The payload of the
    notification's button carries the action "mark_served". *)
Theorem own_buttons_unanswered (E : Env) (call : Call) (data : json)
  (action : string) (w : World) :
  String.eqb (call_data call) "add_rest_send_image" = false ->
  String.eqb (call_data call) "add_rest_skip_image" = false ->
  json_loads E (call_data call) = Some data ->
  Py.get data "action" = Ok (JStr action) ->
  In action unanswered_actions ->
  callback_handler E call w =
    (logged (EvAnswer (Some "Unknown action")) w, Ok tt) /\
  db (exec (callback_handler E call) w) = db w /\
  forall oid,
    map (fun cb => Py.get cb "action") (payloads (mark_served_keyboard oid)) =
      [Ok (JStr "mark_served")].
Proof.
  intros H1 H2 Hloads Haction Hin.
  assert (Hrun : callback_handler E call w =
                 (logged (EvAnswer (Some "Unknown action")) w, Ok tt)).
  { unfold callback_handler. rewrite H1, H2, Hloads.
    erewrite bind_ok by (unfold lift; rewrite Haction; reflexivity).
    unfold unanswered_actions in Hin. simpl in Hin.
    repeat (destruct Hin as [Hin|Hin]; [subst action; reflexivity|]).
    destruct Hin. }
  split; [exact Hrun|]. split.
  - unfold exec. now rewrite Hrun.
  - intros oid. reflexivity.
Qed.

Lemma own_buttons_unanswered_witness :
  let E := env_with "mark_served O1" (served_payload "O1") in
  let press := {| call_from_id := 77; call_full_name := "Vendor";
                  call_data := "mark_served O1" |} in
  let w := world_of (orders_db complete_order) in
  callback_handler E press w =
    (logged (EvAnswer (Some "Unknown action")) w, Ok tt) /\
  Py.get (json_at (get_order_ref "O1") (db (exec (callback_handler E press) w)))
    "status" = Ok (JStr "scheduled").
Proof.
  intros E press w.
  destruct (own_buttons_unanswered E press (served_payload "O1")
              "mark_served" w)
    as [Hrun [Hdb _]]; try reflexivity.
  - simpl. auto.
  - split; [exact Hrun|]. rewrite Hdb. reflexivity.
Defined.

(** ** Timers *)














(** ** A vendor with a broken location *)

Lemma haversine_needs_numbers (E : Env) (lon lat : Py.float) (plon plat : json) :
  plon = JNull \/ plat = JNull ->
  exists e, haversine E (JFloat lon) (JFloat lat) plon plat = Raise e.
Proof.
  intros [H|H]; subst; unfold haversine; simpl; [eauto|].
  destruct (Py.real_of plon) as [x|e]; simpl; eauto.
Qed.

Lemma within_radius_broken (E : Env) (lat lon radius : Py.float)
  (docs : list (string * json)) (rid : string) (r : json) :
  In (rid, r) docs -> lacks_coordinate r ->
  exists e, within_radius E lat lon radius docs = Raise e.
Proof.
  intros Hin [pos [Hloc [Htruthy Hmissing]]].
  induction docs as [|[rid' r'] docs IH]; [destruct Hin|].
  cbn [within_radius].
  destruct Hin as [Heq|Hin].
  - inversion Heq; subst. rewrite Hloc. cbn [rbind]. rewrite Htruthy. cbn [negb].
    destruct (Py.get pos "lon") as [plon|e] eqn:Hlon; cbn [rbind]; [|eauto].
    destruct (Py.get pos "lat") as [plat|e] eqn:Hlat; cbn [rbind]; [|eauto].
    destruct (haversine_needs_numbers E lon lat plon plat) as [e He].
    { destruct Hmissing as [H|H]; [left|right]; congruence. }
    rewrite He. cbn [rbind]. eauto.
  - destruct (IH Hin) as [e He]. rewrite He.
    destruct (Py.get r' "location") as [pos'|e1]; cbn [rbind]; [|eauto].
    destruct (negb (Py.truthy pos')); [eauto|].
    destruct (Py.get pos' "lon") as [plon|e2]; cbn [rbind]; [|eauto].
    destruct (Py.get pos' "lat") as [plat|e3]; cbn [rbind]; [|eauto].
    destruct (haversine E (JFloat lon) (JFloat lat) plon plat);
      cbn [rbind]; eauto.
Qed.

(** X11.  One vendor with a broken location breaks the search by
    location for everybody.  If some stored restaurant has a location
    without a longitude or without a latitude, then
    [find_restaurants_near_user] raises for every user, position and
    radius: no message is sent, not even for the vendors in range, and
    the world is left as it was. *)
Theorem broken_location_breaks_search (E : Env) (uid : Z)
  (lat lon radius : Py.float) (w : World) (docs : list (string * json))
  (rid : string) (r : json) :
  json_at restaurants_ref (db w) = JDict docs ->
  In (rid, r) docs ->
  lacks_coordinate r ->
  exists e, find_restaurants_near_user E uid lat lon radius w = (w, Raise e).
Proof.
  intros Hdocs Hin Hbroken.
  destruct (within_radius_broken E lat lon radius docs rid r Hin Hbroken)
    as [e He].
  exists e. unfold find_restaurants_near_user.
  erewrite bind_ok by apply ref_get_eq.
  rewrite Hdocs.
  assert (Hitems : Py.items (Py.or_else (JDict docs) (JDict [])) = Ok docs).
  { destruct docs; [destruct Hin|reflexivity]. }
  unfold bind, lift. now rewrite Hitems, He.
Qed.

Lemma broken_location_breaks_search_witness :
  let w := world_of (vendors_db [vendor_at_origin 1; vendor_without_longitude]) in
  exists e,
    find_restaurants_near_user demo_env 42 fzero fzero default_radius_km w =
      (w, Raise e).
Proof.
  intros w.
  apply (broken_location_breaks_search demo_env 42 fzero fzero
           default_radius_km w
           [vendor_at_origin 1; vendor_without_longitude]
           "half" (snd vendor_without_longitude)).
  - reflexivity.
  - right. left. reflexivity.
  - exists (JDict [("lat", JFloat fzero)]).
    split; [reflexivity|]. split; [reflexivity|]. left. reflexivity.
Defined.

(** ** Committing a pending restaurant *)

Lemma finalize_eq (E : Env) (admin : Z) (w : World) (pd : list (string * json)) :
  Py.get_or (Py.or_else (json_at (state_ref admin) (db w)) (JDict []))
    "pending_rest" (JDict []) = Ok (JDict pd) ->
  let rest_id := Py.take 12 (uuid4_hex E (drawn w)) in
  if negb (Py.truthy (field pd "name")) then
    try_finalize_pending_rest E admin w = (w, Ok (false, [Lit "Name missing"]))
  else
    match Py.assoc "manager_chat_id" pd, Py.assoc "location" pd with
    | None, _ =>
        try_finalize_pending_rest E admin w =
          (w, Ok (false, [Lit "Manager missing"]))
    | Some _, None =>
        try_finalize_pending_rest E admin w =
          (w, Ok (false, [Lit "Location missing"]))
    | Some _, Some _ =>
        exists w',
          try_finalize_pending_rest E admin w =
            (w', Ok (if accepts E (JInt admin)
                     then (true, [Val (JStr rest_id)])
                     else (false, [Err ApiError]))) /\
          db w' =
            json_set (state_ref admin) (JDict [])
              (json_set (restaurants_ref ++ [rest_id])
                 (finalized_record rest_id pd) (db w))
    end.
Proof.
  intros Hpending rest_id.
  assert (Hstart : forall k : json -> json -> M (bool * list frag),
    (state <- get_user_state admin ;;
     pending <- lift (Py.get_or state "pending_rest" (JDict [])) ;;
     name <- lift (Py.get pending "name") ;; k pending name) w =
    k (JDict pd) (field pd "name") w).
  { intros k. erewrite bind_ok by apply get_user_state_eq.
    erewrite bind_ok by (unfold lift; rewrite Hpending; reflexivity).
    reflexivity. }
  unfold try_finalize_pending_rest.
  destruct (Py.truthy (field pd "name")) eqn:Hname; cbn [negb].
  2:{ etransitivity; [apply (Hstart (fun pending name => _))|].
      cbn beta. rewrite Hname. reflexivity. }
  destruct (Py.assoc "manager_chat_id" pd) as [manager|] eqn:Hm.
  2:{ etransitivity; [apply (Hstart (fun pending name => _))|].
      cbn beta. rewrite Hname. unfold has_key. rewrite Hm. reflexivity. }
  destruct (Py.assoc "location" pd) as [location|] eqn:Hl.
  2:{ etransitivity; [apply (Hstart (fun pending name => _))|].
      cbn beta. rewrite Hname. unfold has_key. rewrite Hm, Hl. reflexivity. }
  assert (Hrun : exists w',
    try_finalize_pending_rest E admin w =
      (w', Ok (if accepts E (JInt admin)
               then (true, [Val (JStr rest_id)])
               else (false, [Err ApiError]))) /\
    db w' =
      json_set (state_ref admin) (JDict [])
        (json_set (restaurants_ref ++ [rest_id])
           (finalized_record rest_id pd) (db w))).
  { unfold try_finalize_pending_rest.
    destruct (accepts E (JInt admin)) eqn:Ha; eexists; (split; [
      etransitivity; [apply (Hstart (fun pending name => _))|];
      cbn beta; rewrite Hname; unfold has_key; rewrite Hm, Hl; cbn [negb];
      unfold make_rest_id, uuid4, optional_field;
      unfold bind, lift, ret; cbn [Py.get Py.get_or rbind];
      rewrite Hm, Hl;
      rewrite ref_set_eq by discriminate;
      unfold clear_user_state;
      erewrite try_except_ok by (apply ref_set_eq; discriminate);
      unfold bot_send_message; rewrite Ha; reflexivity|]).
    - cbn [db logged with_db emit fst]. unfold finalized_record, field, present.
      rewrite Hm, Hl. reflexivity.
    - cbn [db logged with_db emit fst]. unfold finalized_record, field, present.
      rewrite Hm, Hl. reflexivity. }
  exact Hrun.
Qed.

(** X12.  [try_finalize_pending_rest] checks before it stores.  When the
    pending restaurant has no name, no manager or no location, nothing
    is written and the answer names the first field that is missing.
    Otherwise the record is stored under a fresh id with the id, name,
    foods, manager, location and creation stamp (and the image fields
    that are set; a phone number that was collected is not part of it),
    and the state is reset.  The answer is the id when the confirmation
    is delivered; when the transport refuses the confirmation the answer
    reports a failure although the record is stored. *)
Theorem finalize_checks_then_stores (E : Env) (admin : Z) (w : World)
  (pd : list (string * json)) :
  Py.get_or (Py.or_else (json_at (state_ref admin) (db w)) (JDict []))
    "pending_rest" (JDict []) = Ok (JDict pd) ->
  let r := try_finalize_pending_rest E admin w in
  let rest_id := Py.take 12 (uuid4_hex E (drawn w)) in
  (Py.truthy (field pd "name") = false ->
   r = (w, Ok (false, [Lit "Name missing"]))) /\
  (Py.truthy (field pd "name") = true ->
   Py.assoc "manager_chat_id" pd = None ->
   r = (w, Ok (false, [Lit "Manager missing"]))) /\
  (Py.truthy (field pd "name") = true ->
   Py.assoc "manager_chat_id" pd <> None ->
   Py.assoc "location" pd = None ->
   r = (w, Ok (false, [Lit "Location missing"]))) /\
  (Py.truthy (field pd "name") = true ->
   Py.assoc "manager_chat_id" pd <> None ->
   Py.assoc "location" pd <> None ->
   json_at (restaurants_ref ++ [rest_id]) (db (fst r)) =
     finalized_record rest_id pd /\
   Py.get (finalized_record rest_id pd) "phone" = Ok JNull /\
   json_at (state_ref admin) (db (fst r)) = JDict [] /\
   snd r = Ok (if accepts E (JInt admin)
               then (true, [Val (JStr rest_id)])
               else (false, [Err ApiError]))).
Proof.
  intros Hpending r rest_id.
  pose proof (finalize_eq E admin w pd Hpending) as Heq. cbn zeta in Heq.
  fold rest_id in Heq. fold r in Heq.
  destruct (Py.truthy (field pd "name")) eqn:Hname; cbn [negb] in Heq.
  2:{ repeat split; intros; try discriminate; exact Heq. }
  destruct (Py.assoc "manager_chat_id" pd) as [manager|] eqn:Hm.
  2:{ repeat split; intros; try discriminate; try congruence; exact Heq. }
  destruct (Py.assoc "location" pd) as [location|] eqn:Hl.
  2:{ repeat split; intros; try discriminate; try congruence; exact Heq. }
  destruct Heq as [w' [Hrun Hdb]].
  split; [intros; discriminate|]. split; [intros; discriminate|].
  split; [intros; discriminate|]. intros _ _ _.
  rewrite Hrun. cbn [fst snd]. rewrite Hdb.
  split; [|split; [|split]].
  - rewrite json_at_set_diverges by reflexivity. apply json_at_set_same.
  - unfold finalized_record, present.
    destruct (Py.truthy (field pd "image_storage_path"));
      destruct (Py.truthy (field pd "image_file_id")); reflexivity.
  - apply json_at_set_same.
  - reflexivity.
Qed.

Lemma finalize_checks_then_stores_witness :
  let w := world_of (admin_db (JDict [("pending_rest", JDict pending_luigi)])) in
  let r := try_finalize_pending_rest demo_env 1 w in
  json_at (restaurants_ref ++ ["0a1b2c3d4e5f"]) (db (fst r)) =
    finalized_record "0a1b2c3d4e5f" pending_luigi /\
  Py.get (finalized_record "0a1b2c3d4e5f" pending_luigi) "phone" = Ok JNull /\
  snd r = Ok (true, [Val (JStr "0a1b2c3d4e5f")]).
Proof.
  intros w r.
  destruct (finalize_checks_then_stores demo_env 1 w pending_luigi)
    as [_ [_ [_ Hstored]]]; [reflexivity|].
  destruct Hstored as [Hrecord [Hphone [_ Hanswer]]];
    try reflexivity; try discriminate.
  split; [exact Hrecord|]. split; [exact Hphone|exact Hanswer].
Defined.

(** ** The name of a restaurant under registration *)






(** ** Search by name *)




Lemma forallb_firstn {A : Type} (P : A -> bool) (n : nat) (l : list A) :
  forallb P l = true -> forallb P (firstn n l) = true.
Proof.
  revert l; induction n as [|n IH]; intros [|x l] H; simpl in *; auto.
  apply andb_true_iff in H. destruct H as [Hx Hl]. now rewrite Hx, IH.
Qed.





(** ** The pages of the restaurant editor *)

Lemma name_keys_spec (rests : list (string * json)) :
  forallb (fun kv => has_name (snd kv)) rests = true ->
  name_keys rests = Ok (map (fun kv => (lower_name (snd kv), kv)) rests).
Proof.
  induction rests as [|[rid r] rests IH]; intros H; [reflexivity|].
  cbn [forallb snd] in H. apply andb_true_iff in H. destruct H as [Hr Hrest].
  cbn [name_keys map snd]. rewrite (IH Hrest). unfold lower_name.
  destruct r as [| | | | | |d]; try discriminate Hr. cbn [has_name] in Hr.
  cbn [Py.getitem Py.get_or].
  destruct (Py.assoc "name" d) as [[| | | |n| |]|]; try discriminate Hr.
  reflexivity.
Qed.

Lemma edit_rest_rows_spec (rests : list (string * json)) :
  forallb (fun kv => has_name (snd kv)) rests = true ->
  edit_rest_rows rests = Ok (map edit_row rests).
Proof.
  induction rests as [|[rid r] rests IH]; intros H; [reflexivity|].
  cbn [forallb snd] in H. apply andb_true_iff in H. destruct H as [Hr Hrest].
  cbn [edit_rest_rows map]. rewrite (IH Hrest). unfold edit_row.
  destruct r as [| | | | | |d]; try discriminate Hr. cbn [has_name] in Hr.
  cbn [Py.getitem Py.get snd fst Py.get_or].
  destruct (Py.assoc "name" d) as [[| | | |n| |]|]; try discriminate Hr.
  reflexivity.
Qed.

Lemma insert_by_name_perm {A : Type} (x : string * A) (l : list (string * A)) :
  Permutation (Py.insert_by String.ltb x l) (x :: l).
Proof.
  induction l as [|y l IH]; simpl; [apply Permutation_refl|].
  destruct (String.ltb (fst y) (fst x)).
  - eapply perm_trans; [apply perm_skip, IH|apply perm_swap].
  - apply Permutation_refl.
Qed.

Lemma sort_by_name_perm {A : Type} (l : list (string * A)) :
  Permutation (Py.sort_by String.ltb l) l.
Proof.
  unfold Py.sort_by. induction l as [|x l IH]; simpl; [constructor|].
  eapply perm_trans; [apply insert_by_name_perm|]. now constructor.
Qed.

Lemma slice_page {A : Type} (p : nat) (l : list A) :
  Py.slice (Z.of_nat p * PAGE_SIZE) (Z.of_nat p * PAGE_SIZE + PAGE_SIZE) l =
    firstn 10 (skipn (10 * p) l).
Proof.
  unfold Py.slice, Py.clamp_index, PAGE_SIZE.
  remember (List.length l) as n eqn:Hn.
  destruct (Z.of_nat p * 10 <? 0) eqn:H1; [apply Z.ltb_lt in H1; lia|].
  destruct (Z.of_nat p * 10 + 10 <? 0) eqn:H2; [apply Z.ltb_lt in H2; lia|].
  remember (Z.to_nat (Z.max 0 (Z.min (Z.of_nat n) (Z.of_nat p * 10)))) as a
    eqn:Ha.
  remember (Z.to_nat
              (Z.max 0 (Z.min (Z.of_nat n) (Z.of_nat p * 10 + 10)) -
               Z.max 0 (Z.min (Z.of_nat n) (Z.of_nat p * 10)))) as k eqn:Hk.
  destruct (Nat.le_gt_cases n (10 * p)) as [Hle|Hgt].
  - assert (k = O) by lia. subst k. rewrite H.
    rewrite (skipn_all2 (n := 10 * p) l) by lia.
    now rewrite firstn_nil.
  - assert (Ha' : a = (10 * p)%nat) by lia.
    assert (Hk' : k = Nat.min (n - 10 * p) 10) by lia.
    rewrite Ha', Hk'.
    assert (Hlen : List.length (skipn (10 * p) l) = (n - 10 * p)%nat)
      by (rewrite length_skipn; lia).
    destruct (Nat.le_gt_cases 10 (n - 10 * p)) as [H|H].
    + now rewrite Nat.min_r by exact H.
    + rewrite Nat.min_l by lia. rewrite <- Hlen.
      rewrite firstn_all. symmetry. apply firstn_all2. lia.
Qed.

Lemma chunks_cover {A : Type} (t : nat) (l : list A) :
  (List.length l <= 10 * t)%nat ->
  List.concat (map (fun p => firstn 10 (skipn (10 * p) l)) (seq 0 t)) = l.
Proof.
  revert l; induction t as [|t IH]; intros l H.
  - destruct l; [reflexivity|simpl in H; lia].
  - cbn [seq map List.concat]. rewrite <- seq_shift, map_map.
    rewrite (map_ext _ (fun p => firstn 10 (skipn (10 * p) (skipn 10 l)))).
    + rewrite IH by (rewrite length_skipn; lia).
      change (skipn (10 * 0) l) with l. apply firstn_skipn.
    + intros p. rewrite skipn_skipn. f_equal. f_equal. lia.
Qed.

Lemma by_name_perm (docs : list (string * json)) :
  Permutation (by_name docs) docs.
Proof.
  unfold by_name.
  eapply perm_trans; [apply Permutation_map, sort_by_name_perm|].
  rewrite map_map. cbn [snd]. rewrite map_id. apply Permutation_refl.
Qed.

Lemma forallb_skipn {A : Type} (P : A -> bool) (n : nat) (l : list A) :
  forallb P l = true -> forallb P (skipn n l) = true.
Proof.
  revert l; induction n as [|n IH]; intros [|x l] H; simpl in *; auto.
  apply andb_true_iff in H. destruct H as [_ Hl]. now apply IH.
Qed.

Lemma page_run (w : World) (docs : list (string * json)) (p : nat) :
  Py.items (Py.or_else (json_at restaurants_ref (db w)) (JDict [])) = Ok docs ->
  forallb (fun kv => has_name (snd kv)) docs = true ->
  build_restaurant_page (JInt (Z.of_nat p)) JNull w =
    (w, Ok (InlineKeyboard
              (map edit_row (firstn 10 (skipn (10 * p) (by_name docs))) ++
               nav_rows (Z.of_nat p) (page_count (List.length docs)) JNull ++
               [search_row]),
            page_count (List.length docs))).
Proof.
  intros Hdocs Hnamed.
  assert (Hlen : List.length (by_name docs) = List.length docs)
    by apply Permutation_length, by_name_perm.
  assert (Hpage : forallb (fun kv => has_name (snd kv))
                    (firstn 10 (skipn (10 * p) (by_name docs))) = true).
  { apply forallb_firstn, forallb_skipn. apply forallb_forall. intros x Hx.
    apply (proj1 (forallb_forall _ _) Hnamed).
    exact (Permutation_in x (by_name_perm docs) Hx). }
  unfold build_restaurant_page.
  erewrite bind_ok by apply ref_get_eq.
  erewrite bind_ok by (unfold lift; rewrite Hdocs; reflexivity).
  cbn [Py.truthy]. erewrite bind_ok by reflexivity.
  erewrite bind_ok by (unfold lift; rewrite name_keys_spec by exact Hnamed; reflexivity).
  fold (by_name docs).
  erewrite bind_ok by reflexivity.
  rewrite slice_page, Hlen.
  erewrite bind_ok by (unfold lift; rewrite edit_rest_rows_spec by exact Hpage; reflexivity).
  reflexivity.
Qed.

Lemma edit_targets_rows (rows : list (string * json)) (tail : list (list button)) :
  edit_targets (InlineKeyboard (map edit_row rows ++ tail)) =
    map rid_of rows ++ edit_targets (InlineKeyboard tail).
Proof.
  unfold edit_targets, payloads.
  induction rows as [|[rid r] rows IH]; [reflexivity|].
  cbn [map app List.concat edit_row callback_of flat_map].
  change (action_is "edit_rest"
            (JDict [("action", JStr "edit_rest"); ("rid", JStr (fst (rid, r)))]))
    with true.
  cbn [fst app]. unfold rid_of at 1. cbn [fst Py.get Py.get_or Py.assoc String.eqb Ascii.eqb Bool.eqb andb].
  f_equal. exact IH.
Qed.

Lemma offers_page_rows (rows : list (string * json)) (tail : list (list button))
  (q : Z) :
  offers_page (InlineKeyboard (map edit_row rows ++ tail)) q =
    offers_page (InlineKeyboard tail) q.
Proof.
  unfold offers_page, payloads.
  induction rows as [|[rid r] rows IH]; [reflexivity|].
  cbn [map app List.concat edit_row callback_of existsb].
  rewrite IH. reflexivity.
Qed.

Lemma nav_targets (p total : Z) :
  edit_targets (InlineKeyboard (nav_rows p total JNull ++ [search_row])) = [].
Proof.
  unfold nav_rows, nav_row.
  destruct (0 <? p); destruct (p <? total - 1); reflexivity.
Qed.

Lemma nav_offers (p total : Z) :
  offers_page (InlineKeyboard (nav_rows p total JNull ++ [search_row])) (p + 1) =
    (p <? total - 1) /\
  offers_page (InlineKeyboard (nav_rows p total JNull ++ [search_row])) (p - 1) =
    (0 <? p).
Proof.
  unfold nav_rows, nav_row, offers_page, payloads, page_button, search_row.
  destruct (0 <? p); destruct (p <? total - 1);
    cbn [app List.concat map callback_of existsb action_is Py.get Py.get_or
         Py.assoc String.eqb Ascii.eqb Bool.eqb andb orb is_text Py.eq];
    rewrite ?Z.eqb_refl; cbn [orb andb];
    repeat match goal with
           | |- context [?a =? ?b] =>
               let H := fresh in
               destruct (a =? b) eqn:H;
               [apply Z.eqb_eq in H; lia|]
           end; auto.
Qed.

Lemma page_count_covers (n : nat) :
  (n <= 10 * Z.to_nat (page_count n))%nat.
Proof.
  unfold page_count, PAGE_SIZE.
  pose proof (Z.mul_succ_div_gt (Z.of_nat n + 10 - 1) 10 ltac:(lia)).
  lia.
Qed.

Lemma page_targets_eq (w : World) (docs : list (string * json)) (p : nat) :
  Py.items (Py.or_else (json_at restaurants_ref (db w)) (JDict [])) = Ok docs ->
  forallb (fun kv => has_name (snd kv)) docs = true ->
  page_targets w p = map rid_of (firstn 10 (skipn (10 * p) (by_name docs))).
Proof.
  intros Hdocs Hnamed. unfold page_targets.
  rewrite (page_run w docs p Hdocs Hnamed).
  rewrite edit_targets_rows, nav_targets. apply app_nil_r.
Qed.

(** X15.  The pages of the restaurant editor cover the restaurants.
    With stored restaurants whose names are text, every page number
    gives a keyboard and the same page count; a page offers at most ten
    restaurants for editing, offers the next page exactly when it is not
    the last and the previous page exactly when it is not the first, and
    the pages from the first to the last, taken together, offer every
    stored restaurant exactly once. *)
Theorem pages_cover_restaurants (w : World) (docs : list (string * json)) :
  Py.items (Py.or_else (json_at restaurants_ref (db w)) (JDict [])) = Ok docs ->
  forallb (fun kv => has_name (snd kv)) docs = true ->
  let total := page_count (List.length docs) in
  (forall p : nat,
      exists kb,
        build_restaurant_page (JInt (Z.of_nat p)) JNull w = (w, Ok (kb, total)) /\
        (List.length (edit_targets kb) <= 10)%nat /\
        offers_page kb (Z.of_nat p + 1) = (Z.of_nat p <? total - 1) /\
        offers_page kb (Z.of_nat p - 1) = (0 <? Z.of_nat p)) /\
  Permutation
    (List.concat (map (page_targets w) (seq 0 (Z.to_nat total))))
    (map rid_of docs).
Proof.
  intros Hdocs Hnamed total. split.
  - intros p. eexists. split; [apply (page_run w docs p Hdocs Hnamed)|].
    fold total.
    rewrite edit_targets_rows, nav_targets, app_nil_r, length_map.
    rewrite !offers_page_rows.
    split; [apply firstn_le_length|]. apply nav_offers.
  - rewrite (map_ext _ (fun p => map rid_of
                                   (firstn 10 (skipn (10 * p) (by_name docs)))))
      by (intros p; now apply page_targets_eq).
    rewrite <- map_map with (g := map rid_of), <- concat_map.
    rewrite chunks_cover.
    + apply Permutation_map, by_name_perm.
    + rewrite (Permutation_length (by_name_perm docs)).
      apply page_count_covers.
Qed.

Lemma pages_cover_restaurants_witness :
  let w := world_of (vendors_db crowd) in
  Permutation (List.concat (map (page_targets w) [0%nat; 1%nat]))
    (map rid_of crowd).
Proof.
  intros w.
  exact (proj2 (pages_cover_restaurants w crowd eq_refl eq_refl)).
Defined.

(** ** Registration *)

Lemma contact_run (E : Env) (message : Message) (phone : string) (w : World) :
  let uid := from_id message in
  exists w1 r,
    handle_contact E message (Some phone) w = (w1, r) /\
    db w1 =
      (if accepts E (JInt uid)
       then json_set (state_ref uid) (JDict [])
       else fun j => j)
        (fold_left
           (fun acc kv => json_set (get_user_ref uid ++ [fst kv]) (snd kv) acc)
           [("user_id", JInt uid); ("name", JStr (full_name message));
            ("phone", JStr phone); ("registered_at", RTDB_TIMESTAMP)] (db w)) /\
    (accepts E (JInt uid) = true -> r = Ok tt).
Proof.
  intros uid. unfold handle_contact. fold uid.
  unfold bind at 1.
  erewrite try_except_ok by reflexivity.
  unfold bind at 1. rewrite send_eq.
  destruct (accepts E (JInt uid)).
  - rewrite set_user_state_clear. do 2 eexists. split; [reflexivity|].
    split; [reflexivity|auto].
  - do 2 eexists. split; [reflexivity|]. split; [reflexivity|discriminate].
Qed.

Lemma registered_user (E : Env) (message : Message) (phone : string) (w : World) :
  let uid := from_id message in
  let w1 := exec (handle_contact E message (Some phone)) w in
  exists rec,
    json_at (get_user_ref uid) (db w1) = JDict rec /\
    Py.assoc "phone" rec = Some (JStr phone) /\
    Py.assoc "name" rec = Some (JStr (full_name message)) /\
    Py.assoc "user_id" rec = Some (JInt uid) /\
    (forall k,
        ~ In k ["user_id"; "name"; "phone"; "registered_at"; "state"] ->
        Py.assoc k rec =
          Py.assoc k (children (json_at (get_user_ref uid) (db w)))) /\
    (accepts E (JInt uid) = true -> Py.assoc "state" rec = Some (JDict [])).
Proof.
  intros uid w1.
  destruct (contact_run E message phone w) as [w' [r [Hrun [Hdb _]]]].
  fold uid in Hdb.
  assert (Hw1 : w1 = w') by (subst w1; unfold exec; now rewrite Hrun).
  rewrite Hw1, Hdb. clear Hw1 Hdb Hrun.
  set (doc := [("user_id", JInt uid); ("name", JStr (full_name message));
               ("phone", JStr phone); ("registered_at", RTDB_TIMESTAMP)]).
  set (old := children (json_at (get_user_ref uid) (db w))).
  assert (Hnd : NoDup (map fst doc)).
  { subst doc. cbn [map fst]. repeat constructor; simpl;
      intuition discriminate. }
  assert (Hother : forall k,
    ~ In k ["user_id"; "name"; "phone"; "registered_at"; "state"] ->
    Py.assoc k (Py.assoc_update old doc) = Py.assoc k old).
  { intros k Hk. apply assoc_update_other. apply assoc_absent.
    subst doc. cbn [map fst]. simpl in *. tauto. }
  destruct (accepts E (JInt uid)).
  - exists (Py.assoc_set "state" (JDict []) (Py.assoc_update old doc)).
    split.
    { unfold state_ref. rewrite json_at_set_below, json_set_one.
      rewrite merge_at by discriminate. reflexivity. }
    split; [rewrite assoc_set_other by reflexivity;
            apply assoc_update_in; [exact Hnd|subst doc; simpl; tauto]|].
    split; [rewrite assoc_set_other by reflexivity;
            apply assoc_update_in; [exact Hnd|subst doc; simpl; tauto]|].
    split; [rewrite assoc_set_other by reflexivity;
            apply assoc_update_in; [exact Hnd|subst doc; simpl; tauto]|].
    split; [|intros _; apply assoc_set_same].
    intros k Hk. rewrite assoc_set_other; [now apply Hother|].
    apply String.eqb_neq. intros ->. apply Hk. simpl. tauto.
  - exists (Py.assoc_update old doc).
    split; [now rewrite merge_at by discriminate|].
    split; [apply assoc_update_in; [exact Hnd|subst doc; simpl; tauto]|].
    split; [apply assoc_update_in; [exact Hnd|subst doc; simpl; tauto]|].
    split; [apply assoc_update_in; [exact Hnd|subst doc; simpl; tauto]|].
    split; [exact Hother|discriminate].
Qed.

(** X16.  Sharing a contact registers the user.  After [handle_contact]
    the user's record carries the phone number, the name and the id of
    the message, whether or not the confirmation could be delivered, and
    every other field of the record (a saved location, the manager
    mark) is as before.  [handle_menu] then shows the menu, unless the
    phone number shared is empty, in which case the user is still asked
    to register.  When the confirmation is delivered the handler returns
    normally and the conversation state is empty afterwards. *)
Theorem contact_registers (E : Env) (message : Message) (phone : string)
  (w : World) :
  let uid := from_id message in
  let w1 := exec (handle_contact E message (Some phone)) w in
  let user := json_at (get_user_ref uid) (db w1) in
  Py.get user "phone" = Ok (JStr phone) /\
  Py.get user "name" = Ok (JStr (full_name message)) /\
  Py.get user "user_id" = Ok (JInt uid) /\
  (forall k,
      ~ In k ["user_id"; "name"; "phone"; "registered_at"; "state"] ->
      child k user = child k (json_at (get_user_ref uid) (db w))) /\
  handle_menu E message w1 =
    (if String.eqb phone EmptyString
     then send E uid "Please register using /start" w1
     else bot_send_message E (JInt uid) [Lit "Choose an option:"]
            (ReplyKeyboard (menu_rows (is_admin E uid))) w1) /\
  (accepts E (JInt uid) = true ->
   outcome (handle_contact E message (Some phone)) w = Ok tt /\
   outcome (get_user_state uid) w1 = Ok (JDict [])).
Proof.
  intros uid w1 user.
  destruct (registered_user E message phone w)
    as [rec [Hrec [Hphone [Hname [Hid [Hother Hstate]]]]]].
  fold uid in Hrec, Hid, Hother, Hstate. fold w1 in Hrec.
  fold user in Hrec.
  split; [rewrite Hrec; simpl; now rewrite Hphone|].
  split; [rewrite Hrec; simpl; now rewrite Hname|].
  split; [rewrite Hrec; simpl; now rewrite Hid|].
  split.
  { intros k Hk. rewrite Hrec. unfold child. cbn [children].
    now rewrite (Hother k Hk). }
  split.
  { unfold handle_menu. fold uid.
    erewrite bind_ok by apply ref_get_eq. fold user. rewrite Hrec.
    assert (Hlacks : lacks_phone (JDict rec) = Ok (String.eqb phone EmptyString)).
    { unfold lacks_phone. destruct rec; [discriminate Hphone|].
      cbn [Py.truthy negb Py.get Py.get_or]. rewrite Hphone. simpl.
      now rewrite Bool.negb_involutive. }
    erewrite bind_ok by (unfold lift; rewrite Hlacks; reflexivity).
    destruct (String.eqb phone EmptyString); reflexivity. }
  intros Ha.
  destruct (contact_run E message phone w) as [w' [r [Hrun [_ Hr]]]].
  split.
  - unfold outcome. rewrite Hrun. cbn [snd]. now apply Hr.
  - unfold outcome. rewrite get_user_state_eq. cbn [snd].
    unfold state_ref. rewrite json_at_app. fold user. rewrite Hrec.
    unfold json_at. simpl. unfold child. cbn [children].
    rewrite (Hstate Ha). reflexivity.
Qed.

(** ** Deleting a restaurant *)

Lemma json_at_null (p : path) : json_at p JNull = JNull.
Proof.
  induction p as [|k p IH]; [reflexivity|].
  change (json_at (k :: p) JNull) with (json_at p (child k JNull)).
  exact IH.
Qed.

Lemma assoc_del_other {A : Type} (k k' : string) (d : list (string * A)) :
  String.eqb k' k = false ->
  Py.assoc k' (Py.assoc_del k d) = Py.assoc k' d.
Proof.
  intros Hne. induction d as [|[k0 v0] d IH]; simpl; [reflexivity|].
  destruct (String.eqb k k0) eqn:Hk; simpl.
  - apply String.eqb_eq in Hk. subst k0. now rewrite Hne.
  - now rewrite IH.
Qed.

Lemma assoc_del_same {A : Type} (k : string) (d : list (string * A)) :
  NoDup (map fst d) -> Py.assoc k (Py.assoc_del k d) = None.
Proof.
  induction d as [|[k0 v0] d IH]; simpl; intros Hnd; [reflexivity|].
  inversion Hnd as [|? ? Hfresh Hrest]; subst.
  destruct (String.eqb k k0) eqn:Hk; simpl.
  - apply String.eqb_eq in Hk. subst k0. now apply assoc_absent.
  - rewrite Hk. now apply IH.
Qed.

Lemma json_delete_one (k : string) (j : json) :
  json_delete [k] j = JDict (Py.assoc_del k (children j)).
Proof. reflexivity. Qed.

Lemma json_delete_step (k k' : string) (p : path) (j : json) :
  json_delete (k :: k' :: p) j =
    match Py.assoc k (children j) with
    | Some c => JDict (Py.assoc_set k (json_delete (k' :: p) c) (children j))
    | None => j
    end.
Proof. reflexivity. Qed.

(** A deletion leaves every path that parts ways with it untouched. *)
Lemma json_delete_frame (p q : path) (j : json) :
  diverges p q = true ->
  json_at q (json_delete p j) = json_at q j.
Proof.
  revert q j; induction p as [|k p IH]; intros q j H; [discriminate H|].
  destruct q as [|k' q]; [discriminate H|]. cbn [diverges] in H.
  destruct p as [|k2 p].
  - rewrite json_delete_one.
    destruct (String.eqb k k') eqn:Hk; [destruct q; discriminate H|].
    change (json_at (k' :: q) ?x) with (json_at q (child k' x)).
    f_equal. unfold child. cbn [children].
    rewrite assoc_del_other; [reflexivity|].
    rewrite String.eqb_sym. exact Hk.
  - rewrite json_delete_step.
    destruct (Py.assoc k (children j)) as [c|] eqn:Hc; [|reflexivity].
    change (json_at (k' :: q) ?x) with (json_at q (child k' x)).
    destruct (String.eqb k k') eqn:Hk.
    + apply String.eqb_eq in Hk. subst k'.
      rewrite child_set_same.
      assert (Hchild : child k j = c) by (unfold child; now rewrite Hc).
      rewrite Hchild. now apply IH.
    + rewrite child_set_other; [reflexivity|].
      rewrite String.eqb_sym. exact Hk.
Qed.

(** A deletion below a dictionary removes the key from it. *)
Lemma json_delete_at (p : path) (k : string) (j : json)
  (d : list (string * json)) :
  json_at p j = JDict d ->
  json_at p (json_delete (p ++ [k]) j) = JDict (Py.assoc_del k d).
Proof.
  revert j; induction p as [|k0 p IH]; intros j Hj.
  - cbn [app]. rewrite json_delete_one.
    change (json_at [] ?x) with x in *. now rewrite Hj.
  - change (json_at (k0 :: p) j) with (json_at p (child k0 j)) in Hj.
    assert (Hstep : json_delete ((k0 :: p) ++ [k]) j =
      match Py.assoc k0 (children j) with
      | Some c => JDict (Py.assoc_set k0 (json_delete (p ++ [k]) c) (children j))
      | None => j
      end).
    { destruct p; reflexivity. }
    rewrite Hstep.
    unfold child in Hj.
    destruct (Py.assoc k0 (children j)) as [c|] eqn:Hc.
    + change (json_at (k0 :: p) ?x) with (json_at p (child k0 x)).
      rewrite child_set_same. now apply IH.
    + rewrite json_at_null in Hj. discriminate Hj.
Qed.

Lemma assoc_in {A : Type} (k : string) (v : A) (d : list (string * A)) :
  NoDup (map fst d) -> In (k, v) d -> Py.assoc k d = Some v.
Proof.
  induction d as [|[k0 v0] d IH]; simpl; intros Hnd Hin; [destruct Hin|].
  inversion Hnd as [|? ? Hfresh Hrest]; subst.
  destruct Hin as [Heq|Hin].
  - inversion Heq; subst. now rewrite String.eqb_refl.
  - destruct (String.eqb k k0) eqn:Hk; [|now apply IH].
    apply String.eqb_eq in Hk. subst k0. exfalso. apply Hfresh.
    apply (in_map fst) in Hin. exact Hin.
Qed.

Lemma delete_rows_spec (docs : list (string * json)) :
  forallb (fun kv => has_name (snd kv)) docs = true ->
  exists rows,
    delete_rows docs = Ok rows /\
    forall rid r, In (rid, r) docs ->
                  In (delete_payload rid) (payloads (InlineKeyboard rows)).
Proof.
  induction docs as [|[rid0 r0] docs IH]; intros H.
  - exists []. split; [reflexivity|]. intros ? ? [].
  - cbn [forallb snd] in H. apply andb_true_iff in H. destruct H as [Hr Hrest].
    destruct (IH Hrest) as [rows [Hrows Hin]].
    destruct r0 as [| | | | | |d]; try discriminate Hr. cbn [has_name] in Hr.
    destruct (Py.assoc "name" d) as [[| | | |n| |]|] eqn:Hn; try discriminate Hr.
    eexists. cbn [delete_rows Py.getitem rbind]. rewrite Hn. cbn [rbind].
    rewrite Hrows. cbn [rbind]. split; [reflexivity|].
    intros rid r [Heq|Hin'].
    + inversion Heq; subst. left. reflexivity.
    + right. exact (Hin rid r Hin').
Qed.

Lemma confirm_delete_run (E : Env) (call : Call) (rid : string) (w : World) :
  String.eqb (call_data call) "add_rest_send_image" = false ->
  String.eqb (call_data call) "add_rest_skip_image" = false ->
  json_loads E (call_data call) = Some (delete_payload rid) ->
  db (exec (callback_handler E call) w) =
    json_delete (restaurants_ref ++ [rid]) (db w).
Proof.
  intros H1 H2 Hloads.
  assert (Hrun : callback_handler E call w =
                 on_confirm_delete_rest E call (delete_payload rid) w).
  { unfold callback_handler. rewrite H1, H2, Hloads. reflexivity. }
  unfold exec. rewrite Hrun.
  unfold on_confirm_delete_rest.
  unfold bind, lift, ref_delete, read_db, write_db, emit, answer,
    bot_answer_callback_query, bind, emit, ret.
  cbn [Py.getitem delete_payload Py.assoc String.eqb Ascii.eqb Bool.eqb andb].
  rewrite send_eq.
  destruct (accepts E (JInt (call_from_id call))); reflexivity.
Qed.

(** X17.  Deleting a restaurant is open to every user.  [/delete]
    offers each stored restaurant for deletion to whoever sends it, and
    a press of the offered button removes that restaurant whoever
    presses: neither step consults the administrators.  Afterwards the
    restaurant reads as absent, every other restaurant is as before, and
    nothing outside the restaurants has changed, so the orders placed
    with the deleted restaurant stay in the store. *)
Theorem delete_is_open_to_all (E : Env) (message : Message) (call : Call)
  (w : World) (docs : list (string * json)) (rid : string) (r : json) :
  json_at restaurants_ref (db w) = JDict docs ->
  NoDup (map fst docs) ->
  forallb (fun kv => has_name (snd kv)) docs = true ->
  In (rid, r) docs ->
  accepts E (JInt (from_id message)) = true ->
  String.eqb (call_data call) "add_rest_send_image" = false ->
  String.eqb (call_data call) "add_rest_skip_image" = false ->
  json_loads E (call_data call) = Some (delete_payload rid) ->
  let w1 := exec (delete_restaurant_cmd E message) w in
  let w2 := exec (callback_handler E call) w1 in
  (exists rows,
      w1 = logged (EvSend (JInt (from_id message))
                     [Lit "⚠️ Select restaurant to delete:"]
                     (InlineKeyboard rows)) w /\
      In (delete_payload rid) (payloads (InlineKeyboard rows))) /\
  json_at (get_restaurant_ref E (JStr rid)) (db w2) = JNull /\
  json_at restaurants_ref (db w2) = JDict (Py.assoc_del rid docs) /\
  (forall rid' r',
      In (rid', r') docs -> rid' <> rid ->
      json_at (get_restaurant_ref E (JStr rid')) (db w2) = r') /\
  (forall q, diverges (restaurants_ref ++ [rid]) q = true ->
             json_at q (db w2) = json_at q (db w)).
Proof.
  intros Hdocs Hnd Hnamed Hin Haccepts H1 H2 Hloads w1 w2.
  destruct (delete_rows_spec docs Hnamed) as [rows [Hrows Hoffer]].
  assert (Hw1 : w1 = logged (EvSend (JInt (from_id message))
                               [Lit "⚠️ Select restaurant to delete:"]
                               (InlineKeyboard rows)) w).
  { subst w1. unfold exec, delete_restaurant_cmd, get_all_restaurants.
    erewrite bind_ok by (erewrite bind_ok by apply ref_get_eq; reflexivity).
    rewrite Hdocs.
    assert (Hitems : Py.items (Py.or_else (JDict docs) (JDict [])) = Ok docs).
    { destruct docs; [destruct Hin|reflexivity]. }
    erewrite bind_ok by (unfold lift; rewrite Hitems; reflexivity).
    erewrite bind_ok by (unfold lift; rewrite Hrows; reflexivity).
    unfold bot_send_message. rewrite Haccepts. reflexivity. }
  assert (Hdb2 : db w2 = json_delete (restaurants_ref ++ [rid]) (db w)).
  { subst w2. rewrite (confirm_delete_run E call rid w1 H1 H2 Hloads).
    now rewrite Hw1. }
  assert (Hafter : json_at restaurants_ref (db w2) = JDict (Py.assoc_del rid docs)).
  { rewrite Hdb2. now apply json_delete_at. }
  split; [exists rows; split; [exact Hw1|exact (Hoffer rid r Hin)]|].
  split; [|split; [exact Hafter|split]].
  - change (get_restaurant_ref E (JStr rid)) with (restaurants_ref ++ [rid]).
    rewrite json_at_app, Hafter.
    change (json_at [rid] ?x) with (child rid x). unfold child. cbn [children].
    now rewrite assoc_del_same.
  - intros rid' r' Hin' Hne.
    change (get_restaurant_ref E (JStr rid')) with (restaurants_ref ++ [rid']).
    rewrite json_at_app, Hafter.
    change (json_at [rid'] ?x) with (child rid' x). unfold child. cbn [children].
    rewrite assoc_del_other by now apply String.eqb_neq.
    now rewrite (assoc_in rid' r' docs Hnd Hin').
  - intros q Hq. rewrite Hdb2. now apply json_delete_frame.
Qed.

Lemma delete_is_open_to_all_witness :
  let E := env_with "confirm_delete_rest r1" (delete_payload "r1") in
  let press := {| call_from_id := 42; call_full_name := "Ann";
                  call_data := "confirm_delete_rest r1" |} in
  let w := world_of menu_db in
  let w1 := exec (delete_restaurant_cmd E (text_from_ann "/delete")) w in
  let w2 := exec (callback_handler E press) w1 in
  is_admin E 42 = false /\
  json_at (get_restaurant_ref E (JStr "r1")) (db w2) = JNull.
Proof.
  intros E press w w1 w2. split; [reflexivity|].
  destruct (delete_is_open_to_all E (text_from_ann "/delete") press w
              [("r1", JDict [("name", JStr "Pizza Place");
                             ("foods", JList [burger]);
                             ("manager_chat_id", JInt 77)])]
              "r1"
              (JDict [("name", JStr "Pizza Place");
                      ("foods", JList [burger]);
                      ("manager_chat_id", JInt 77)]))
    as [_ [Hgone _]];
    [reflexivity | | reflexivity | | reflexivity | reflexivity | reflexivity
    | reflexivity | exact Hgone].
  - repeat constructor. simpl. tauto.
  - left. reflexivity.
Defined.

(** X18.  Buttons of a restaurant that is no longer stored.  A press
    whose payload names an absent restaurant is answered with a notice
    by the restaurant page, the edit page, the menu, the food list of a
    search hit and the choice of an existing food (for an index that is
    not negative); none of these writes anything.  The quantity button
    is the exception: it reads the foods of the missing restaurant
    without a check, so the press raises [AttributeError] and leaves the
    world as it was, without an answer to the press. *)
Theorem absent_restaurant_answers (E : Env) (call : Call) (data : json)
  (action : string) (rid : json) (w : World) :
  String.eqb (call_data call) "add_rest_send_image" = false ->
  String.eqb (call_data call) "add_rest_skip_image" = false ->
  json_loads E (call_data call) = Some data ->
  Py.get data "action" = Ok (JStr action) ->
  Py.getitem data "rid" = Ok rid ->
  json_at (get_restaurant_ref E rid) (db w) = JNull ->
  let said note := (logged (EvAnswer (Some note)) w, @Ok unit tt) in
  (action = "select_rest" ->
   callback_handler E call w = said "Restaurant not found") /\
  (action = "edit_rest" ->
   callback_handler E call w = said "Restaurant not found") /\
  (action = "view_menu" ->
   callback_handler E call w = said "No foods available") /\
  (action = "select_rest_food" ->
   (exists fname, Py.getitem data "food_name" = Ok fname) ->
   callback_handler E call w = said "Restaurant not found.") /\
  (action = "add_existing_food" ->
   (exists i, Py.getitem data "index" = Ok (JInt i) /\ 0 <= i) ->
   callback_handler E call w = said "Food not found") /\
  (action = "pick_qty" ->
   (exists fname qty,
       Py.getitem data "food_name" = Ok fname /\
       Py.getitem data "qty" = Ok (JInt qty)) ->
   callback_handler E call w = (w, Raise AttributeError)).
Proof.
  intros H1 H2 Hloads Haction Hrid Habsent said.
  assert (Hstart : forall a, Py.get data "action" = Ok (JStr a) ->
    callback_handler E call w =
    (action <- lift (Py.get data "action") ;;
     if is_text action "edit_page" then on_edit_page data
     else if is_text action "food_page" then on_food_page data
     else if is_text action "add_food_new" then on_add_food_new E call data
     else if is_text action "add_food_existing" then
       on_add_food_existing E call data
     else if is_text action "edit_search" then on_edit_search E call
     else if is_text action "edit_rest" then on_edit_rest E call data
     else if is_text action "cancel_add_rest_food" then
       on_cancel_add_rest_food E call
     else if is_text action "confirm_delete_rest" then
       on_confirm_delete_rest E call data
     else if is_text action "add_existing_food" then
       on_add_existing_food E call data
     else if is_text action "add_rest_select_manager" then
       on_add_rest_select_manager E call data
     else if is_text action "select_rest" then on_select_rest E call data
     else if is_text action "view_menu" then on_view_menu E call data
     else if is_text action "select_rest_food" then
       on_select_rest_food E call data
     else if is_text action "choose_food" then on_choose_food E call data
     else if is_text action "pick_qty" then on_pick_qty E call data
     else answer "Unknown action") w).
  { intros a _. unfold callback_handler. rewrite H1, H2, Hloads. reflexivity. }
  repeat split; intros ->.
  - rewrite (Hstart _ Haction).
    erewrite bind_ok by (unfold lift; rewrite Haction; reflexivity).
    cbn [is_text Py.eq String.eqb Ascii.eqb Bool.eqb andb].
    unfold on_select_rest.
    erewrite bind_ok by (unfold lift; rewrite Hrid; reflexivity).
    erewrite bind_ok by apply ref_get_eq.
    rewrite Habsent. reflexivity.
  - rewrite (Hstart _ Haction).
    erewrite bind_ok by (unfold lift; rewrite Haction; reflexivity).
    cbn [is_text Py.eq String.eqb Ascii.eqb Bool.eqb andb].
    unfold on_edit_rest.
    erewrite bind_ok by (unfold lift; rewrite Hrid; reflexivity).
    erewrite bind_ok by apply ref_get_eq.
    rewrite Habsent. reflexivity.
  - rewrite (Hstart _ Haction).
    erewrite bind_ok by (unfold lift; rewrite Haction; reflexivity).
    cbn [is_text Py.eq String.eqb Ascii.eqb Bool.eqb andb].
    unfold on_view_menu.
    erewrite bind_ok by (unfold lift; rewrite Hrid; reflexivity).
    erewrite bind_ok by apply ref_get_eq.
    rewrite Habsent. reflexivity.
  - intros [fname Hf].
    rewrite (Hstart _ Haction).
    erewrite bind_ok by (unfold lift; rewrite Haction; reflexivity).
    cbn [is_text Py.eq String.eqb Ascii.eqb Bool.eqb andb].
    unfold on_select_rest_food.
    erewrite bind_ok by (unfold lift; rewrite Hrid; reflexivity).
    erewrite bind_ok by (unfold lift; rewrite Hf; reflexivity).
    erewrite bind_ok by apply ref_get_eq.
    rewrite Habsent. reflexivity.
  - intros [i [Hi Hpos]].
    rewrite (Hstart _ Haction).
    erewrite bind_ok by (unfold lift; rewrite Haction; reflexivity).
    cbn [is_text Py.eq String.eqb Ascii.eqb Bool.eqb andb].
    unfold on_add_existing_food.
    erewrite bind_ok by (unfold lift; rewrite Hrid; reflexivity).
    erewrite bind_ok by (unfold lift; rewrite Hi; reflexivity).
    erewrite bind_ok by apply ref_get_eq.
    rewrite Habsent.
    assert (Hfoods : Py.get (Py.or_else JNull (JDict [])) "foods" = Ok JNull)
      by reflexivity.
    erewrite bind_ok by (unfold lift; rewrite Hfoods; reflexivity).
    assert (Hfood : food_at (Py.or_else JNull (JList [])) (JInt i) = Ok None).
    { unfold food_at. simpl. destruct (0 <=? i) eqn:Hle; [reflexivity|].
      apply Z.leb_gt in Hle. lia. }
    erewrite bind_ok by (unfold lift; rewrite Hfood; reflexivity).
    reflexivity.
  - intros [fname [qty [Hf Hq]]].
    rewrite (Hstart _ Haction).
    erewrite bind_ok by (unfold lift; rewrite Haction; reflexivity).
    cbn [is_text Py.eq String.eqb Ascii.eqb Bool.eqb andb].
    unfold on_pick_qty.
    erewrite bind_ok by (unfold lift; rewrite Hrid; reflexivity).
    erewrite bind_ok by (unfold lift; rewrite Hf; reflexivity).
    erewrite bind_ok by (unfold lift; rewrite Hq; reflexivity).
    erewrite bind_ok by apply ref_get_eq.
    rewrite Habsent. reflexivity.
Qed.

Lemma absent_restaurant_answers_witness :
  let w := world_of (json_delete (restaurants_ref ++ ["r1"]) menu_db) in
  callback_handler demo_env ann_picks w = (w, Raise AttributeError).
Proof.
  intros w.
  destruct (absent_restaurant_answers demo_env ann_picks pick_two_burgers
              "pick_qty" (JStr "r1") w)
    as [_ [_ [_ [_ [_ Hqty]]]]]; [reflexivity.. | ].
  apply Hqty; [reflexivity|].
  exists (JStr "Burger"), 2. split; reflexivity.
Defined.

(** ** The manager of a restaurant the administrator adds *)

Lemma state_field (sd : list (string * json)) (k : string) :
  Py.get (Py.or_else (JDict sd) (JDict [])) k = Ok (field sd k).
Proof. destruct sd; reflexivity. Qed.

Lemma collected_or_empty (dd : list (string * json)) :
  Py.or_else (JDict dd) (JDict []) = JDict dd.
Proof. destruct dd; reflexivity. Qed.

Lemma field_set_other (k k' : string) (v : json) (d : list (string * json)) :
  String.eqb k' k = false -> field (Py.assoc_set k v d) k' = field d k'.
Proof.
  intros Hk. unfold field. rewrite assoc_set_other by exact Hk. reflexivity.
Qed.

Lemma truthy_field (d : list (string * json)) (k : string) :
  Py.truthy (field d k) = true -> exists v, Py.assoc k d = Some v.
Proof.
  unfold field. destruct (Py.assoc k d) as [v|]; [eauto|discriminate].
Qed.

Lemma manager_choice_run (E : Env) (call : Call) (data uid : json)
  (m : Z) (sd dd : list (string * json)) (w : World) :
  String.eqb (call_data call) "add_rest_send_image" = false ->
  String.eqb (call_data call) "add_rest_skip_image" = false ->
  json_loads E (call_data call) = Some data ->
  Py.get data "action" = Ok (JStr "add_rest_select_manager") ->
  Py.getitem data "uid" = Ok uid ->
  Py.to_int uid = Ok m ->
  json_at (state_ref (call_from_id call)) (db w) = JDict sd ->
  Py.assoc "pending_rest" sd = None ->
  Py.assoc "data" sd = Some (JDict dd) ->
  Py.truthy (field dd "name") = true ->
  Py.truthy (field dd "location") = true ->
  accepts E (JInt (call_from_id call)) = true ->
  let rest_id := Py.take 12 (uuid4_hex E (drawn w)) in
  let pending := Py.assoc_set "manager_chat_id" (JInt m) dd in
  let kept :=
    json_set (state_ref (call_from_id call) ++ ["pending_rest"])
      (JDict pending) (db w) in
  db (exec (callback_handler E call) w) =
    if m =? 0 then kept
    else
      json_set (state_ref (call_from_id call)) (JDict [])
        (json_set (restaurants_ref ++ [rest_id])
           (finalized_record rest_id pending) kept).
Proof.
  intros H1 H2 Hloads Haction Huid Hm Hstate Hnone Hdata Hname Hloc Hacc
    rest_id pending kept.
  set (user := call_from_id call) in *.
  set (w1 := logged (EvUpdate (state_ref user)
                       (JDict [("pending_rest", JDict pending)]))
               (with_db kept w)).
  set (w2 := logged (EvAnswer (Some "Manager selected ✅")) w1).
  set (w3 := logged (EvSend (JInt user)
                       [Lit "✅ Manager assigned (Telegram ID: "; Val uid;
                        Lit ")"] NoMarkup) w2).
  assert (Hrun : callback_handler E call w =
                 attempt_finish_after_state_change E user w3).
  { unfold callback_handler. rewrite H1, H2, Hloads.
    erewrite bind_ok by (unfold lift; rewrite Haction; reflexivity).
    cbn [is_text Py.eq String.eqb Ascii.eqb Bool.eqb andb].
    unfold on_add_rest_select_manager. fold user.
    erewrite bind_ok by (unfold lift; rewrite Huid; reflexivity).
    erewrite bind_ok by apply get_user_state_eq.
    rewrite Hstate.
    erewrite bind_ok
      by (unfold lift; rewrite state_field; reflexivity).
    unfold field at 1 2. rewrite Hnone. cbn [Py.truthy].
    erewrite bind_ok
      by (unfold lift; rewrite state_field; reflexivity).
    unfold field at 1. rewrite Hdata. rewrite collected_or_empty.
    erewrite bind_ok by (unfold lift; rewrite Hm; reflexivity).
    erewrite bind_ok by reflexivity.
    erewrite bind_ok by apply set_user_state_update.
    erewrite bind_ok by reflexivity.
    unfold bot_send_message at 1.
    unfold bind at 1. rewrite Hacc. reflexivity. }
  assert (Hstate3 : json_at (state_ref user) (db w3) =
                    JDict (Py.assoc_set "pending_rest" (JDict pending) sd)).
  { unfold w3, w2, w1, kept, logged, with_db. cbn [db].
    rewrite json_at_set_below. rewrite Hstate. reflexivity. }
  assert (Hpending : Py.get_or
            (Py.or_else (json_at (state_ref user) (db w3)) (JDict []))
            "pending_rest" (JDict []) = Ok (JDict pending)).
  { rewrite Hstate3. rewrite collected_or_empty. unfold Py.get_or.
    rewrite assoc_set_same. reflexivity. }
  assert (Hpname : field pending "name" = field dd "name")
    by (apply field_set_other; reflexivity).
  assert (Hploc : field pending "location" = field dd "location")
    by (apply field_set_other; reflexivity).
  assert (Hpm : field pending "manager_chat_id" = JInt m)
    by (unfold field, pending; rewrite assoc_set_same; reflexivity).
  assert (Hnonempty : Py.truthy (JDict pending) = true).
  { destruct pending eqn:Hp; [|reflexivity].
    unfold field in Hpm. simpl in Hpm. discriminate. }
  assert (Hready : forall k : bool -> M unit,
    (state <- get_user_state user ;;
     pending <- lift (Py.get_or state "pending_rest" (JDict [])) ;;
     ready <-
       lift (if negb (Py.truthy pending) then Ok false
             else
               rbind (Py.get pending "name") (fun n =>
               if negb (Py.truthy n) then Ok false
               else
                 rbind (Py.get pending "manager_chat_id") (fun m =>
                 if negb (Py.truthy m) then Ok false
                 else
                   rbind (Py.get pending "location") (fun l =>
                   Ok (Py.truthy l))))) ;;
     k ready) w3 = k (negb (m =? 0)) w3).
  { intros k. erewrite bind_ok by apply get_user_state_eq.
    erewrite bind_ok by (unfold lift; rewrite Hpending; reflexivity).
    rewrite Hnonempty. cbn [negb].
    change (Py.get (JDict pending) "name") with (Ok (field pending "name")).
    change (Py.get (JDict pending) "manager_chat_id")
      with (Ok (field pending "manager_chat_id")).
    change (Py.get (JDict pending) "location")
      with (Ok (field pending "location")).
    rewrite Hpname, Hpm, Hploc. cbn [rbind]. rewrite Hname, Hloc.
    cbn [negb Py.truthy].
    destruct (m =? 0); reflexivity. }
  unfold exec. rewrite Hrun. unfold attempt_finish_after_state_change.
  rewrite (Hready (fun ready => _)).
  destruct (m =? 0) eqn:Hz; cbn [negb]; [reflexivity|].
  pose proof (finalize_eq E user w3 pending Hpending) as Hfin.
  cbn zeta in Hfin. rewrite Hpname, Hname in Hfin. cbn [negb] in Hfin.
  destruct (truthy_field pending "location") as [l Hl];
    [rewrite Hploc; exact Hloc|].
  unfold pending at 1 in Hfin. rewrite assoc_set_same in Hfin.
  rewrite Hl in Hfin. destruct Hfin as [w4 [Hfin Hdb]].
  rewrite Hacc in Hfin.
  erewrite bind_ok by exact Hfin. cbn [fst ret].
  exact Hdb.
Qed.

(** X19.  Choosing the manager finishes the administrator's flow.  When
    the flow has collected a name and a location under [data] and no
    pending restaurant is kept, a press of a manager button copies what
    was collected into [pending_rest] with the manager's number, and,
    the number not being zero, stores the restaurant under a fresh id
    and resets the state in the same press.  With the number zero the
    readiness test fails: no restaurant is stored and the state keeps
    the pending restaurant beside the keys it had. *)
Theorem manager_choice_completes (E : Env) (call : Call) (data uid : json)
  (m : Z) (sd dd : list (string * json)) (w : World) :
  String.eqb (call_data call) "add_rest_send_image" = false ->
  String.eqb (call_data call) "add_rest_skip_image" = false ->
  json_loads E (call_data call) = Some data ->
  Py.get data "action" = Ok (JStr "add_rest_select_manager") ->
  Py.getitem data "uid" = Ok uid ->
  Py.to_int uid = Ok m ->
  json_at (state_ref (call_from_id call)) (db w) = JDict sd ->
  Py.assoc "pending_rest" sd = None ->
  Py.assoc "data" sd = Some (JDict dd) ->
  Py.truthy (field dd "name") = true ->
  Py.truthy (field dd "location") = true ->
  accepts E (JInt (call_from_id call)) = true ->
  let w' := exec (callback_handler E call) w in
  let rest_id := Py.take 12 (uuid4_hex E (drawn w)) in
  let pending := Py.assoc_set "manager_chat_id" (JInt m) dd in
  (m <> 0 ->
   json_at (restaurants_ref ++ [rest_id]) (db w') =
     finalized_record rest_id pending /\
   json_at (state_ref (call_from_id call)) (db w') = JDict []) /\
  (m = 0 ->
   json_at restaurants_ref (db w') = json_at restaurants_ref (db w) /\
   json_at (state_ref (call_from_id call)) (db w') =
     JDict (Py.assoc_set "pending_rest" (JDict pending) sd)).
Proof.
  intros H1 H2 Hloads Haction Huid Hm Hstate Hnone Hdata Hname Hloc Hacc
    w' rest_id pending.
  pose proof (manager_choice_run E call data uid m sd dd w H1 H2 Hloads Haction
                Huid Hm Hstate Hnone Hdata Hname Hloc Hacc) as Hdb.
  cbn zeta in Hdb. fold w' rest_id pending in Hdb.
  split.
  - intros Hnz. apply Z.eqb_neq in Hnz. rewrite Hnz in Hdb. rewrite Hdb.
    split.
    + rewrite json_at_set_diverges by reflexivity. apply json_at_set_same.
    + apply json_at_set_same.
  - intros Hz. rewrite Hz in Hdb. cbn [Z.eqb] in Hdb. rewrite Hdb. split.
    + apply json_at_set_diverges. reflexivity.
    + rewrite json_at_set_below. rewrite Hstate. reflexivity.
Qed.

Lemma manager_choice_completes_witness :
  let E := env_with "add_rest_select_manager 7" (manager_payload "7") in
  let press := {| call_from_id := 1; call_full_name := "Root";
                  call_data := "add_rest_select_manager 7" |} in
  let w' := exec (callback_handler E press)
              (world_of (admin_db asked_for_manager)) in
  json_at (restaurants_ref ++ ["0a1b2c3d4e5f"]) (db w') =
    finalized_record "0a1b2c3d4e5f"
      (Py.assoc_set "manager_chat_id" (JInt 7) collected_luigi) /\
  json_at (state_ref 1) (db w') = JDict [].
Proof.
  intros E press w'.
  destruct (manager_choice_completes E press (manager_payload "7") (JStr "7") 7
              [("add_rest", JBool true); ("step", JStr "manager");
               ("data", JDict collected_luigi)]
              collected_luigi (world_of (admin_db asked_for_manager)))
    as [Hdone _]; [reflexivity.. | ].
  apply Hdone. discriminate.
Defined.

(** ** Texts outside the flows *)

Lemma block_awaiting_schedule_off (E : Env) (message : Message) (text : string)
  (state : json) (w : World) :
  is_dict state = true ->
  flag_of state "awaiting_schedule" = false ->
  block_awaiting_schedule E message text state w = (w, Ok false).
Proof.
  intros Hdict H. unfold block_awaiting_schedule.
  rewrite (bind_ok _ _ _ _ _ (flag_eq _ _ _ Hdict)), H. reflexivity.
Qed.

Lemma text_differs (text label : string) (labels : list string) :
  ~ In text labels -> In label labels -> String.eqb text label = false.
Proof.
  intros Hout Hin. destruct (String.eqb text label) eqn:Heq; [|reflexivity].
  apply String.eqb_eq in Heq. subst. contradiction.
Qed.

(** X20.  Outside every flow, a text that is not on the menu is unknown.
    When none of the keys of a flow is set in the sender's state, a text
    other than the seven options that the menu shows to every user is
    answered with the advice to use the menu, and nothing is stored.
    So is the text [/addrestaurant] of the button that the menu adds
    for an administrator, when this handler receives it. *)
Theorem text_outside_menu_is_unknown (E : Env) (message : Message) (w : World) :
  in_no_flow
    (Py.or_else (json_at (state_ref (from_id message)) (db w)) (JDict [])) =
    true ->
  ~ In (stripped message) (key_texts (menu_rows false)) ->
  general_text_handler E message w =
    if accepts E (JInt (from_id message))
    then (logged (EvSend (JInt (from_id message))
                    [Lit "Unknown command. Use /menu."] NoMarkup) w, Ok tt)
    else (w, Raise ApiError).
Proof.
  intros Hflow Hout.
  unfold general_text_handler. fold (stripped message).
  rewrite (bind_ok _ _ _ _ _ (get_user_state_eq _ _)).
  set (state := Py.or_else _ _) in *.
  unfold in_no_flow in Hflow. apply andb_true_iff in Hflow.
  destruct Hflow as [Hdict Hoff].
  assert (Hkey : forall k, In k flow_keys -> flag_of state k = false).
  { intros k Hk. rewrite forallb_forall in Hoff. apply Hoff in Hk.
    now apply negb_true_iff in Hk. }
  assert (Hrest : flag_of state "add_rest" && flag_of state "step" = false).
  { rewrite (Hkey "add_rest") by (simpl; tauto). reflexivity. }
  rewrite (and_then_false _ _ _ _
             (block_add_food_mode_off E message (stripped message) state w
                Hdict (Hkey "add_food_mode" ltac:(simpl; tauto)))).
  rewrite (and_then_false _ _ _ _
             (block_awaiting_search_off E message (stripped message) state w
                Hdict (Hkey "awaiting_search" ltac:(simpl; tauto)))).
  rewrite (and_then_false _ _ _ _
             (block_editing_rest_off E message (stripped message) state w
                Hdict (Hkey "editing_rest" ltac:(simpl; tauto)))).
  rewrite (and_then_false _ _ _ _
             (block_edit_name_off E message (stripped message) state w
                Hdict (Hkey "editing_rest" ltac:(simpl; tauto)))).
  rewrite (and_then_false _ _ _ _
             (block_awaiting_edit_search_off E message (stripped message) state w
                Hdict (Hkey "awaiting_edit_search" ltac:(simpl; tauto)))).
  rewrite (and_then_false _ _ _ _
             (block_awaiting_food_data_off E message (stripped message) state w
                Hdict (Hkey "awaiting_food_data" ltac:(simpl; tauto)))).
  rewrite (and_then_false _ _ _ _
             (block_reg_rest_step_off E message (stripped message) state w
                Hdict (Hkey "reg_rest_step" ltac:(simpl; tauto)))).
  rewrite (and_then_false _ _ _ _
             (block_add_flow_off E message (stripped message) state w
                Hdict (Hkey "add_flow" ltac:(simpl; tauto)))).
  rewrite (and_then_false _ _ _ _
             (block_add_rest_off E message (stripped message) state w
                Hdict Hrest)).
  rewrite (and_then_false _ _ _ _
             (block_add_food_off E message (stripped message) state w
                Hdict (Hkey "add_food" ltac:(simpl; tauto)))).
  rewrite (and_then_false _ _ _ _
             (block_awaiting_food_price_off E message (stripped message) state w
                Hdict (Hkey "awaiting_food_price" ltac:(simpl; tauto)))).
  rewrite (and_then_false _ _ _ _
             (block_awaiting_schedule_off E message (stripped message) state w
                Hdict (Hkey "awaiting_schedule" ltac:(simpl; tauto)))).
  unfold menu_options.
  rewrite !(text_differs _ _ _ Hout) by (simpl; tauto).
  cbn [orb]. apply send_eq.
Qed.

Lemma text_outside_menu_is_unknown_witness :
  let message := text_from_admin "/addrestaurant" in
  let w := world_of (admin_db (JDict [])) in
  In "/addrestaurant" (key_texts (menu_rows (is_admin demo_env 1))) /\
  general_text_handler demo_env message w =
    (logged (EvSend (JInt 1) [Lit "Unknown command. Use /menu."] NoMarkup) w,
     Ok tt).
Proof.
  intros message w. split; [simpl; tauto|].
  apply (text_outside_menu_is_unknown demo_env message w); [reflexivity|].
  simpl. intros H. repeat (destruct H as [H|H]; [discriminate H|]). exact H.
Defined.

(** ** The catalogue of foods *)

Lemma get_all_foods_eq (w : World) :
  get_all_foods w =
    (w, Ok (Py.or_else (json_at [ROOT_KEY; "foods"] (db w)) (JDict []))).
Proof. reflexivity. Qed.

Lemma handler_reaches_food_data (E : Env) (message : Message) (w : World)
  (sd : list (string * json)) :
  json_at (state_ref (from_id message)) (db w) = JDict sd ->
  flag_of (JDict sd) "add_food_mode" = false ->
  flag_of (JDict sd) "awaiting_search" = false ->
  flag_of (JDict sd) "editing_rest" = false ->
  flag_of (JDict sd) "awaiting_edit_search" = false ->
  flag_of (JDict sd) "awaiting_food_data" = true ->
  exists K,
    general_text_handler E message w =
      and_then (block_awaiting_food_data E message (stripped message) (JDict sd))
        K w.
Proof.
  intros Hstate H1 H2 H3 H4 Hon.
  assert (Hsd : sd <> []) by (intros ->; discriminate Hon).
  eexists. unfold general_text_handler. fold (stripped message).
  rewrite (bind_ok _ _ _ _ _ (get_user_state_eq _ _)). rewrite Hstate.
  assert (Hs : Py.or_else (JDict sd) (JDict []) = JDict sd).
  { destruct sd; [congruence|reflexivity]. }
  rewrite Hs.
  rewrite (and_then_false _ _ _ _
             (block_add_food_mode_off E message (stripped message) (JDict sd) w
                eq_refl H1)).
  rewrite (and_then_false _ _ _ _
             (block_awaiting_search_off E message (stripped message) (JDict sd) w
                eq_refl H2)).
  rewrite (and_then_false _ _ _ _
             (block_editing_rest_off E message (stripped message) (JDict sd) w
                eq_refl H3)).
  rewrite (and_then_false _ _ _ _
             (block_edit_name_off E message (stripped message) (JDict sd) w
                eq_refl H3)).
  rewrite (and_then_false _ _ _ _
             (block_awaiting_edit_search_off E message (stripped message)
                (JDict sd) w eq_refl H4)).
  reflexivity.
Qed.

(** X21.  A food sent for the catalogue.  In the state that [/add_food]
    sets, a text that does not split at the bars into three parts is
    answered with the expected format and nothing is stored.  With three
    parts of which the second reads as an integer, the food is stored
    under a fresh id below the top-level key [foods], the state is reset
    and the sender is told so; what [get_all_foods] returns is unchanged,
    since it reads another place.  With an empty second part the
    conversion to an integer raises [ValueError] out of the handler:
    nothing is stored and the state stays as it was. *)
Theorem catalogue_food_entry (E : Env) (message : Message) (w : World)
  (sd : list (string * json)) (raw : string) :
  text_of message = Some raw ->
  json_at (state_ref (from_id message)) (db w) = JDict sd ->
  flag_of (JDict sd) "add_food_mode" = false ->
  flag_of (JDict sd) "awaiting_search" = false ->
  flag_of (JDict sd) "editing_rest" = false ->
  flag_of (JDict sd) "awaiting_edit_search" = false ->
  flag_of (JDict sd) "awaiting_food_data" = true ->
  accepts E (JInt (from_id message)) = true ->
  let parts := map Py.strip (Py.split_on "|" raw) in
  let fid := uuid4_hex E (drawn w) in
  let r := general_text_handler E message w in
  (List.length parts <> 3%nat ->
   snd r = Ok tt /\ db (fst r) = db w /\
   log (fst r) = log w ++
     [EvSend (JInt (from_id message))
        [Lit "❌ Invalid format."; Lit nl; Lit "Use:"; Lit nl;
         Lit "Name | People | Description"] NoMarkup]) /\
  (forall name people desc n,
      parts = [name; people; desc] ->
      Py.int_of_str people = Some n ->
      snd r = Ok tt /\
      json_at (get_foods_ref ++ [fid]) (db (fst r)) =
        JDict [("name", JStr name); ("people", JInt n);
               ("description", JStr desc)] /\
      json_at (state_ref (from_id message)) (db (fst r)) = JDict [] /\
      outcome get_all_foods (fst r) = outcome get_all_foods w) /\
  (forall name desc,
      parts = [name; EmptyString; desc] ->
      snd r = Raise ValueError /\ db (fst r) = db w).
Proof.
  intros Htext Hstate H1 H2 H3 H4 Hon Hacc parts fid r.
  destruct (handler_reaches_food_data E message w sd Hstate H1 H2 H3 H4 Hon)
    as [K HK].
  assert (Hblock : forall b w',
            block_awaiting_food_data E message (stripped message) (JDict sd) w
              = (w', b) ->
            b <> Ok false ->
            r = (w', match b with Ok _ => Ok tt | Raise e => Raise e end)).
  { intros b w' Hb Hnot. unfold r. rewrite HK. unfold and_then, bind.
    rewrite Hb. destruct b as [[|]|e]; [reflexivity|congruence|reflexivity]. }
  assert (Hshape :
    block_awaiting_food_data E message (stripped message) (JDict sd) w =
    match parts with
    | [name; people; desc] =>
        (fid <- generate_id E ;;
         people <-
           lift (match Py.int_of_str people with
                 | Some n => Ok n
                 | None => Raise ValueError
                 end) ;;
         ref_set (get_foods_ref ++ [fid])
           (JDict [("name", JStr name); ("people", JInt people);
                   ("description", JStr desc)]) ;;;
         clear_user_state (from_id message) ;;;
         bot_send_message E (JInt (from_id message))
           [Lit "✅ Food '"; Val (JStr name); Lit "' added successfully"]
           NoMarkup ;;;
         ret true) w
    | _ =>
        (bot_send_message E (JInt (from_id message))
           [Lit "❌ Invalid format."; Lit nl; Lit "Use:"; Lit nl;
            Lit "Name | People | Description"] NoMarkup ;;;
         ret true) w
    end).
  { unfold block_awaiting_food_data.
    rewrite (bind_ok _ _ _ _ _ (flag_eq (JDict sd) _ _ eq_refl)), Hon, Htext.
    cbn [negb]. fold parts.
    destruct parts as [|a [|b [|c [|d l]]]]; reflexivity. }
  split; [|split].
  - intros Hlen.
    assert (Hbad : block_awaiting_food_data E message (stripped message)
                     (JDict sd) w =
                   (logged (EvSend (JInt (from_id message))
                              [Lit "❌ Invalid format."; Lit nl; Lit "Use:";
                               Lit nl; Lit "Name | People | Description"]
                              NoMarkup) w, Ok true)).
    { rewrite Hshape.
      destruct parts as [|a [|b [|c [|d l]]]];
        try (unfold bind, bot_send_message; rewrite Hacc; reflexivity).
      simpl in Hlen. congruence. }
    rewrite (Hblock _ _ Hbad) by discriminate.
    cbn [fst snd]. repeat split.
  - intros name people desc n Hparts Hn.
    rewrite Hparts in Hshape. rewrite Hn in Hshape.
    unfold generate_id, uuid4, clear_user_state in Hshape.
    unfold bind at 1 in Hshape. unfold bind at 1 in Hshape.
    unfold lift at 1 in Hshape.
    erewrite bind_ok in Hshape by (apply ref_set_eq; discriminate).
    erewrite bind_ok in Hshape
      by (apply try_except_ok; apply ref_set_eq; discriminate).
    unfold bind, bot_send_message in Hshape. rewrite Hacc in Hshape.
    cbn [emit ret] in Hshape.
    rewrite (Hblock _ _ Hshape) by discriminate.
    cbn [fst snd db logged with_db]. fold fid.
    split; [reflexivity|]. split; [|split].
    + rewrite json_at_set_diverges by reflexivity. apply json_at_set_same.
    + apply json_at_set_same.
    + unfold outcome. rewrite !get_all_foods_eq. cbn [snd db].
      rewrite json_at_set_diverges by reflexivity.
      rewrite json_at_set_diverges by reflexivity. reflexivity.
  - intros name desc Hparts.
    rewrite Hparts in Hshape.
    assert (Hraise : block_awaiting_food_data E message (stripped message)
                       (JDict sd) w =
                     ({| db := db w; jobs := jobs w; log := log w;
                         clock := clock w; drawn := S (drawn w) |},
                      Raise ValueError)).
    { rewrite Hshape. reflexivity. }
    rewrite (Hblock _ _ Hraise) by discriminate.
    split; reflexivity.
Qed.

Lemma catalogue_food_entry_witness :
  let w := world_of (admin_db (JDict [("awaiting_food_data", JBool true)])) in
  let r := general_text_handler demo_env
             (text_from_admin "Burger | 1 | Beef burger with cheese") w in
  json_at ["foods"; "0a1b2c3d4e5f0"] (db (fst r)) =
    JDict [("name", JStr "Burger"); ("people", JInt 1);
           ("description", JStr "Beef burger with cheese")] /\
  outcome get_all_foods (fst r) = Ok (JDict []).
Proof.
  intros w r.
  destruct (catalogue_food_entry demo_env
              (text_from_admin "Burger | 1 | Beef burger with cheese") w
              [("awaiting_food_data", JBool true)]
              "Burger | 1 | Beef burger with cheese")
    as [_ [Hstored _]]; [reflexivity.. | ].
  destruct (Hstored "Burger" "1" "Beef burger with cheese" 1 eq_refl eq_refl)
    as [_ [Hdoc [_ Hall]]].
  split; [exact Hdoc|]. etransitivity; [exact Hall|reflexivity].
Defined.

(** ** Adding a restaurant from the menu of [/add] *)

Lemma merged_state (uid : Z) (d : list (string * json)) (dbv : json) :
  d <> [] ->
  json_at (state_ref uid) (merged_into uid d dbv) =
    JDict (Py.assoc_update (children (json_at (state_ref uid) dbv)) d).
Proof. intros Hd. apply merge_at. exact Hd. Qed.

Lemma merged_frame (uid : Z) (d : list (string * json)) (dbv : json) (q : path) :
  diverges (state_ref uid) q = true ->
  json_at q (merged_into uid d dbv) = json_at q dbv.
Proof. intros Hq. apply merge_frame. exact Hq. Qed.

Lemma cmd_add_run (E : Env) (message : Message) (w : World) :
  accepts E (JInt (from_id message)) = true ->
  exists w',
    cmd_add E message w = (w', Ok tt) /\
    db w' = merged_into (from_id message) [("add_flow", JBool true)] (db w) /\
    drawn w' = drawn w.
Proof.
  intros Hacc. eexists. unfold cmd_add.
  split; [|split].
  - unfold bind, bot_send_message. rewrite Hacc. cbn [emit].
    rewrite set_user_state_update. reflexivity.
  - reflexivity.
  - reflexivity.
Qed.

Lemma handler_reaches_add_flow (E : Env) (message : Message) (w : World)
  (sd : list (string * json)) :
  json_at (state_ref (from_id message)) (db w) = JDict sd ->
  sd <> [] ->
  flag_of (JDict sd) "add_food_mode" = false ->
  flag_of (JDict sd) "awaiting_search" = false ->
  flag_of (JDict sd) "editing_rest" = false ->
  flag_of (JDict sd) "awaiting_edit_search" = false ->
  flag_of (JDict sd) "awaiting_food_data" = false ->
  flag_of (JDict sd) "reg_rest_step" = false ->
  general_text_handler E message w =
    and_then (block_add_flow E message (stripped message) (JDict sd))
   (and_then (block_add_rest E message (stripped message) (JDict sd))
   (and_then (block_add_food E message (stripped message) (JDict sd))
   (and_then (block_awaiting_food_price E message (stripped message) (JDict sd))
   (and_then (block_awaiting_schedule E message (stripped message) (JDict sd))
             (menu_options E message (stripped message)))))) w.
Proof.
  intros Hstate Hsd H1 H2 H3 H4 H5 H6.
  unfold general_text_handler. fold (stripped message).
  rewrite (bind_ok _ _ _ _ _ (get_user_state_eq _ _)). rewrite Hstate.
  rewrite collected_or_empty.
  rewrite (and_then_false _ _ _ _
             (block_add_food_mode_off E message (stripped message) (JDict sd) w
                eq_refl H1)).
  rewrite (and_then_false _ _ _ _
             (block_awaiting_search_off E message (stripped message) (JDict sd) w
                eq_refl H2)).
  rewrite (and_then_false _ _ _ _
             (block_editing_rest_off E message (stripped message) (JDict sd) w
                eq_refl H3)).
  rewrite (and_then_false _ _ _ _
             (block_edit_name_off E message (stripped message) (JDict sd) w
                eq_refl H3)).
  rewrite (and_then_false _ _ _ _
             (block_awaiting_edit_search_off E message (stripped message)
                (JDict sd) w eq_refl H4)).
  rewrite (and_then_false _ _ _ _
             (block_awaiting_food_data_off E message (stripped message)
                (JDict sd) w eq_refl H5)).
  rewrite (and_then_false _ _ _ _
             (block_reg_rest_step_off E message (stripped message) (JDict sd) w
                eq_refl H6)).
  reflexivity.
Qed.

Lemma add_restaurant_chosen (E : Env) (message : Message) (w : World) :
  json_at (state_ref (from_id message)) (db w) = JDict [("add_flow", JBool true)] ->
  stripped message = "🍽 Restaurant" ->
  accepts E (JInt (from_id message)) = true ->
  exists w',
    general_text_handler E message w = (w', Ok tt) /\
    db w' =
      merged_into (from_id message)
        [("add_rest", JBool true); ("step", JStr "name"); ("data", JDict []);
         ("add_flow", JBool false)] (db w) /\
    drawn w' = drawn w.
Proof.
  intros Hstate Htext Hacc. eexists.
  rewrite (handler_reaches_add_flow E message w _ Hstate)
    by (reflexivity || discriminate).
  split; [|split].
  - apply and_then_true. unfold block_add_flow.
    rewrite (bind_ok _ _ _ _ _ (flag_eq (JDict _) _ _ eq_refl)).
    cbn [flag_of Py.get Py.get_or Py.assoc String.eqb Ascii.eqb Bool.eqb andb
         Py.truthy negb].
    rewrite Htext. cbn [String.eqb Ascii.eqb Bool.eqb andb].
    unfold add_step. cbn [app].
    erewrite bind_ok by apply set_user_state_update.
    unfold bind. rewrite send_eq.
    cbn [logged with_db db]. rewrite Hacc. reflexivity.
  - reflexivity.
  - reflexivity.
Qed.

Lemma adding_rest_reads (step : string) (dd : list (string * json)) :
  flag_of (JDict (adding_rest step dd)) "add_rest" = true /\
  Py.get (JDict (adding_rest step dd)) "step" = Ok (JStr step) /\
  Py.getitem (JDict (adding_rest step dd)) "step" = Ok (JStr step) /\
  Py.get_or (JDict (adding_rest step dd)) "data" (JDict []) = Ok (JDict dd) /\
  Py.getitem (JDict (adding_rest step dd)) "data" = Ok (JDict dd).
Proof. repeat split. Qed.

Lemma restaurant_named (E : Env) (message : Message) (w : World)
  (dd : list (string * json)) :
  json_at (state_ref (from_id message)) (db w) = JDict (adding_rest "name" dd) ->
  accepts E (JInt (from_id message)) = true ->
  exists w',
    general_text_handler E message w = (w', Ok tt) /\
    db w' =
      merged_into (from_id message)
        [("add_rest", JBool true); ("step", JStr "phone");
         ("data", JDict (Py.assoc_set "name" (JStr (stripped message)) dd))]
        (db w) /\
    drawn w' = drawn w.
Proof.
  intros Hstate Hacc. eexists.
  destruct (adding_rest_reads "name" dd) as [Hon [Hstep [Hstep' [Hdata _]]]].
  rewrite (handler_reaches_add_flow E message w _ Hstate)
    by (reflexivity || discriminate).
  rewrite (and_then_false _ _ _ _
             (block_add_flow_off E message (stripped message)
                (JDict (adding_rest "name" dd)) w eq_refl eq_refl)).
  split; [|split].
  - apply and_then_true. unfold block_add_rest.
    rewrite (bind_ok _ _ _ _ _
               (flag_eq (JDict (adding_rest "name" dd)) _ _ eq_refl)).
    rewrite Hon.
    erewrite bind_ok by (unfold lift; rewrite Hstep; reflexivity).
    cbn [andb Py.truthy String.eqb negb].
    erewrite bind_ok by (unfold lift; rewrite Hdata; reflexivity).
    erewrite bind_ok by (unfold lift; rewrite Hstep'; reflexivity).
    cbn [is_text Py.eq String.eqb Ascii.eqb Bool.eqb andb].
    erewrite bind_ok by reflexivity.
    unfold add_step. cbn [app].
    erewrite bind_ok by apply set_user_state_update.
    unfold bind. rewrite send_eq.
    cbn [logged with_db db]. rewrite Hacc. reflexivity.
  - reflexivity.
  - reflexivity.
Qed.

Lemma restaurant_phoned (E : Env) (message : Message) (w : World)
  (dd : list (string * json)) :
  json_at (state_ref (from_id message)) (db w) = JDict (adding_rest "phone" dd) ->
  accepts E (JInt (from_id message)) = true ->
  exists w',
    general_text_handler E message w = (w', Ok tt) /\
    db w' =
      merged_into (from_id message)
        [("add_rest", JBool true); ("step", JStr "location");
         ("data", JDict (Py.assoc_set "phone" (JStr (stripped message)) dd))]
        (db w) /\
    drawn w' = drawn w.
Proof.
  intros Hstate Hacc. eexists.
  destruct (adding_rest_reads "phone" dd) as [Hon [Hstep [Hstep' [Hdata _]]]].
  rewrite (handler_reaches_add_flow E message w _ Hstate)
    by (reflexivity || discriminate).
  rewrite (and_then_false _ _ _ _
             (block_add_flow_off E message (stripped message)
                (JDict (adding_rest "phone" dd)) w eq_refl eq_refl)).
  split; [|split].
  - apply and_then_true. unfold block_add_rest.
    rewrite (bind_ok _ _ _ _ _
               (flag_eq (JDict (adding_rest "phone" dd)) _ _ eq_refl)).
    rewrite Hon.
    erewrite bind_ok by (unfold lift; rewrite Hstep; reflexivity).
    cbn [andb Py.truthy String.eqb negb].
    erewrite bind_ok by (unfold lift; rewrite Hdata; reflexivity).
    erewrite bind_ok by (unfold lift; rewrite Hstep'; reflexivity).
    cbn [is_text Py.eq String.eqb Ascii.eqb Bool.eqb andb].
    erewrite bind_ok by reflexivity.
    unfold add_step. cbn [app].
    erewrite bind_ok by apply set_user_state_update.
    unfold bind, bot_send_message.
    cbn [logged with_db db]. rewrite Hacc. reflexivity.
  - reflexivity.
  - reflexivity.
Qed.

Lemma restaurant_located (E : Env) (message : Message) (w : World)
  (lat lon : Py.float) (dd : list (string * json)) :
  location_of message = Some (lat, lon) ->
  json_at (state_ref (from_id message)) (db w) =
    JDict (adding_rest "location" dd) ->
  accepts E (JInt (from_id message)) = true ->
  exists w',
    handle_location E message w = (w', Ok tt) /\
    db w' =
      merged_into (from_id message)
        [("add_rest", JBool true); ("step", JStr "manager");
         ("data", JDict (Py.assoc_set "location" (coordinates lat lon) dd))]
        (db w) /\
    drawn w' = drawn w.
Proof.
  intros Hloc Hstate Hacc. eexists.
  destruct (adding_rest_reads "location" dd)
    as [Hon [Hstep [_ [_ Hdata]]]].
  unfold handle_location. rewrite Hloc.
  erewrite bind_ok by apply get_user_state_eq.
  rewrite Hstate. cbn zeta. rewrite !collected_or_empty.
  assert (Hreg : Py.get (JDict (adding_rest "location" dd)) "reg_rest_step" =
                 Ok JNull) by reflexivity.
  erewrite bind_ok by (unfold lift; rewrite Hreg; reflexivity).
  cbn [is_text Py.eq].
  rewrite (bind_ok _ _ _ _ _
             (flag_eq (JDict (adding_rest "location" dd)) _ _ eq_refl)).
  assert (Hwait : flag_of (JDict (adding_rest "location" dd))
                    "awaiting_rest_location" = false) by reflexivity.
  rewrite Hwait.
  rewrite (bind_ok _ _ _ _ _
             (flag_eq (JDict (adding_rest "location" dd)) _ _ eq_refl)).
  rewrite Hon.
  erewrite bind_ok by (unfold lift; rewrite Hstep; reflexivity).
  cbn [is_text Py.eq String.eqb Ascii.eqb Bool.eqb andb].
  erewrite bind_ok by (unfold lift; rewrite Hdata; reflexivity).
  erewrite bind_ok by reflexivity.
  unfold add_step. cbn [app].
  erewrite bind_ok by apply set_user_state_update.
  rewrite send_eq. cbn [logged with_db db]. rewrite Hacc.
  split; [reflexivity|]. split; reflexivity.
Qed.

Lemma idle_children (j : json) : idle j = true -> children j = [].
Proof. destruct j as [| | | | | |[|kv d]]; simpl; congruence. Qed.

Lemma exec_of {A : Type} (c : M A) (w w' : World) (a : result A) :
  c w = (w', a) -> exec c w = w'.
Proof. unfold exec. intros ->. reflexivity. Qed.

(** X22.  Anyone can add a restaurant.  A user whose state is empty
    sends [/add], chooses the restaurant, sends a name that is not
    blank, a phone number and a location, and presses the button of a
    manager whose number is not zero.  The restaurant is then stored
    under a fresh id with that name, that location, that manager and no
    foods; the phone number is not part of the record, and the state is
    empty again.  No step asks whether the user is an administrator. *)
Theorem anyone_adds_a_restaurant (E : Env) (uid : Z) (who name phone : string)
  (lat lon : Py.float) (press : Call) (data manager : json) (m : Z)
  (w : World) :
  idle (json_at (state_ref uid) (db w)) = true ->
  accepts E (JInt uid) = true ->
  Py.strip name <> EmptyString ->
  call_from_id press = uid ->
  String.eqb (call_data press) "add_rest_send_image" = false ->
  String.eqb (call_data press) "add_rest_skip_image" = false ->
  json_loads E (call_data press) = Some data ->
  Py.get data "action" = Ok (JStr "add_rest_select_manager") ->
  Py.getitem data "uid" = Ok manager ->
  Py.to_int manager = Ok m ->
  m <> 0 ->
  let w1 := exec (cmd_add E (says uid who "/add")) w in
  let w2 := exec (general_text_handler E (says uid who "🍽 Restaurant")) w1 in
  let w3 := exec (general_text_handler E (says uid who name)) w2 in
  let w4 := exec (general_text_handler E (says uid who phone)) w3 in
  let w5 := exec (handle_location E (shares uid who lat lon)) w4 in
  let w6 := exec (callback_handler E press) w5 in
  let rest_id := Py.take 12 (uuid4_hex E (drawn w)) in
  json_at (restaurants_ref ++ [rest_id]) (db w6) =
    JDict [("id", JStr rest_id); ("name", JStr (Py.strip name));
           ("foods", JList []); ("manager_chat_id", JInt m);
           ("location", coordinates lat lon);
           ("created_at", RTDB_TIMESTAMP)] /\
  json_at (state_ref uid) (db w6) = JDict [] /\
  (forall q, diverges (state_ref uid) q = true ->
             diverges (restaurants_ref ++ [rest_id]) q = true ->
             json_at q (db w6) = json_at q (db w)).
Proof.
  intros Hidle Hacc Hname Hfrom H1 H2 Hloads Haction Huid Hm Hnz
    w1 w2 w3 w4 w5 w6 rest_id.
  destruct (cmd_add_run E (says uid who "/add") w Hacc) as [v1 [R1 [D1 N1]]].
  cbn [from_id says] in D1.
  assert (S1 : json_at (state_ref uid) (db v1) = JDict [("add_flow", JBool true)]).
  { rewrite D1, merged_state by discriminate.
    rewrite (idle_children _ Hidle). reflexivity. }
  destruct (add_restaurant_chosen E (says uid who "🍽 Restaurant") v1 S1
              eq_refl Hacc) as [v2 [R2 [D2 N2]]].
  cbn [from_id says] in D2.
  assert (S2 : json_at (state_ref uid) (db v2) = JDict (adding_rest "name" [])).
  { rewrite D2, merged_state by discriminate. rewrite S1. reflexivity. }
  destruct (restaurant_named E (says uid who name) v2 [] S2 Hacc)
    as [v3 [R3 [D3 N3]]].
  cbn [from_id says] in D3.
  change (stripped (says uid who name)) with (Py.strip name) in D3.
  assert (S3 : json_at (state_ref uid) (db v3) =
               JDict (adding_rest "phone" [("name", JStr (Py.strip name))])).
  { rewrite D3, merged_state by discriminate. rewrite S2. reflexivity. }
  destruct (restaurant_phoned E (says uid who phone) v3 _ S3 Hacc)
    as [v4 [R4 [D4 N4]]].
  cbn [from_id says] in D4.
  change (stripped (says uid who phone)) with (Py.strip phone) in D4.
  assert (S4 : json_at (state_ref uid) (db v4) =
               JDict (adding_rest "location"
                        [("name", JStr (Py.strip name));
                         ("phone", JStr (Py.strip phone))])).
  { rewrite D4, merged_state by discriminate. rewrite S3. reflexivity. }
  destruct (restaurant_located E (shares uid who lat lon) v4 lat lon _
              eq_refl S4 Hacc) as [v5 [R5 [D5 N5]]].
  cbn [from_id shares] in D5.
  assert (S5 : json_at (state_ref uid) (db v5) =
               JDict (adding_rest "manager"
                        [("name", JStr (Py.strip name));
                         ("phone", JStr (Py.strip phone));
                         ("location", coordinates lat lon)])).
  { rewrite D5, merged_state by discriminate. rewrite S4. reflexivity. }
  assert (E1 : w1 = v1) by (apply (exec_of _ _ _ _ R1)).
  assert (E2 : w2 = v2) by (unfold w2; rewrite E1; apply (exec_of _ _ _ _ R2)).
  assert (E3 : w3 = v3) by (unfold w3; rewrite E2; apply (exec_of _ _ _ _ R3)).
  assert (E4 : w4 = v4) by (unfold w4; rewrite E3; apply (exec_of _ _ _ _ R4)).
  assert (E5 : w5 = v5) by (unfold w5; rewrite E4; apply (exec_of _ _ _ _ R5)).
  assert (Htruthy : Py.truthy (JStr (Py.strip name)) = true).
  { cbn [Py.truthy]. destruct (String.eqb (Py.strip name) EmptyString) eqn:He;
      [|reflexivity]. apply String.eqb_eq in He. contradiction. }
  subst uid.
  pose proof (manager_choice_run E press data manager m _ _ v5 H1 H2 Hloads
                Haction Huid Hm S5 eq_refl eq_refl Htruthy eq_refl Hacc) as D6.
  cbn zeta in D6. apply Z.eqb_neq in Hnz. rewrite Hnz in D6.
  assert (Hdrawn : drawn v5 = drawn w) by congruence.
  rewrite Hdrawn in D6. fold rest_id in D6.
  unfold w6. rewrite E5. rewrite D6.
  split; [|split].
  - rewrite json_at_set_diverges by reflexivity.
    rewrite json_at_set_same. unfold finalized_record, present, field.
    cbn [Py.assoc Py.assoc_set String.eqb Ascii.eqb Bool.eqb andb Py.truthy app].
    reflexivity.
  - apply json_at_set_same.
  - intros q Hq Hr.
    rewrite json_at_set_diverges by exact Hq.
    rewrite json_at_set_diverges by exact Hr.
    rewrite json_at_set_diverges
      by (apply diverges_prefix; exact Hq).
    rewrite D5, merged_frame by exact Hq.
    rewrite D4, merged_frame by exact Hq.
    rewrite D3, merged_frame by exact Hq.
    rewrite D2, merged_frame by exact Hq.
    rewrite D1, merged_frame by exact Hq.
    reflexivity.
Qed.

Lemma anyone_adds_a_restaurant_witness :
  let E := env_with "add_rest_select_manager 7" (manager_payload "7") in
  let w := world_of menu_db in
  let w1 := exec (cmd_add E (says 42 "Ann" "/add")) w in
  let w2 := exec (general_text_handler E (says 42 "Ann" "🍽 Restaurant")) w1 in
  let w3 := exec (general_text_handler E (says 42 "Ann" "Luigi")) w2 in
  let w4 := exec (general_text_handler E (says 42 "Ann" "555")) w3 in
  let w5 := exec (handle_location E (shares 42 "Ann" fzero fzero)) w4 in
  let press := {| call_from_id := 42; call_full_name := "Ann";
                  call_data := "add_rest_select_manager 7" |} in
  let w6 := exec (callback_handler E press) w5 in
  is_admin E 42 = false /\
  json_at (restaurants_ref ++ ["0a1b2c3d4e5f"]) (db w6) =
    JDict [("id", JStr "0a1b2c3d4e5f"); ("name", JStr "Luigi");
           ("foods", JList []); ("manager_chat_id", JInt 7);
           ("location", origin); ("created_at", RTDB_TIMESTAMP)].
Proof.
  intros E w w1 w2 w3 w4 w5 press w6. split; [reflexivity|].
  destruct (anyone_adds_a_restaurant E 42 "Ann" "Luigi" "555" fzero fzero
              press (manager_payload "7") (JStr "7") 7 w)
    as [Hstored _];
    [reflexivity | reflexivity | discriminate | reflexivity | reflexivity
    | reflexivity | reflexivity | reflexivity | reflexivity | reflexivity
    | discriminate | exact Hstored].
Defined.

(** ** The search by food *)


Lemma has_menu_inv (r : json) :
  has_menu r = true ->
  has_name r = true /\
  exists fs, Py.get_or r "foods" (JList []) = Ok (JList fs) /\
             menu_of r = fs /\ forallb has_name fs = true.
Proof.
  unfold has_menu, menu_of. intros H. apply andb_true_iff in H.
  destruct H as [Hn Hf]. split; [exact Hn|].
  destruct (Py.get_or r "foods" (JList [])) as [[| | | | |fs|]|];
    try discriminate Hf.
  exists fs. auto.
Qed.




Lemma has_name_getitem (r : json) :
  has_name r = true -> Py.getitem r "name" = Ok (name_of r).
Proof.
  unfold name_of. destruct r as [| | | | | |d]; try discriminate.
  cbn [has_name Py.getitem Py.get Py.get_or].
  destruct (Py.assoc "name" d); [reflexivity|discriminate].
Qed.




Lemma choose_food_rows_spec (rid fname : json) (fs : list json) :
  forallb has_name fs = true ->
  exists rows,
    choose_food_rows rid (Some fname) fs = Ok rows /\
    map callback_of (List.concat rows) =
      map (order_choice rid)
        (filter (fun f' => Py.eq (name_of f') fname) fs) /\
    List.length rows =
      List.length (filter (fun f' => Py.eq (name_of f') fname) fs).
Proof.
  induction fs as [|f fs IH]; intros H.
  - exists []. auto.
  - cbn [forallb] in H. apply andb_true_iff in H. destruct H as [Hf Hfs].
    destruct (IH Hfs) as [rows [Hrows [Hcb Hlen]]].
    cbn [choose_food_rows filter].
    rewrite (has_name_getitem f Hf). cbn [rbind].
    destruct (Py.eq (name_of f) fname).
    + assert (Hprice : exists p, Py.get_or f "price" (JStr "N/A") = Ok p).
      { destruct f as [| | | | | |d]; try discriminate Hf. eexists. reflexivity. }
      destruct Hprice as [p Hp]. rewrite Hp, Hrows. cbn [rbind].
      eexists. split; [reflexivity|]. split.
      * cbn [List.concat app map callback_of]. rewrite Hcb. reflexivity.
      * cbn [List.length]. now rewrite Hlen.
    + exists rows. auto.
Qed.

(** X24.  A hit of the food search opens the foods of that name.  A
    press that carries the payload of a hit, for a restaurant that is
    stored with a menu of named foods, sends one keyboard with a button
    for each food of that restaurant whose name equals the name of the
    hit, in menu order, and then answers the press; the food that was
    hit is among them, so the keyboard is not empty.  The store is not
    written. *)
Theorem search_hit_opens_its_food (E : Env) (call : Call) (w : World)
  (rid : string) (r f : json) :
  String.eqb (call_data call) "add_rest_send_image" = false ->
  String.eqb (call_data call) "add_rest_skip_image" = false ->
  json_loads E (call_data call) = Some (food_choice (rid, r, f)) ->
  json_at (get_restaurant_ref E (JStr rid)) (db w) = r ->
  has_menu r = true ->
  In f (menu_of r) ->
  accepts E (JInt (call_from_id call)) = true ->
  let same := filter (named_like f) (menu_of r) in
  exists rows,
    callback_handler E call w =
      (logged (EvAnswer None)
         (logged (EvSend (JInt (call_from_id call))
                    [Val (name_of r); Lit " menu:"] (InlineKeyboard rows)) w),
       Ok tt) /\
    payloads (InlineKeyboard rows) = map (order_choice (JStr rid)) same /\
    In f same /\
    rows <> [].
Proof.
  intros H1 H2 Hloads Hstored Hmenu Hin Hacc same.
  destruct (has_menu_inv r Hmenu) as [Hname [fs [Hget [Hfs Hnamed]]]].
  destruct (choose_food_rows_spec (JStr rid) (name_of f) fs Hnamed)
    as [rows [Hrows [Hcb Hlen]]].
  assert (Hsame : In f same).
  { unfold same. apply filter_In. split; [exact Hin|].
    unfold named_like. rewrite forallb_forall in Hnamed.
    rewrite Hfs in Hin. pose proof (Hnamed f Hin) as Hf.
    unfold name_of. destruct f as [| | | | | |d]; try discriminate Hf.
    cbn [has_name] in Hf. cbn [Py.get Py.get_or].
    destruct (Py.assoc "name" d) as [[| | | |n| |]|]; try discriminate Hf.
    cbn [Py.eq]. apply String.eqb_refl. }
  exists rows. split; [|split; [|split]].
  - assert (Haction : Py.get (food_choice (rid, r, f)) "action" =
                      Ok (JStr "select_rest_food")) by reflexivity.
    assert (Hrid : Py.getitem (food_choice (rid, r, f)) "rid" = Ok (JStr rid))
      by reflexivity.
    assert (Hfood : Py.getitem (food_choice (rid, r, f)) "food_name" =
                    Ok (name_of f)) by reflexivity.
    unfold callback_handler. rewrite H1, H2, Hloads.
    erewrite bind_ok by (unfold lift; rewrite Haction; reflexivity).
    cbn [is_text Py.eq String.eqb Ascii.eqb Bool.eqb andb].
    unfold on_select_rest_food.
    erewrite bind_ok by (unfold lift; rewrite Hrid; reflexivity).
    erewrite bind_ok by (unfold lift; rewrite Hfood; reflexivity).
    erewrite bind_ok by apply ref_get_eq.
    cbn [fst snd]. rewrite Hstored.
    assert (Htruthy : Py.truthy r = true).
    { destruct r as [| | | | | |[|kv d]]; try discriminate Hname.
      reflexivity. }
    rewrite Htruthy. cbn [negb].
    erewrite bind_ok by (unfold lift; rewrite Hget; reflexivity).
    erewrite bind_ok by (unfold lift; rewrite Hrows; reflexivity).
    erewrite bind_ok
      by (unfold lift; rewrite (has_name_getitem r Hname); reflexivity).
    unfold bind, bot_send_message. rewrite Hacc. reflexivity.
  - unfold payloads. rewrite Hcb. unfold same, named_like. rewrite Hfs.
    reflexivity.
  - exact Hsame.
  - intros ->. unfold same, named_like in Hsame. rewrite Hfs in Hsame.
    cbn [List.length] in Hlen.
    destruct (filter (fun f' => Py.eq (name_of f') (name_of f)) fs);
      [contradiction|discriminate].
Qed.

Lemma search_hit_opens_its_food_witness :
  let E := env_with "select_rest_food r1 Pasta"
             (food_choice ("r1", JDict [("name", JStr "Pizza Place");
                                        ("foods", JList [burger; pasta])],
                           pasta)) in
  let press := {| call_from_id := 42; call_full_name := "Ann";
                  call_data := "select_rest_food r1 Pasta" |} in
  exists rows,
    log (exec (callback_handler E press) (world_of two_menus_db)) =
      [EvSend (JInt 42) [Val (JStr "Pizza Place"); Lit " menu:"]
         (InlineKeyboard rows);
       EvAnswer None] /\
    payloads (InlineKeyboard rows) =
      [JDict [("action", JStr "choose_food"); ("rid", JStr "r1");
              ("food_name", JStr "Pasta")]].
Proof.
  intros E press.
  destruct (search_hit_opens_its_food E press (world_of two_menus_db) "r1"
              (JDict [("name", JStr "Pizza Place");
                      ("foods", JList [burger; pasta])]) pasta)
    as [rows [Hrun [Hcb _]]];
    [reflexivity | reflexivity | reflexivity | reflexivity | reflexivity
    | right; left; reflexivity | reflexivity | ].
  exists rows. split; [|exact Hcb].
  unfold exec. rewrite Hrun. reflexivity.
Defined.

(** ** Shared locations *)

Create HintDb keeps.

Lemma keeps_ret (uid : Z) {A : Type} (a : A) : keeps_outside uid (ret a).
Proof. intros w q _. reflexivity. Qed.

Lemma keeps_lift (uid : Z) {A : Type} (r : result A) :
  keeps_outside uid (lift r).
Proof. intros w q _. reflexivity. Qed.

Lemma keeps_bind (uid : Z) {A B : Type} (c : M A) (k : A -> M B) :
  keeps_outside uid c -> (forall a, keeps_outside uid (k a)) ->
  keeps_outside uid (bind c k).
Proof.
  intros Hc Hk w q Hq. unfold bind. specialize (Hc w q Hq).
  destruct (c w) as [w1 [a|e]]; cbn [fst] in *; [|exact Hc].
  rewrite (Hk a w1 q Hq). exact Hc.
Qed.

Lemma keeps_message (uid : Z) (E : Env) (chat : json) (text : list frag)
  (kb : markup) : keeps_outside uid (bot_send_message E chat text kb).
Proof.
  intros w q _. unfold bot_send_message. destruct (accepts E chat); reflexivity.
Qed.

Lemma keeps_send (uid : Z) (E : Env) (chat : Z) (text : string) :
  keeps_outside uid (send E chat text).
Proof. apply keeps_message. Qed.

Lemma keeps_ref_get (uid : Z) (p : path) : keeps_outside uid (ref_get p).
Proof. intros w q _. reflexivity. Qed.

Lemma keeps_get_user_state (uid user : Z) :
  keeps_outside uid (get_user_state user).
Proof. intros w q _. reflexivity. Qed.

Lemma keeps_flag (uid : Z) (state : json) (k : string) :
  keeps_outside uid (flag state k).
Proof.
  intros w q _. unfold flag, bind, lift. destruct (Py.get state k); reflexivity.
Qed.

Lemma keeps_ref_set (uid : Z) (r : path) (v : json) :
  keeps_outside uid (ref_set (get_user_ref uid ++ r) v).
Proof.
  intros w q Hq. destruct v; try reflexivity;
    (rewrite ref_set_eq by discriminate; cbn [fst db logged with_db];
     apply json_at_set_diverges; apply diverges_prefix; exact Hq).
Qed.

Lemma keeps_ref_update (uid : Z) (r : path) (v : json) :
  keeps_outside uid (ref_update (get_user_ref uid ++ r) v).
Proof.
  intros w q Hq. destruct v as [| | | | | |[|kv d]]; try reflexivity.
  unfold ref_update, bind, read_db, write_db, emit. cbn [fst db].
  apply merge_frame. apply diverges_prefix. exact Hq.
Qed.

Lemma keeps_set_user_state (uid : Z) (state : json) :
  keeps_outside uid (set_user_state uid state).
Proof.
  intros w q Hq. unfold set_user_state, try_except, state_ref.
  pose proof (keeps_ref_update uid ["state"] state w q Hq) as Hu.
  destruct (ref_update (get_user_ref uid ++ ["state"]) state w)
    as [w1 [u|e]]; cbn [fst] in *; [exact Hu|].
  rewrite (keeps_ref_set uid ["state"] state w1 q Hq). exact Hu.
Qed.

Lemma keeps_find_restaurants_near_user (uid : Z) (E : Env) (user : Z)
  (lat lon radius : Py.float) :
  keeps_outside uid (find_restaurants_near_user E user lat lon radius).
Proof.
  unfold find_restaurants_near_user.
  apply keeps_bind; [apply keeps_ref_get|]. intros docs.
  apply keeps_bind; [apply keeps_lift|]. intros items.
  apply keeps_bind; [apply keeps_lift|]. intros distances.
  destruct (Py.sort_by Py.flt distances); [apply keeps_message|].
  apply keeps_bind; [apply keeps_lift|]. intros listing. apply keeps_message.
Qed.

#[local] Hint Resolve keeps_ret keeps_lift keeps_message keeps_send
  keeps_ref_get keeps_get_user_state keeps_flag keeps_ref_set
  keeps_set_user_state keeps_find_restaurants_near_user : keeps.

Ltac keeps_step :=
  match goal with
  | |- keeps_outside _ (bind _ _) => apply keeps_bind; [|intros ?]
  | |- keeps_outside _ (if ?b then _ else _) => destruct b
  | |- keeps_outside _ (ref_set (get_user_ref ?u ++ _) _) => apply keeps_ref_set
  | |- keeps_outside _ _ => solve [auto with keeps]
  end.

Lemma keeps_handle_location (E : Env) (message : Message) :
  keeps_outside (from_id message) (handle_location E message).
Proof.
  unfold handle_location.
  destruct (location_of message) as [[lat lon]|]; [|apply keeps_send].
  cbn zeta. repeat keeps_step.
Qed.

Lemma saved_location (E : Env) (message : Message) (w : World)
  (lat lon : Py.float) :
  location_of message = Some (lat, lon) ->
  expects_no_location
    (Py.or_else (json_at (state_ref (from_id message)) (db w)) (JDict [])) =
    true ->
  accepts E (JInt (from_id message)) = true ->
  handle_location E message w =
    (logged (EvSend (JInt (from_id message)) [Lit "Location saved!"] NoMarkup)
       (logged (EvSet (get_user_ref (from_id message) ++ ["last_location"])
                  (coordinates lat lon))
          (with_db
             (json_set (get_user_ref (from_id message) ++ ["last_location"])
                (coordinates lat lon) (db w)) w)),
     Ok tt).
Proof.
  intros Hloc Hno Hacc. unfold handle_location. rewrite Hloc.
  erewrite bind_ok by apply get_user_state_eq. cbn zeta.
  set (state := Py.or_else _ (JDict [])) in *.
  assert (Hs : Py.or_else state (JDict []) = state).
  { unfold state, Py.or_else.
    destruct (Py.truthy (json_at _ _)) eqn:Ht; [rewrite Ht|]; reflexivity. }
  rewrite Hs. unfold expects_no_location in Hno.
  destruct (Py.get state "reg_rest_step") as [reg|] eqn:Hreg;
    [|discriminate].
  destruct (Py.get state "step") as [step|] eqn:Hstep; [|discriminate].
  assert (Hdict : is_dict state = true).
  { destruct state; try discriminate Hreg. reflexivity. }
  repeat (apply andb_true_iff in Hno; destruct Hno as [Hno ?]).
  repeat match goal with
         | K : negb _ = true |- _ => apply negb_true_iff in K
         end.
  erewrite bind_ok by (unfold lift; reflexivity).
  rewrite Hno.
  rewrite (bind_ok _ _ _ _ _ (flag_eq state _ _ Hdict)).
  match goal with K : flag_of state "awaiting_rest_location" = false |- _ =>
    rewrite K end.
  rewrite (bind_ok _ _ _ _ _ (flag_eq state _ _ Hdict)).
  assert (Hadd : forall k1 k2 : M unit,
    (step0 <- (if flag_of state "add_rest"
               then lift (Ok step) else ret JNull) ;;
     if flag_of state "add_rest" && is_text step0 "location" then k1 else k2) w
    = k2 w).
  { intros k1 k2. destruct (flag_of state "add_rest") eqn:Hon.
    - erewrite bind_ok by reflexivity.
      match goal with K : true && is_text step "location" = false |- _ =>
        rewrite K end. reflexivity.
    - erewrite bind_ok by reflexivity. reflexivity. }
  rewrite Hadd.
  rewrite (bind_ok _ _ _ _ _ (flag_eq state _ _ Hdict)).
  match goal with
    K : flag_of state "awaiting_search_by_location" = false |- _ =>
    rewrite K end.
  erewrite bind_ok by (apply ref_set_eq; discriminate).
  rewrite send_eq. cbn [logged with_db db]. rewrite Hacc. reflexivity.
Qed.

(** X25.  A shared location never reaches a restaurant.  Whatever the
    state of the sender, [handle_location] writes nothing outside the
    sender's own record, so no stored restaurant changes.  When none of
    the flows it serves waits for a location, as while the sender edits
    the location of a restaurant, the position is saved as the sender's
    last location, the sender is told that the location is saved, and
    the state stays as it was. *)
Theorem location_never_reaches_a_restaurant (E : Env) (message : Message)
  (w : World) :
  let uid := from_id message in
  let w' := exec (handle_location E message) w in
  (forall q, diverges (get_user_ref uid) q = true ->
             json_at q (db w') = json_at q (db w)) /\
  json_at restaurants_ref (db w') = json_at restaurants_ref (db w) /\
  (forall lat lon,
      location_of message = Some (lat, lon) ->
      expects_no_location
        (Py.or_else (json_at (state_ref uid) (db w)) (JDict [])) = true ->
      accepts E (JInt uid) = true ->
      outcome (handle_location E message) w = Ok tt /\
      json_at (get_user_ref uid ++ ["last_location"]) (db w') =
        coordinates lat lon /\
      json_at (state_ref uid) (db w') = json_at (state_ref uid) (db w) /\
      log w' = log w ++
        [EvSet (get_user_ref uid ++ ["last_location"]) (coordinates lat lon);
         EvSend (JInt uid) [Lit "Location saved!"] NoMarkup]).
Proof.
  intros uid w'.
  assert (Hframe : forall q, diverges (get_user_ref uid) q = true ->
                             json_at q (db w') = json_at q (db w)).
  { intros q Hq. apply (keeps_handle_location E message w q Hq). }
  split; [exact Hframe|]. split; [apply Hframe; reflexivity|].
  intros lat lon Hloc Hno Hacc.
  unfold w', exec, outcome.
  rewrite (saved_location E message w lat lon Hloc Hno Hacc).
  cbn [fst snd db log logged with_db].
  split; [reflexivity|]. split; [apply json_at_set_same|].
  split; [|rewrite <- app_assoc; reflexivity].
  apply json_at_set_diverges. unfold state_ref. fold uid.
  apply diverges_app. reflexivity.
Qed.

Lemma location_never_reaches_a_restaurant_witness :
  let message := shares 1 "Root" fzero fzero in
  let w := world_of (admin_db (JDict (editing_location "r1"))) in
  let w' := exec (handle_location demo_env message) w in
  json_at (restaurants_ref ++ ["r1"]) (db w') =
    JDict [("name", JStr "Pizza Place")] /\
  json_at (get_user_ref 1 ++ ["last_location"]) (db w') = origin /\
  json_at (state_ref 1) (db w') = JDict (editing_location "r1").
Proof.
  intros message w w'.
  destruct (location_never_reaches_a_restaurant demo_env message w)
    as [Hframe [_ Hsaved]].
  destruct (Hsaved fzero fzero eq_refl eq_refl eq_refl)
    as [_ [Hlast [Hstate _]]].
  split; [|split].
  - etransitivity; [apply Hframe; reflexivity|reflexivity].
  - exact Hlast.
  - etransitivity; [exact Hstate|reflexivity].
Defined.
